(** * Claude-Skills command-line tools: a shallow embedding and its properties

    The repository is a set of independent Python scripts.  This development
    embeds the ones the specification makes promises about:

    - [cross_platform_validator.py]  (module [Validator])
    - [skills_index_builder.py]      (module [IndexBuilder], frontmatter parser)
    - [pipeline_analyzer.py]         (module [Pipeline])
    - [claudemd_optimizer.py]        (module [Optimizer])
    - [skill_scaffolder.py]          (module [Scaffolder])
    - [skill-installer.py]           (module [Installer])

    Python values are modelled as follows.  A [str] is a [string] whose
    characters are code points below 256; the character classes of [str.strip],
    [\s], [\w] and [str.lower] are Python's, restricted to that range.  A [dict]
    with string keys is a [gmap string _]; a [dict] whose iteration order is
    observable is an association list.  A function that can raise returns a
    [result]; a command that can call [sys.exit] returns an [outcome].  What a
    script reads from the file system (is this a file, what does reading it
    give) is an explicit input of the embedded function. *)

From Stdlib Require Import Ascii String ZArith Lia List Bool.
From stdpp Require Import base decidable option list gmap strings pretty functions sorting.

#[local] Set Warnings "-register-all".

(* ===================================================================== *)
(** * Python strings                                                      *)
(* ===================================================================== *)

Module Py.

Definition code (c : ascii) : N := N_of_ascii c.

Definition between (lo hi : N) (c : ascii) : bool :=
  ((lo <=? code c) && (code c <=? hi))%N.

(** [str.isspace] (also the class [\s] of [re]) on code points below 256. *)
Definition isspace (c : ascii) : bool :=
  between 9 13 c || between 28 32 c || (code c =? 133)%N || (code c =? 160)%N.

(** [str.isdecimal] (also the class [\d] of [re]) on code points below 256. *)
Definition isdecimal (c : ascii) : bool := between 48 57 c.

(** [str.isalnum] on code points below 256: letters, digits and the numeric
    characters of Latin-1. *)
Definition isalnum (c : ascii) : bool :=
  between 48 57 c || between 65 90 c || between 97 122 c
  || (code c =? 170)%N || between 178 179 c || (code c =? 181)%N
  || between 185 186 c || between 188 190 c
  || between 192 214 c || between 216 246 c || between 248 255 c.

(** The class [\w] of [re] on [str] patterns. *)
Definition isword (c : ascii) : bool := isalnum c || (code c =? 95)%N.

Definition lower_char (c : ascii) : ascii :=
  if between 65 90 c || between 192 214 c || between 216 222 c
  then ascii_of_N (code c + 32) else c.

(** [str.upper] of one character, where the result is one code point
    below 256 (the three Latin-1 characters whose upper case is not are
    left as they are). *)
Definition upper_char (c : ascii) : ascii :=
  if between 97 122 c || between 224 246 c || between 248 254 c
  then ascii_of_N (code c - 32) else c.

Fixpoint lower (s : string) : string :=
  match s with
  | EmptyString => EmptyString
  | String c s' => String (lower_char c) (lower s')
  end.

(** [str.capitalize]. *)
Definition capitalize (s : string) : string :=
  match s with
  | EmptyString => EmptyString
  | String c s' => String (upper_char c) (lower s')
  end.

Definition len (s : string) : nat := String.length s.

Definition eqb (s t : string) : bool := String.eqb s t.

(** Truth value of a [str]. *)
Definition truthy (s : string) : bool := negb (eqb s "").

Fixpoint lstrip (s : string) : string :=
  match s with
  | EmptyString => EmptyString
  | String c s' => if isspace c then lstrip s' else s
  end.

Fixpoint rstrip (s : string) : string :=
  match s with
  | EmptyString => EmptyString
  | String c s' =>
      match rstrip s' with
      | EmptyString => if isspace c then EmptyString else String c EmptyString
      | r => String c r
      end
  end.

Definition strip (s : string) : string := rstrip (lstrip s).

(** [s.lstrip(chars)], [s.rstrip(chars)], [s.strip(chars)]. *)
Fixpoint lstrip_chars (p : ascii → bool) (s : string) : string :=
  match s with
  | EmptyString => EmptyString
  | String c s' => if p c then lstrip_chars p s' else s
  end.

Fixpoint rstrip_chars (p : ascii → bool) (s : string) : string :=
  match s with
  | EmptyString => EmptyString
  | String c s' =>
      match rstrip_chars p s' with
      | EmptyString => if p c then EmptyString else String c EmptyString
      | r => String c r
      end
  end.

Definition strip_chars (p : ascii → bool) (s : string) : string :=
  rstrip_chars p (lstrip_chars p s).

Fixpoint startswith (p s : string) : bool :=
  match p, s with
  | EmptyString, _ => true
  | String a p', String b s' => Ascii.eqb a b && startswith p' s'
  | String _ _, EmptyString => false
  end.

Fixpoint drop (n : nat) (s : string) : string :=
  match n, s with
  | O, _ => s
  | S n', String _ s' => drop n' s'
  | S _, EmptyString => EmptyString
  end.

Fixpoint take (n : nat) (s : string) : string :=
  match n, s with
  | S n', String c s' => String c (take n' s')
  | _, _ => EmptyString
  end.

Definition endswith (p s : string) : bool :=
  (len p <=? len s)%nat && eqb (drop (len s - len p) s) p.

(** [sub in s]. *)
Fixpoint contains (sub s : string) : bool :=
  startswith sub s ||
  match s with
  | EmptyString => false
  | String _ s' => contains sub s'
  end.

(** [s.count(sub)] for a non-empty [sub]: occurrences that do not overlap,
    from the left.  [skip] characters of the last occurrence are still to be
    passed. *)
Fixpoint count_from (sub s : string) (skip : nat) : nat :=
  match s with
  | EmptyString => O
  | String _ s' =>
      match skip with
      | S k => count_from sub s' k
      | O => if startswith sub s then S (count_from sub s' (len sub - 1))
             else count_from sub s' O
      end
  end.

Definition count (sub s : string) : nat := count_from sub s O.

(** [s[1:-1]]. *)
Fixpoint init (s : string) : string :=
  match s with
  | EmptyString => EmptyString
  | String c EmptyString => EmptyString
  | String c s' => String c (init s')
  end.

Definition slice_1_m1 (s : string) : string := init (drop 1 s).

(** [s.split(sep)] for a one-character separator: never empty. *)
Fixpoint split (sep : ascii) (s : string) : list string :=
  match s with
  | EmptyString => [EmptyString]
  | String c s' =>
      if Ascii.eqb c sep then EmptyString :: split sep s'
      else match split sep s' with
           | h :: t => String c h :: t
           | [] => [String c EmptyString]
           end
  end.

(** [s.split(sep, 1)] for a one-character separator: the text before the
    first separator and, when there is one, the text after it. *)
Fixpoint split1 (sep : ascii) (s : string) : string * option string :=
  match s with
  | EmptyString => (EmptyString, None)
  | String c s' =>
      if Ascii.eqb c sep then (EmptyString, Some s')
      else let '(h, t) := split1 sep s' in (String c h, t)
  end.

(** [s.split()]: the maximal runs of characters that are not white space. *)
Fixpoint words_go (cur : option string) (s : string) : list string :=
  match s with
  | EmptyString => option_list (String.rev <$> cur)
  | String c s' =>
      if isspace c then option_list (String.rev <$> cur) ++ words_go None s'
      else words_go (Some (String c (default EmptyString cur))) s'
  end.

Definition words (s : string) : list string := words_go None s.

(** [s.split(sep)] and [s.split(sep, max)] for a non-empty separator of any
    length.  [skip] characters of the last separator are still to be passed;
    [cur] is the piece being read, reversed. *)
Fixpoint split_str_from (sep s : string) (skip : nat) (max : option nat)
    (cur : string) : list string :=
  match s with
  | EmptyString => [String.rev cur]
  | String c s' =>
      match skip with
      | S k => split_str_from sep s' k max cur
      | O =>
          if startswith sep s && negb (bool_decide (max = Some O)) then
            String.rev cur ::
              split_str_from sep s' (len sep - 1) (pred <$> max) EmptyString
          else split_str_from sep s' O max (String c cur)
      end
  end.

Definition split_str (sep s : string) (max : option nat) : list string :=
  split_str_from sep s O max EmptyString.

(** [s.find(sub, start)]: the index of the first occurrence of [sub] at or
    after [start], or [None] for Python's -1. *)
Fixpoint find_from (sub s : string) (i : nat) (start : nat) : option nat :=
  match start with
  | S k =>
      match s with
      | EmptyString => None
      | String _ s' => find_from sub s' (S i) k
      end
  | O =>
      if startswith sub s then Some i
      else match s with
           | EmptyString => None
           | String _ s' => find_from sub s' (S i) O
           end
  end.

Definition find (sub s : string) (start : nat) : option nat :=
  find_from sub s O start.

(** The line boundaries of [str.splitlines] among the code points below
    256, the carriage return apart. *)
Definition is_linebreak (c : ascii) : bool :=
  between 10 12 c || between 28 30 c || (code c =? 133)%N.

(** [s.splitlines()]; [cur] is the line being read, reversed. *)
Fixpoint splitlines_go (cur : string) (s : string) : list string :=
  match s with
  | EmptyString =>
      match cur with
      | EmptyString => []
      | _ => [String.rev cur]
      end
  | String c s' =>
      if (code c =? 13)%N then
        String.rev cur ::
          match s' with
          | String c' s'' =>
              if (code c' =? 10)%N then splitlines_go EmptyString s''
              else splitlines_go EmptyString s'
          | EmptyString => []
          end
      else if is_linebreak c then String.rev cur :: splitlines_go EmptyString s'
      else splitlines_go (String c cur) s'
  end.

Definition splitlines (s : string) : list string := splitlines_go EmptyString s.

(** [sep.join(l)]. *)
Fixpoint join (sep : string) (l : list string) : string :=
  match l with
  | [] => EmptyString
  | [x] => x
  | x :: l' => x +:+ sep +:+ join sep l'
  end.

(** [s.replace(a, b)] for single characters. *)
Fixpoint replace_char (a b : ascii) (s : string) : string :=
  match s with
  | EmptyString => EmptyString
  | String c s' => String (if Ascii.eqb c a then b else c) (replace_char a b s')
  end.

(** [len([x for x in l if p(x)])] *)
Definition count_if {A} (p : A → bool) (l : list A) : nat :=
  length (List.filter p l).

(** [x in (a, b, ...)] for strings. *)
Definition among (x : string) (l : list string) : bool := existsb (eqb x) l.

Definition nl : ascii := ascii_of_nat 10.
Definition dquote : ascii := ascii_of_nat 34.
Definition squote : ascii := ascii_of_nat 39.

Definition lines (s : string) : list string := split nl s.

(** A dict in insertion order: assigning to a key that is present keeps
    its place. *)
Fixpoint dict_set {V} (k : string) (v : V) (d : list (string * V))
    : list (string * V) :=
  match d with
  | [] => [(k, v)]
  | (k', v') :: d' =>
      if eqb k k' then (k, v) :: d' else (k', v') :: dict_set k v d'
  end.

Fixpoint dict_get {V} (k : string) (d : list (string * V)) : option V :=
  match d with
  | [] => None
  | (k', v) :: d' => if eqb k k' then Some v else dict_get k d'
  end.

(** [key in d] for such a dict. *)
Definition dict_has {V} (k : string) (d : list (string * V)) : bool :=
  bool_decide (is_Some (dict_get k d)).

End Py.

(* ===================================================================== *)
(** * Regular expressions (the fragment of [re] the scripts use)          *)
(* ===================================================================== *)

Module Re.

(** Repetition is over a character class, which is all the patterns of the
    scripts repeat; it is greedy.  [Group 0] is the whole match. *)
Inductive regex :=
| Eps
| Chr (p : ascii → bool)
| Seq (r1 r2 : regex)
| Alt (r1 r2 : regex)
| Rep (p : ascii → bool) (lo : nat) (hi : option nat)
| Opt (r : regex)
| Group (i : nat) (r : regex)
| Bol
| Eol
| WordB.

Definition captures := list (nat * string).

Fixpoint group (i : nat) (cs : captures) : option string :=
  match cs with
  | [] => None
  | (j, s) :: cs' => if Nat.eqb i j then Some s else group i cs'
  end.

(** The text between a position [s] and a later position [s']. *)
Definition consumed (s s' : string) : string :=
  Py.take (Py.len s - Py.len s') s.

Definition cont (A : Type) : Type := option ascii → string → captures → option A.

Fixpoint rep {A} (p : ascii → bool) (lo : nat) (hi : option nat)
    (prev : option ascii) (s : string) (cs : captures) (k : cont A) : option A :=
  let stop := match lo with O => k prev s cs | S _ => None end in
  match s with
  | String c s' =>
      if p c && negb (bool_decide (hi = Some O)) then
        match rep p (pred lo) (pred <$> hi) (Some c) s' cs k with
        | Some x => Some x
        | None => stop
        end
      else stop
  | EmptyString => stop
  end.

Definition is_word_at (c : option ascii) : bool :=
  match c with Some c => Py.isword c | None => false end.

Definition head (s : string) : option ascii :=
  match s with String c _ => Some c | EmptyString => None end.

(** Backtracking matcher: alternatives in order, repetitions longest first. *)
Fixpoint run {A} (r : regex) (prev : option ascii) (s : string)
    (cs : captures) (k : cont A) : option A :=
  match r with
  | Eps => k prev s cs
  | Chr p =>
      match s with
      | String c s' => if p c then k (Some c) s' cs else None
      | EmptyString => None
      end
  | Seq r1 r2 => run r1 prev s cs (λ prev' s' cs', run r2 prev' s' cs' k)
  | Alt r1 r2 =>
      match run r1 prev s cs k with
      | Some x => Some x
      | None => run r2 prev s cs k
      end
  | Rep p lo hi => rep p lo hi prev s cs k
  | Opt r' =>
      match run r' prev s cs k with
      | Some x => Some x
      | None => k prev s cs
      end
  | Group i r' =>
      run r' prev s cs (λ prev' s' cs', k prev' s' ((i, consumed s s') :: cs'))
  | Bol => match prev with None => k prev s cs | Some _ => None end
  | Eol =>
      if Py.eqb s EmptyString || Py.eqb s (String Py.nl EmptyString)
      then k prev s cs else None
  | WordB =>
      if xorb (is_word_at prev) (is_word_at (head s)) then k prev s cs else None
  end.

(** A match at the current position: its captures (group 0 included) and the
    text that follows it. *)
Definition match_here (r : regex) (prev : option ascii) (s : string)
    : option (captures * string) :=
  run (Group 0 r) prev s [] (λ _ s' cs, Some (cs, s')).

(** [re.match(r, s)]. *)
Definition rmatch (r : regex) (s : string) : option captures :=
  fst <$> match_here r None s.

Fixpoint search_from (r : regex) (prev : option ascii) (s : string)
    : option captures :=
  match match_here r prev s with
  | Some (cs, _) => Some cs
  | None =>
      match s with
      | String c s' => search_from r (Some c) s'
      | EmptyString => None
      end
  end.

(** [re.search(r, s)]. *)
Definition search (r : regex) (s : string) : option captures :=
  search_from r None s.

(** [re.findall(r, s)], as the list of the matches' captures: matches from
    the left that do not overlap.  [skip] characters of the last match are
    still to be passed. *)
Fixpoint findall_from (r : regex) (prev : option ascii) (s : string)
    (skip : nat) : list captures :=
  match skip with
  | S k =>
      match s with
      | String c s' => findall_from r (Some c) s' k
      | EmptyString => []
      end
  | O =>
      match match_here r prev s with
      | Some (cs, rest) =>
          cs :: match s with
                | String c s' =>
                    findall_from r (Some c) s' (Py.len s - Py.len rest - 1)
                | EmptyString => []
                end
      | None =>
          match s with
          | String c s' => findall_from r (Some c) s' O
          | EmptyString => []
          end
      end
  end.

Definition findall (r : regex) (s : string) : list captures :=
  findall_from r None s O.

(** [re.split(r, s)] for a pattern without groups that matches no empty
    text: the pieces between the matches.  [cur] is the piece being read,
    reversed. *)
Fixpoint split_from (r : regex) (prev : option ascii) (s : string)
    (skip : nat) (cur : string) : list string :=
  match s with
  | EmptyString => [String.rev cur]
  | String c s' =>
      match skip with
      | S k => split_from r (Some c) s' k cur
      | O =>
          match match_here r prev s with
          | Some (_, rest) =>
              String.rev cur ::
                split_from r (Some c) s' (Py.len s - Py.len rest - 1) EmptyString
          | None => split_from r (Some c) s' O (String c cur)
          end
      end
  end.

Definition split (r : regex) (s : string) : list string :=
  split_from r None s O EmptyString.

(** Pattern builders. *)
Definition chr (c : ascii) : regex := Chr (Ascii.eqb c).
Definition ichr (c : ascii) : regex :=
  Chr (λ x, Ascii.eqb (Py.lower_char x) (Py.lower_char c)).

Fixpoint lit (s : string) : regex :=
  match s with
  | EmptyString => Eps
  | String c EmptyString => chr c
  | String c s' => Seq (chr c) (lit s')
  end.

(** A literal under [re.IGNORECASE]. *)
Fixpoint ilit (s : string) : regex :=
  match s with
  | EmptyString => Eps
  | String c EmptyString => ichr c
  | String c s' => Seq (ichr c) (ilit s')
  end.

Fixpoint seq (l : list regex) : regex :=
  match l with
  | [] => Eps
  | [r] => r
  | r :: l' => Seq r (seq l')
  end.

Fixpoint alt (l : list regex) : regex :=
  match l with
  | [] => Chr (λ _, false)
  | [r] => r
  | r :: l' => Alt r (alt l')
  end.

Definition star (p : ascii → bool) : regex := Rep p 0 None.
Definition plus (p : ascii → bool) : regex := Rep p 1 None.

Definition space : ascii → bool := Py.isspace.
Definition nonspace (c : ascii) : bool := negb (Py.isspace c).
Definition word : ascii → bool := Py.isword.
Definition digit : ascii → bool := Py.isdecimal.
(** [.] without [re.DOTALL]. *)
Definition dot (c : ascii) : bool := negb (Ascii.eqb c Py.nl).
Definition oneof (cs : string) (c : ascii) : bool :=
  existsb (Ascii.eqb c) (list_ascii_of_string cs).
Definition noneof (cs : string) (c : ascii) : bool := negb (oneof cs c).

(** The groups every match of a pattern sets, and two relations on
    captures used to state it. *)
Fixpoint sure_groups (r : regex) : list nat :=
  match r with
  | Group i r' => i :: sure_groups r'
  | Seq r1 r2 => sure_groups r1 ++ sure_groups r2
  | _ => []
  end.

Definition has_groups (l : list nat) (cs : captures) : Prop :=
  Forall (λ i, is_Some (group i cs)) l.

Definition extends (cs cs' : captures) : Prop :=
  ∀ i, is_Some (group i cs) → is_Some (group i cs').

End Re.

(* ===================================================================== *)
(** * Exceptions and exit codes                                           *)
(* ===================================================================== *)

Inductive exn :=
| OSError (msg : string)
| UnicodeDecodeError (msg : string)
| IndexError
| ValueError
| OverflowError
| KeyError (key : string).

(** The value of a call that can raise. *)
Inductive result (A : Type) :=
| Ok (a : A)
| Raised (e : exn).
Arguments Ok {A} a.
Arguments Raised {A} e.

#[global] Instance result_ret : MRet result := @Ok.
#[global] Instance result_bind : MBind result := λ A B f x,
  match x with
  | Ok a => f a
  | Raised e => Raised e
  end.
#[global] Instance result_fmap : FMap result := λ A B f x,
  match x with
  | Ok a => Ok (f a)
  | Raised e => Raised e
  end.

(** What opening a file and reading it as UTF-8 text gives: the text, an
    [OSError] (the file cannot be opened or read) or a [UnicodeDecodeError]
    (its bytes are not UTF-8); the failures carry the exception's text. *)
Inductive read_result :=
| Text (content : string)
| OsFail (msg : string)
| DecodeFail (msg : string).


(** How a script's [main] ends: [sys.exit(code)] (falling off the end of
    [main] is [Exit 0]), or an exception nobody catches, on which the
    interpreter prints the traceback and exits with status 1. *)
Inductive outcome :=
| Exit (code : Z)
| Uncaught (e : exn).


(** What [parser.parse_args()] does with a command line: it returns the
    namespace, or prints the help and exits with status 0, or reports a
    usage error (a missing or unknown argument, a value outside [choices])
    and exits with status 2. *)
Inductive parsed (A : Type) :=
| Namespace (args : A)
| Help
| UsageError.
Arguments Namespace {A} args.
Arguments Help {A}.
Arguments UsageError {A}.
(* ===================================================================== *)
(** * Frontmatter scanning shared by the validator and the index builder  *)
(* ===================================================================== *)

Module Frontmatter.

(** The pattern of a [key: value] line: at the start, a word character
    followed by word characters and hyphens (group 1), white space, a colon,
    white space, and the rest of the line (group 2). *)
Definition key_value_re : Re.regex :=
  Re.seq [ Re.Bol;
           Re.Group 1 (Re.Seq (Re.Chr Re.word)
                              (Re.star (λ c, Re.word c || Ascii.eqb c "-")));
           Re.star Re.space; Re.chr ":"; Re.star Re.space;
           Re.Group 2 (Re.star Re.dot) ].

(** [m.group(i)]: raises [IndexError] when the match has no such group. *)
Definition get_group (i : nat) (cs : Re.captures) : result string :=
  match Re.group i cs with
  | Some s => Ok s
  | None => Raised IndexError
  end.

(** [lines[i]]: raises [IndexError] out of range. *)
Definition get_line (lines : list string) (i : nat) : result string :=
  match lines !! i with
  | Some l => Ok l
  | None => Raised IndexError
  end.

(** [for i in range(i, i + n): if lines[i].strip() == "---": end_index = i; break] *)
Fixpoint find_end_from (lines : list string) (i n : nat) : result (option nat) :=
  match n with
  | O => Ok None
  | S n' =>
      l ← get_line lines i;
      if Py.eqb (Py.strip l) "---" then Ok (Some i)
      else find_end_from lines (S i) n'
  end.

(** The loop over [range(1, len(lines))]; [None] is [end_index == -1]. *)
Definition find_end (lines : list string) : result (option nat) :=
  find_end_from lines 1 (length lines - 1).

(** [lines[1:end_index]] *)
Definition body (lines : list string) (end_index : nat) : list string :=
  take (end_index - 1) (drop 1 lines).

Definition quoted (v : string) : bool :=
  (Py.startswith (String Py.dquote "") v && Py.endswith (String Py.dquote "") v)
  || (Py.startswith (String Py.squote "") v && Py.endswith (String Py.squote "") v).

(** [if quoted: v = v[1:-1]] *)
Definition unquote (v : string) : string :=
  if quoted v then Py.slice_1_m1 v else v.

Definition indent_of (line : string) : nat :=
  Py.len line - Py.len (Py.lstrip line).

(** Truth value of an [Optional[str]]. *)
Definition key_set (k : option string) : bool :=
  match k with
  | Some k => Py.truthy k
  | None => false
  end.

(** [for line in ls: st = step(st, line)] with a step that can raise. *)
Fixpoint loop {S : Type} (step : S → string → result S) (ls : list string)
    (st : S) : result S :=
  match ls with
  | [] => Ok st
  | l :: ls' => st' ← step st l; loop step ls' st'
  end.

(** A closing line as the parsers look for it: a line after the first whose
    text, white space stripped, is [---]. *)
Definition has_closing_line (content : string) : Prop :=
  ∃ i l, (1 ≤ i)%nat ∧ Py.lines content !! i = Some l ∧ Py.strip l = "---".

(** The first line is a delimiter line: its text, white space stripped, is
    [---]. *)
Definition starts_with_delimiter_line (content : string) : Prop :=
  ∃ l, head (Py.lines content) = Some l ∧ Py.strip l = "---".

End Frontmatter.

(* ===================================================================== *)
(** * cross_platform_validator.py                                         *)
(* ===================================================================== *)

Module Validator.
Import Frontmatter.

(** ** [parse_yaml_frontmatter_simple] *)

Record fm_state := {
  fm_result : gmap string string;
  fm_key : option string;          (* current_key *)
  fm_value : string;               (* current_value *)
}.

Definition fm_init : fm_state :=
  {| fm_result := ∅; fm_key := None; fm_value := "" |}.

(** [if current_key and current_value: result[current_key] = current_value.strip()] *)
Definition fm_flush (st : fm_state) : gmap string string :=
  match fm_key st with
  | Some k =>
      if Py.truthy k && Py.truthy (fm_value st)
      then <[k := Py.strip (fm_value st)]> (fm_result st)
      else fm_result st
  | None => fm_result st
  end.

(** The lines after [if match and indent == 0: ... continue]. *)
Definition fm_continuation (st : fm_state) (indent : nat) (stripped : string)
    : fm_state :=
  match fm_key st with
  | Some k =>
      if (0 <? indent)%nat && Py.truthy k then
        if Py.eqb k "description" then
          {| fm_result := fm_result st; fm_key := fm_key st;
             fm_value := fm_value st +:+ " " +:+ stripped |}
        else if Py.contains ":" stripped then
          match fm_result st !! k with
          | None =>
              {| fm_result := <[k := "__nested__"]> (fm_result st);
                 fm_key := fm_key st; fm_value := fm_value st |}
          | Some _ => st
          end
        else st
      else st
  | None => st
  end.

(** One round of the loop over [fm_lines]. *)
Definition fm_step (st : fm_state) (line : string) : result fm_state :=
  let stripped := Py.strip line in
  if negb (Py.truthy stripped) || Py.startswith "#" stripped then Ok st
  else
    let indent := indent_of line in
    match Re.rmatch key_value_re stripped with
    | Some cs =>
        if (indent =? 0)%nat then
          k ← get_group 1 cs;
          v ← get_group 2 cs;
          Ok {| fm_result := fm_flush st; fm_key := Some k;
                fm_value := unquote (Py.strip v) |}
        else Ok (fm_continuation st indent stripped)
    | None => Ok (fm_continuation st indent stripped)
    end.

(** Returns [(dict, is_valid)]. *)
Definition parse_yaml_frontmatter_simple (content : string)
    : result (gmap string string * bool) :=
  if negb (Py.startswith "---" content) then Ok (∅, false)
  else
    let lines := Py.lines content in
    end_index ← find_end lines;
    match end_index with
    | None => Ok (∅, false)
    | Some e =>
        st ← loop fm_step (body lines e) fm_init;
        Ok (fm_flush st, true)
    end.

(** ** [parse_openai_yaml_simple] *)

(** The dict the parser returns: its string entries, and the list stored
    under ["tools"].  The parser stores no string under ["tools"], and
    stores the list only when it is not empty, so the key ["tools"] is
    present exactly when [tools] is not empty. *)
Record openai_yaml := {
  scalars : gmap string string;
  tools : list (gmap string string);
}.

Definition empty_yaml : openai_yaml := {| scalars := ∅; tools := [] |}.

Record oy_state := {
  oy_result : gmap string string;
  oy_key : option string;                 (* current_key *)
  oy_value : string;                      (* current_value *)
  oy_tools : list (gmap string string);   (* tools_list *)
  oy_in_tools : bool;                     (* in_tools *)
  oy_tool : gmap string string;           (* current_tool *)
}.

Definition oy_init : oy_state :=
  {| oy_result := ∅; oy_key := None; oy_value := ""; oy_tools := [];
     oy_in_tools := false; oy_tool := ∅ |}.

Definition dict_truthy {V} (d : gmap string V) : bool :=
  negb (bool_decide (d = ∅)).

(** [if current_key and current_value and current_key != "tools":
       result[current_key] = current_value.strip()] *)
Definition oy_save (st : oy_state) : gmap string string :=
  match oy_key st with
  | Some k =>
      if Py.truthy k && Py.truthy (oy_value st) && negb (Py.eqb k "tools")
      then <[k := Py.strip (oy_value st)]> (oy_result st)
      else oy_result st
  | None => oy_result st
  end.

(** [if in_tools and current_tool: tools_list.append(current_tool)] *)
Definition oy_close (st : oy_state) : list (gmap string string) :=
  if oy_in_tools st && dict_truthy (oy_tool st)
  then oy_tools st ++ [oy_tool st] else oy_tools st.

(** The branch [if top_match and indent == 0]. *)
Definition oy_top (st : oy_state) (k val : string) : oy_state :=
  let tool' := if oy_in_tools st && dict_truthy (oy_tool st)
               then ∅ else oy_tool st in
  if Py.eqb k "tools" then
    {| oy_result := oy_save st; oy_key := Some k; oy_value := "";
       oy_tools := oy_close st; oy_in_tools := true; oy_tool := tool' |}
  else
    {| oy_result := oy_save st; oy_key := Some k;
       oy_value := if Py.among val [">"; "|"; "|-"; ">-"] then "" else val;
       oy_tools := oy_close st; oy_in_tools := false; oy_tool := tool' |}.

Definition oy_set_tool (st : oy_state) (t : gmap string string) : oy_state :=
  {| oy_result := oy_result st; oy_key := oy_key st; oy_value := oy_value st;
     oy_tools := oy_tools st; oy_in_tools := oy_in_tools st; oy_tool := t |}.

(** The continuation line of a tool: the first of ["description"],
    ["command"] that is present and empty takes the line. *)
Definition oy_fill (t : gmap string string) (stripped : string)
    : gmap string string :=
  match t !! "description" with
  | Some "" => <["description" := stripped]> t
  | _ =>
      match t !! "command" with
      | Some "" => <["command" := stripped]> t
      | _ => t
      end
  end.

(** The branch [if in_tools]. *)
Definition oy_tools_line (st : oy_state) (stripped : string) : result oy_state :=
  if Py.startswith "- name:" stripped then
    match Py.split1 ":" stripped with
    | (_, Some rest) =>
        Ok {| oy_result := oy_result st; oy_key := oy_key st;
              oy_value := oy_value st;
              oy_tools := if dict_truthy (oy_tool st)
                          then oy_tools st ++ [oy_tool st] else oy_tools st;
              oy_in_tools := oy_in_tools st;
              oy_tool := {["name" := Py.strip rest]} |}
    | (_, None) => Raised IndexError
    end
  else if Py.contains ":" stripped && dict_truthy (oy_tool st) then
    match Py.split1 ":" stripped with
    | (k, Some v) =>
        let k := Py.strip k in
        let v := Py.strip v in
        if Py.among v [">"; "|"] then Ok (oy_set_tool st (<[k := ""]> (oy_tool st)))
        else if Py.truthy v then Ok (oy_set_tool st (<[k := v]> (oy_tool st)))
        else Ok st
    | (_, None) => Raised ValueError
    end
  else if dict_truthy (oy_tool st) then
    Ok (oy_set_tool st (oy_fill (oy_tool st) stripped))
  else Ok st.

(** "Multi-line value continuation". *)
Definition oy_continuation (st : oy_state) (indent : nat) (stripped : string)
    : oy_state :=
  if (0 <? indent)%nat && key_set (oy_key st) then
    {| oy_result := oy_result st; oy_key := oy_key st;
       oy_value := if Py.truthy (oy_value st)
                   then oy_value st +:+ " " +:+ stripped else stripped;
       oy_tools := oy_tools st; oy_in_tools := oy_in_tools st;
       oy_tool := oy_tool st |}
  else st.

Definition oy_rest (st : oy_state) (indent : nat) (stripped : string)
    : result oy_state :=
  if oy_in_tools st then oy_tools_line st stripped
  else Ok (oy_continuation st indent stripped).

Definition oy_step (st : oy_state) (line : string) : result oy_state :=
  let stripped := Py.strip line in
  if negb (Py.truthy stripped) || Py.startswith "#" stripped then Ok st
  else
    let indent := indent_of line in
    match Re.rmatch key_value_re stripped with
    | Some cs =>
        if (indent =? 0)%nat then
          k ← get_group 1 cs;
          v ← get_group 2 cs;
          Ok (oy_top st k (Py.strip v))
        else oy_rest st indent stripped
    | None => oy_rest st indent stripped
    end.

(** Returns [(dict, is_valid)] with [is_valid = bool(dict)]. *)
Definition parse_openai_yaml_simple (content : string)
    : result (openai_yaml * bool) :=
  st ← loop oy_step (Py.lines content) oy_init;
  let y := {| scalars := oy_save st; tools := oy_close st |} in
  Ok (y, dict_truthy (scalars y) || negb (bool_decide (tools y = []))).

(** ** [ValidationResult] and the report *)

Record ValidationResult := {
  check : string;
  platform : string;
  passed : bool;
  message : string;
  severity : string;      (* "error", "warning", "info" *)
}.

(** [ValidationResult(check, platform, passed, message)]: the severity
    defaults to ["error"]. *)
Definition result_default (c p : string) (ok : bool) (msg : string)
    : ValidationResult :=
  {| check := c; platform := p; passed := ok; message := msg;
     severity := "error" |}.

Record Summary := {
  total_checks : nat;
  n_passed : nat;       (* "passed" *)
  n_errors : nat;       (* "errors" *)
  n_warnings : nat;     (* "warnings" *)
  n_info : nat;         (* "info" *)
}.

Record Report := {
  skill_name : string;
  skill_path : string;
  compatible : bool;
  summary : Summary;
  checks : list ValidationResult;
}.

(** ** What [validate_skill] reads from the file system *)

(** A regular file met by [path.rglob("*")]. *)
Record file_entry := {
  fe_rel : string;          (* file_path.relative_to(path) *)
  fe_size : N;              (* f.stat().st_size *)
  fe_read : read_result;    (* open(file_path, encoding="utf-8").read() *)
}.

Record skill_dir := {
  dir_name : string;                   (* path.name *)
  dir_path : string;                   (* str(path) *)
  skill_md : option read_result;       (* SKILL.md: [None] when it is no file *)
  scripts_py : option nat;             (* scripts/: [None] when it is no
                                          directory, else the number of *.py *)
  references_md : option nat;          (* references/ and its *.md *)
  assets_files : option nat;           (* assets/ and its regular files *)
  requirements : option read_result;   (* requirements.txt *)
  openai_yaml_file : option read_result;     (* agents/openai.yaml *)
  script_is_file : string → bool;      (* (path / "scripts" / s).is_file() *)
  files : list file_entry;             (* the regular files under the
                                          directory, in rglob's order *)
}.

(** ** [validate_skill], check by check *)

Definition fail (c p msg sev : string) : ValidationResult :=
  {| check := c; platform := p; passed := false; message := msg;
     severity := sev |}.

(** [d.get(k)] when it is true, for a dict of strings. *)
Definition get_truthy (d : gmap string string) (k : string) : option string :=
  match d !! k with
  | Some v => if Py.truthy v then Some v else None
  | None => None
  end.

(** Check 1: SKILL.md exists. *)
Definition check_skill_md_exists (d : skill_dir) : list ValidationResult :=
  match skill_md d with
  | Some _ => [result_default "skill_md_exists" "claude-code" true "SKILL.md exists"]
  | None =>
      [fail "skill_md_exists" "claude-code"
            "SKILL.md not found - required for Claude Code" "error"]
  end.

(** Check 2: valid YAML frontmatter; also gives [frontmatter]. *)
Definition check_frontmatter (d : skill_dir)
    : result (list ValidationResult * gmap string string) :=
  match skill_md d with
  | Some (Text content) =>
      '(fm, fm_valid) ← parse_yaml_frontmatter_simple content;
      if fm_valid : bool then
        Ok ([result_default "valid_frontmatter" "claude-code" true
               "Valid YAML frontmatter found"], fm)
      else
        Ok ([fail "valid_frontmatter" "claude-code"
               "No valid YAML frontmatter (must start with --- and end with ---)"
               "error"], fm)
  | Some (OsFail e) | Some (DecodeFail e) =>
      Ok ([fail "valid_frontmatter" "claude-code"
             ("Cannot read SKILL.md: " +:+ e) "error"], ∅)
  | None => Ok ([], ∅)
  end.

(** Check 3: name field; also gives the new [skill_name]. *)
Definition check_name (d : skill_dir) (fm : gmap string string)
    : list ValidationResult * string :=
  match get_truthy fm "name" with
  | Some n =>
      ([result_default "name_field" "claude-code" true
          ("Name field present: " +:+ n)], n)
  | None =>
      ([fail "name_field" "claude-code" "Name field missing in frontmatter"
          "error"], dir_name d)
  end.

Definition discovery_patterns : list string :=
  ["this skill"; "should be used when"; "use for"; "use when"; "analyzes";
   "generates"; "provides"; "automates"].

(** [any(re.search(pat, desc, re.IGNORECASE) for pat in discovery_patterns)] *)
Definition has_discovery_pattern (desc : string) : bool :=
  existsb (λ pat, bool_decide (is_Some (Re.search (Re.ilit pat) desc)))
          discovery_patterns.

(** Check 4: description field and its format. *)
Definition check_description (fm : gmap string string) : list ValidationResult :=
  match get_truthy fm "description" with
  | Some desc =>
      [ result_default "description_exists" "claude-code" true
          "Description field present";
        if has_discovery_pattern desc then
          result_default "description_format" "claude-code" true
            "Description uses discovery-friendly format"
        else
          fail "description_format" "claude-code"
            "Description should use third-person, discovery-friendly format (e.g., 'This skill should be used when...')"
            "warning" ]
  | None =>
      [fail "description_exists" "claude-code"
         "Description field missing in frontmatter" "error"]
  end.

(** Check 5: license field. *)
Definition check_license (fm : gmap string string) : list ValidationResult :=
  match get_truthy fm "license" with
  | Some l => [result_default "license_field" "claude-code" true ("License: " +:+ l)]
  | None =>
      [fail "license_field" "claude-code"
         "License field missing (recommended for distribution)" "warning"]
  end.

(** Check 6: scripts directory. *)
Definition check_scripts (d : skill_dir) : list ValidationResult :=
  match scripts_py d with
  | Some (S n) =>
      [result_default "scripts_dir" "claude-code" true
         ("scripts/ directory found (" +:+ pretty (S n) +:+ " Python tool(s))")]
  | Some O =>
      [fail "scripts_dir" "claude-code"
         "scripts/ directory exists but contains no Python files" "warning"]
  | None =>
      [fail "scripts_dir" "claude-code"
         "scripts/ directory not found (optional but recommended)" "warning"]
  end.

(** Check 7: references directory. *)
Definition check_references (d : skill_dir) : list ValidationResult :=
  match references_md d with
  | Some n =>
      [result_default "references_dir" "claude-code" true
         ("references/ directory found (" +:+ pretty n +:+ " file(s))")]
  | None =>
      [fail "references_dir" "claude-code"
         "references/ directory not found (optional)" "info"]
  end.

(** Check 8: assets directory. *)
Definition check_assets (d : skill_dir) : list ValidationResult :=
  match assets_files d with
  | Some n =>
      [result_default "assets_dir" "claude-code" true
         ("assets/ directory found (" +:+ pretty n +:+ " file(s))")]
  | None =>
      [fail "assets_dir" "claude-code"
         "assets/ directory not found (optional)" "info"]
  end.

(** The lines a text file iterates over: each keeps its newline. *)
Fixpoint file_lines_go (cur : string) (s : string) : list string :=
  match s with
  | EmptyString =>
      match cur with
      | EmptyString => []
      | _ => [String.rev cur]
      end
  | String c s' =>
      if Ascii.eqb c Py.nl then String.rev (String c cur) :: file_lines_go "" s'
      else file_lines_go (String c cur) s'
  end.

Definition file_lines (s : string) : list string := file_lines_go "" s.

(** [[l.strip() for l in f if l.strip() and not l.startswith("#")]] *)
Definition requirement_lines (content : string) : list string :=
  Py.strip <$>
    filter (λ l, Py.truthy (Py.strip l) && negb (Py.startswith "#" l) = true)
           (file_lines content).

(** Check 9: no requirements.txt.  The [try] catches [OSError] only. *)
Definition check_no_heavy_deps (d : skill_dir) : result (list ValidationResult) :=
  match requirements d with
  | Some (Text content) =>
      let deps := requirement_lines content in
      match deps with
      | [] => Ok []
      | _ =>
          Ok [fail "no_heavy_deps" "claude-code"
                ("requirements.txt found with " +:+ pretty (length deps)
                 +:+ " dependencies (skills should use standard library only)")
                "warning"]
      end
  | Some (OsFail _) => Ok []
  | Some (DecodeFail e) => Raised (UnicodeDecodeError e)
  | None =>
      Ok [result_default "no_heavy_deps" "claude-code" true
            "No requirements.txt (standard library only - good)"]
  end.

(** Check 10: agents/openai.yaml exists. *)
Definition check_openai_yaml_exists (d : skill_dir) : list ValidationResult :=
  match openai_yaml_file d with
  | Some _ =>
      [result_default "openai_yaml_exists" "codex-cli" true
         "agents/openai.yaml exists"]
  | None =>
      [fail "openai_yaml_exists" "codex-cli"
         "agents/openai.yaml not found - required for Codex CLI" "error"]
  end.

(** Check 11: valid YAML structure; also gives [yaml_data]. *)
Definition check_openai_yaml_valid (d : skill_dir)
    : result (list ValidationResult * openai_yaml) :=
  match openai_yaml_file d with
  | Some (Text content) =>
      '(y, yaml_valid) ← parse_openai_yaml_simple content;
      if yaml_valid : bool then
        Ok ([result_default "openai_yaml_valid" "codex-cli" true
               "agents/openai.yaml has valid structure"], y)
      else
        Ok ([fail "openai_yaml_valid" "codex-cli"
               "agents/openai.yaml appears empty or invalid" "error"], y)
  | Some (OsFail e) | Some (DecodeFail e) =>
      Ok ([fail "openai_yaml_valid" "codex-cli"
             ("Cannot read agents/openai.yaml: " +:+ e) "error"], empty_yaml)
  | None => Ok ([], empty_yaml)
  end.

Definition is_file (r : option read_result) : bool :=
  match r with Some _ => true | None => false end.

(** Check 12: name field in openai.yaml, and its match with SKILL.md. *)
Definition check_yaml_name (d : skill_dir) (y : openai_yaml) (name : string)
    : list ValidationResult :=
  match get_truthy (scalars y) "name" with
  | Some n =>
      [ result_default "yaml_name" "codex-cli" true
          ("Name field present: " +:+ n);
        if Py.truthy name && negb (Py.eqb n name) then
          fail "name_match" "cross-platform"
            ("Name mismatch: SKILL.md has '" +:+ name +:+ "', openai.yaml has '"
             +:+ n +:+ "'") "warning"
        else
          result_default "name_match" "cross-platform" true
            "Skill name matches across platforms" ]
  | None =>
      if is_file (openai_yaml_file d) then
        [fail "yaml_name" "codex-cli"
           "Name field missing in agents/openai.yaml" "error"]
      else []
  end.

(** Check 13: description in openai.yaml. *)
Definition check_yaml_description (d : skill_dir) (y : openai_yaml)
    : list ValidationResult :=
  match get_truthy (scalars y) "description" with
  | Some _ =>
      [result_default "yaml_description" "codex-cli" true
         "Description field present in openai.yaml"]
  | None =>
      if is_file (openai_yaml_file d) then
        [fail "yaml_description" "codex-cli"
           "Description field missing in agents/openai.yaml" "error"]
      else []
  end.

(** Check 14: instructions in openai.yaml. *)
Definition check_yaml_instructions (d : skill_dir) (y : openai_yaml)
    : list ValidationResult :=
  match get_truthy (scalars y) "instructions" with
  | Some i =>
      let inst_len := Py.len i in
      if (50 <? inst_len)%nat then
        [result_default "yaml_instructions" "codex-cli" true
           ("Instructions field present (" +:+ pretty inst_len +:+ " chars)")]
      else
        [fail "yaml_instructions" "codex-cli"
           ("Instructions field is very short (" +:+ pretty inst_len
            +:+ " chars) - consider adding more detail") "warning"]
  | None =>
      if is_file (openai_yaml_file d) then
        [fail "yaml_instructions" "codex-cli"
           "Instructions field missing in agents/openai.yaml" "warning"]
      else []
  end.

(** The pattern [scripts/] followed by a non-empty run of characters that
    are not white space (group 1). *)
Definition script_re : Re.regex :=
  Re.Seq (Re.lit "scripts/") (Re.Group 1 (Re.plus Re.nonspace)).

(** Check 15, for one tool. *)
Definition check_tool (d : skill_dir) (tool : gmap string string)
    : result (list ValidationResult) :=
  let cmd := default "" (tool !! "command") in
  let name := default "unknown" (tool !! "name") in
  match Re.search script_re cmd with
  | Some cs =>
      script ← get_group 1 cs;
      if script_is_file d script then
        Ok [result_default ("tool_script_" +:+ name) "codex-cli" true
              ("Tool '" +:+ name +:+ "' references existing script")]
      else
        Ok [fail ("tool_script_" +:+ name) "codex-cli"
              ("Tool '" +:+ name +:+ "' references missing script: " +:+ script)
              "error"]
  | None => Ok []
  end.

(** Check 15: tools in openai.yaml reference existing scripts. *)
Fixpoint check_tools (d : skill_dir) (ts : list (gmap string string))
    : result (list ValidationResult) :=
  match ts with
  | [] => Ok []
  | t :: ts' =>
      c ← check_tool d t;
      cs ← check_tools d ts';
      Ok (c ++ cs)
  end.

(** The last component of a path. *)
Definition basename (rel : string) : string :=
  List.last (Py.split "/" rel) "".

(** The position of the last [.] of a name, if any. *)
Fixpoint rfind_dot (s : string) (i : nat) : option nat :=
  match s with
  | EmptyString => None
  | String c s' =>
      match rfind_dot s' (S i) with
      | Some j => Some j
      | None => if Ascii.eqb c "." then Some i else None
      end
  end.

(** [PurePath.suffix]: from the last dot of the name, when that dot is
    neither its first nor its last character. *)
Definition suffix (rel : string) : string :=
  let name := basename rel in
  match rfind_dot name 0 with
  | Some i =>
      if (0 <? i)%nat && (i <? Py.len name - 1)%nat then Py.drop i name else ""
  | None => ""
  end.

Definition is_text_file (f : file_entry) : bool :=
  Py.among (suffix (fe_rel f)) [".md"; ".yaml"; ".yml"; ".py"].

(** Check 16: file encoding.  The loop reads the text files in turn; a
    [UnicodeDecodeError] is reported and ends the loop, an [OSError] is
    not caught; the [else] of the [for] runs when no file ended it. *)
Fixpoint check_utf8 (fs : list file_entry) : result (list ValidationResult) :=
  match fs with
  | [] =>
      Ok [result_default "utf8_encoding" "cross-platform" true
            "All text files are UTF-8 encoded"]
  | f :: fs' =>
      if is_text_file f then
        match fe_read f with
        | Text _ => check_utf8 fs'
        | DecodeFail _ =>
            Ok [fail "utf8_encoding" "cross-platform"
                  ("File not UTF-8 encoded: " +:+ fe_rel f) "error"]
        | OsFail e => Raised (OSError e)
        end
      else check_utf8 fs'
  end.

Definition total_size (fs : list file_entry) : N :=
  foldr (λ f acc, (fe_size f + acc)%N) 0%N fs.

(** [f"{size_kb:.1f}"] for [size_kb = total_size / 1024]: the quotient is
    exact in binary floating point, and the conversion rounds it to one
    decimal, ties to even. *)
Definition format_kb (size : N) : string :=
  let q := (size * 10 / 1024)%N in
  let r := (size * 10 mod 1024)%N in
  let tenths :=
    if (r <? 512)%N then q
    else if (512 <? r)%N then (q + 1)%N
    else if N.even q then q else (q + 1)%N in
  pretty (tenths / 10)%N +:+ "." +:+ pretty (tenths mod 10)%N.

(** Check 17: skill size.  [size_kb < 1024] is [total_size < 1024 * 1024]. *)
Definition check_skill_size (fs : list file_entry) : list ValidationResult :=
  let size := total_size fs in
  if (size <? 1048576)%N then
    [result_default "skill_size" "cross-platform" true
       ("Skill size: " +:+ format_kb size +:+ " KB (under 1 MB - good)")]
  else
    [fail "skill_size" "cross-platform"
       ("Skill size: " +:+ format_kb size +:+ " KB (over 1 MB - consider reducing)")
       "warning"].

(** The severities a [ValidationResult] is documented to take. *)
Definition known_severity (c : ValidationResult) : Prop :=
  severity c = "error" ∨ severity c = "warning" ∨ severity c = "info".

(** ** The summary and the report *)

Definition is_failed (sev : string) (c : ValidationResult) : bool :=
  negb (passed c) && Py.eqb (severity c) sev.

(** "Build summary" and the report dict. *)
Definition build_report (name path : string) (strict : bool)
    (cs : list ValidationResult) : Report :=
  let errors := Py.count_if (is_failed "error") cs in
  let warnings := Py.count_if (is_failed "warning") cs in
  let infos := Py.count_if (is_failed "info") cs in
  let n_pass := Py.count_if passed cs in
  let is_compatible :=
    if strict then (errors =? 0)%nat && (warnings =? 0)%nat
    else (errors =? 0)%nat in
  {| skill_name := name;
     skill_path := path;
     compatible := is_compatible;
     summary := {| total_checks := length cs; n_passed := n_pass;
                   n_errors := errors; n_warnings := warnings;
                   n_info := infos |};
     checks := cs |}.

(** The checks in the order they are appended, and the final skill name. *)
Definition run_checks (d : skill_dir) : result (list ValidationResult * string) :=
  let c1 := check_skill_md_exists d in
  '(c2, frontmatter) ← check_frontmatter d;
  let '(c3, name) := check_name d frontmatter in
  let c4 := check_description frontmatter in
  let c5 := check_license frontmatter in
  let c6 := check_scripts d in
  let c7 := check_references d in
  let c8 := check_assets d in
  c9 ← check_no_heavy_deps d;
  let c10 := check_openai_yaml_exists d in
  '(c11, yaml_data) ← check_openai_yaml_valid d;
  let c12 := check_yaml_name d yaml_data name in
  let c13 := check_yaml_description d yaml_data in
  let c14 := check_yaml_instructions d yaml_data in
  c15 ← check_tools d (tools yaml_data);
  c16 ← check_utf8 (files d);
  let c17 := check_skill_size (files d) in
  Ok (c1 ++ c2 ++ c3 ++ c4 ++ c5 ++ c6 ++ c7 ++ c8 ++ c9 ++ c10 ++ c11 ++ c12
      ++ c13 ++ c14 ++ c15 ++ c16 ++ c17, name).

Definition validate_skill (d : skill_dir) (strict : bool) : result Report :=
  '(cs, name) ← run_checks d;
  Ok (build_report name (dir_path d) strict cs).

(** ** [main] *)

Record args := {
  arg_skill_dir : string;
  arg_strict : bool;
  arg_json : bool;
}.

(** [main] on a parsed command line.  [dir_at p] is the directory at [p],
    or [None] when [Path(p).is_dir()] is false.  Besides how the process
    ends, the report that was printed is returned. *)
Definition main (cli : parsed args) (dir_at : string → option skill_dir)
    : outcome * option Report :=
  match cli with
  | Help => (Exit 0, None)
  | UsageError => (Exit 2, None)
  | Namespace a =>
      match dir_at (arg_skill_dir a) with
      | None => (Exit 1, None)
      | Some d =>
          match validate_skill d (arg_strict a) with
          | Raised e => (Uncaught e, None)
          | Ok report =>
              if negb (compatible report) then (Exit 1, Some report)
              else (Exit 0, Some report)
          end
      end
  end.

End Validator.

(* ===================================================================== *)
(** * skills_index_builder.py: [parse_yaml_frontmatter]                   *)
(* ===================================================================== *)

Module IndexBuilder.
Import Frontmatter.

(** A frontmatter value: a scalar or a one-level nested mapping. *)
Inductive fm_value :=
| Scalar (s : string)
| Nested (d : gmap string string).

Record state := {
  st_result : gmap string fm_value;
  st_key : option string;                 (* current_key *)
  st_value : string;                      (* current_value *)
  st_nested_dict : gmap string string;    (* nested_dict *)
  st_nested_key : option string;          (* nested_key *)
}.

Definition init : state :=
  {| st_result := ∅; st_key := None; st_value := "";
     st_nested_dict := ∅; st_nested_key := None |}.

(** Truth value of a [dict]. *)
Definition dict_truthy {V} (d : gmap string V) : bool :=
  negb (bool_decide (d = ∅)).

(** The "save previous" block at a new top-level key. *)
Definition save_previous (st : state) : state :=
  match st_key st with
  | Some k =>
      if Py.truthy k then
        if key_set (st_nested_key st) && dict_truthy (st_nested_dict st) then
          {| st_result := <[k := Nested (st_nested_dict st)]> (st_result st);
             st_key := st_key st; st_value := st_value st;
             st_nested_dict := ∅; st_nested_key := None |}
        else if Py.truthy (st_value st) then
          {| st_result := <[k := Scalar (Py.strip (st_value st))]> (st_result st);
             st_key := st_key st; st_value := st_value st;
             st_nested_dict := st_nested_dict st;
             st_nested_key := st_nested_key st |}
        else st
      else st
  | None => st
  end.

Definition is_block_indicator (val : string) : bool :=
  Py.eqb val ">" || Py.eqb val "|" || Py.eqb val "|-" || Py.eqb val ">-".

(** The assignments after "save previous" at a new top-level key. *)
Definition start_key (st : state) (k val : string) : state :=
  if is_block_indicator val then
    {| st_result := st_result st; st_key := Some k; st_value := "";
       st_nested_dict := st_nested_dict st; st_nested_key := st_nested_key st |}
  else if Py.truthy val then
    {| st_result := st_result st; st_key := Some k; st_value := unquote val;
       st_nested_dict := st_nested_dict st; st_nested_key := st_nested_key st |}
  else
    {| st_result := st_result st; st_key := Some k; st_value := "";
       st_nested_dict := st_nested_dict st; st_nested_key := Some k |}.

(** "Multi-line continuation". *)
Definition continuation (st : state) (indent : nat) (stripped : string) : state :=
  if (0 <? indent)%nat && key_set (st_key st) then
    {| st_result := st_result st; st_key := st_key st;
       st_value := if Py.truthy (st_value st)
                   then st_value st +:+ " " +:+ stripped else stripped;
       st_nested_dict := st_nested_dict st; st_nested_key := st_nested_key st |}
  else st.

(** "Nested key: value", falling through to the continuation. *)
Definition nested_or_continuation (st : state) (indent : nat) (stripped : string)
    : result state :=
  if (0 <? indent)%nat && key_set (st_nested_key st) then
    match Re.rmatch key_value_re stripped with
    | Some cs =>
        nkey ← get_group 1 cs;
        nval ← get_group 2 cs;
        Ok {| st_result := st_result st; st_key := st_key st;
              st_value := st_value st;
              st_nested_dict :=
                <[nkey := unquote (Py.strip nval)]> (st_nested_dict st);
              st_nested_key := st_nested_key st |}
    | None => Ok (continuation st indent stripped)
    end
  else Ok (continuation st indent stripped).

Definition step (st : state) (line : string) : result state :=
  let stripped := Py.strip line in
  if negb (Py.truthy stripped) || Py.startswith "#" stripped then Ok st
  else
    let indent := indent_of line in
    match Re.rmatch key_value_re stripped with
    | Some cs =>
        if (indent =? 0)%nat then
          k ← get_group 1 cs;
          v ← get_group 2 cs;
          Ok (start_key (save_previous st) k (Py.strip v))
        else nested_or_continuation st indent stripped
    | None => nested_or_continuation st indent stripped
    end.

(** The "final key" block. *)
Definition final (st : state) : gmap string fm_value :=
  match st_key st with
  | Some k =>
      if Py.truthy k then
        if key_set (st_nested_key st) && dict_truthy (st_nested_dict st) then
          <[k := Nested (st_nested_dict st)]> (st_result st)
        else if Py.truthy (st_value st) then
          <[k := Scalar (Py.strip (st_value st))]> (st_result st)
        else st_result st
      else st_result st
  | None => st_result st
  end.

Definition parse_yaml_frontmatter (content : string)
    : result (gmap string fm_value) :=
  if negb (Py.startswith "---" content) then Ok ∅
  else
    let lines := Py.lines content in
    end_index ← find_end lines;
    match end_index with
    | None => Ok ∅
    | Some e =>
        st ← loop step (body lines e) init;
        Ok (final st)
    end.

End IndexBuilder.

(* ===================================================================== *)
(** * pipeline_analyzer.py                                                *)
(* ===================================================================== *)

Module Pipeline.

Record Finding := {
  severity : string;
  category : string;
  title : string;
  description : string;
  recommendation : string;
  estimated_savings : option string;
}.

(** [Finding.SEVERITY_ORDER.get(f.severity, 99)] *)
Definition severity_rank (f : Finding) : nat :=
  if Py.eqb (severity f) "critical" then 0
  else if Py.eqb (severity f) "warning" then 1
  else if Py.eqb (severity f) "info" then 2
  else 99.

(** [findings.sort(key=...)]: the sort is stable. *)
Fixpoint insert_by_rank (x : Finding) (l : list Finding) : list Finding :=
  match l with
  | [] => [x]
  | y :: l' =>
      if (severity_rank x <=? severity_rank y)%nat then x :: y :: l'
      else y :: insert_by_rank x l'
  end.

Definition sort_by_severity (l : list Finding) : list Finding :=
  foldr insert_by_rank [] l.

(** ** [_extract_jobs] *)

Record jobs_state := {
  js_jobs : list (string * string);
  js_in_jobs : bool;
  js_current : option string;       (* current_job *)
  js_lines : list string;           (* current_lines *)
  js_indent : option nat;           (* job_indent *)
  js_done : bool;                   (* the loop met its [break] *)
}.

Definition newline : string := String Py.nl "".

(** [if current_job: jobs[current_job] = "\n".join(current_lines)] *)
Definition save_job (st : jobs_state) : list (string * string) :=
  match js_current st with
  | Some j =>
      if Py.truthy j then Py.dict_set j (Py.join newline (js_lines st)) (js_jobs st)
      else js_jobs st
  | None => js_jobs st
  end.

Definition jobs_step (st : jobs_state) (line : string) : jobs_state :=
  if js_done st then st
  else
    let stripped := Py.lstrip line in
    let indent := (Py.len line - Py.len stripped)%nat in
    if Py.startswith "jobs:" stripped then
      {| js_jobs := js_jobs st; js_in_jobs := true; js_current := js_current st;
         js_lines := js_lines st; js_indent := Some (indent + 2)%nat;
         js_done := false |}
    else if negb (js_in_jobs st) then st
    else if bool_decide (Some indent = js_indent st) && Py.endswith ":" stripped
            && negb (Py.startswith "-" stripped)
            && negb (Py.startswith "#" stripped) then
      {| js_jobs := save_job st; js_in_jobs := js_in_jobs st;
         js_current := Some (Py.rstrip_chars (Ascii.eqb ":") stripped);
         js_lines := []; js_indent := js_indent st; js_done := false |}
    else
      match js_current st with
      | Some _ =>
          if (indent <? default 0%nat (js_indent st))%nat && Py.truthy stripped
             && negb (Py.startswith "#" stripped) then
            {| js_jobs := js_jobs st; js_in_jobs := js_in_jobs st;
               js_current := js_current st; js_lines := js_lines st;
               js_indent := js_indent st; js_done := true |}
          else
            {| js_jobs := js_jobs st; js_in_jobs := js_in_jobs st;
               js_current := js_current st; js_lines := js_lines st ++ [line];
               js_indent := js_indent st; js_done := false |}
      | None => st
      end.

Definition _extract_jobs (content : string) : list (string * string) :=
  save_job (foldl jobs_step
              {| js_jobs := []; js_in_jobs := false; js_current := None;
                 js_lines := []; js_indent := None; js_done := false |}
              (Py.lines content)).

(** ** [_extract_section] *)

Record section_state := {
  ss_in : bool;                (* in_section *)
  ss_lines : list string;      (* section_lines *)
  ss_indent : nat;             (* section_indent, read only when in_section *)
  ss_done : bool;
}.

Definition section_step (key : string) (st : section_state) (line : string)
    : section_state :=
  if ss_done st then st
  else
    let stripped := Py.lstrip line in
    let indent := (Py.len line - Py.len stripped)%nat in
    if Py.startswith key stripped then
      {| ss_in := true; ss_lines := ss_lines st ++ [line]; ss_indent := indent;
         ss_done := false |}
    else if ss_in st then
      if (indent <=? ss_indent st)%nat && Py.truthy stripped
         && negb (Py.startswith "#" stripped) then
        {| ss_in := ss_in st; ss_lines := ss_lines st; ss_indent := ss_indent st;
           ss_done := true |}
      else
        {| ss_in := ss_in st; ss_lines := ss_lines st ++ [line];
           ss_indent := ss_indent st; ss_done := false |}
    else st.

Definition _extract_section (content key : string) : string :=
  Py.join newline
    (ss_lines (foldl (section_step key)
                 {| ss_in := false; ss_lines := []; ss_indent := 0;
                    ss_done := false |}
                 (Py.lines content))).

(** ** [_trace_chain] *)

(** The [while] loop, run for at most [fuel] rounds; it returns the chain
    and the set [visited] it has grown. *)
Fixpoint trace_loop (fuel : nat) (needs_map : list (string * list string))
    (current : string) (chain : list string) (visited : gset string)
    : list string * gset string :=
  match fuel with
  | O => (chain, visited)
  | S fuel' =>
      match Py.dict_get current needs_map with
      | Some [parent] =>
          if bool_decide (parent ∈ visited) || Py.eqb parent current
          then (chain, visited)
          else trace_loop fuel' needs_map parent (parent :: chain)
                          ({[parent]} ∪ visited)
      | _ => (chain, visited)
      end
  end.

(** Rounds that are always enough: a round that goes on either marks a
    job of the map that was not yet visited, or moves to a name outside
    the map, where the next test ends the loop. *)
Definition trace_fuel (needs_map : list (string * list string)) : nat :=
  2 * length needs_map + 2.

(** The measure behind [trace_fuel]: the entries of the map whose job is
    not visited count twice, the current job once when it is in the map. *)
Definition unvisited (needs_map : list (string * list string))
    (visited : gset string) : nat :=
  length (List.filter (λ e, bool_decide (e.1 ∉ visited)) needs_map).

Definition rounds_left (needs_map : list (string * list string))
    (current : string) (visited : gset string) : nat :=
  2 * unvisited needs_map visited
  + (if Py.dict_has current needs_map then 1 else 0).

Definition _trace_chain (start_job : string)
    (needs_map : list (string * list string)) (visited : gset string)
    : list string * gset string :=
  trace_loop (trace_fuel needs_map) needs_map start_job [start_job] visited.

(** ** The patterns *)

(** [fetch-depth:], white space, then [0] or [1]. *)
Definition shallow_re : Re.regex :=
  Re.seq [Re.lit "fetch-depth:"; Re.star Re.space; Re.Chr (Re.oneof "01")].

(** [needs:], white space, an optional opening bracket, then a non-empty
    run without closing bracket or newline (group 1). *)
Definition needs_re : Re.regex :=
  Re.seq [Re.lit "needs:"; Re.star Re.space; Re.Opt (Re.chr "[");
          Re.Group 1 (Re.plus (Re.noneof (String "]" (String Py.nl ""))))].

(** [needs:], some white space, then a non-empty run of characters that
    are not white space (group 1). *)
Definition needs_single_re : Re.regex :=
  Re.seq [Re.lit "needs:"; Re.plus Re.space; Re.Group 1 (Re.plus Re.nonspace)].

(** An action at one of the given major versions, up to a word boundary. *)
Definition versioned (action versions : string) : Re.regex :=
  Re.seq [Re.lit action; Re.lit "@v"; Re.Chr (Re.oneof versions); Re.WordB].

Definition deprecated_patterns : list (Re.regex * string) :=
  [ (versioned "actions/checkout" "12", "actions/checkout@v4");
    (versioned "actions/setup-python" "123", "actions/setup-python@v5");
    (versioned "actions/setup-node" "123", "actions/setup-node@v4");
    (versioned "actions/cache" "123", "actions/cache@v4");
    (versioned "actions/upload-artifact" "123", "actions/upload-artifact@v4");
    (versioned "actions/download-artifact" "123", "actions/download-artifact@v4") ].

Definition quotes : string := String Py.dquote (String Py.squote "").

(** One of password, token, secret, key, api_key (any case), white space,
    a colon or an equals sign, white space, a quote, a character that is
    neither a dollar nor an opening brace, then at least eight characters
    that are not quotes. *)
Definition secret_re : Re.regex :=
  Re.seq [ Re.alt [Re.ilit "password"; Re.ilit "token"; Re.ilit "secret";
                   Re.ilit "key"; Re.ilit "api_key"];
           Re.star Re.space; Re.Chr (Re.oneof ":="); Re.star Re.space;
           Re.Chr (Re.oneof quotes); Re.Chr (Re.noneof "${");
           Re.Rep (Re.noneof quotes) 8 None ].

(** ** The checks of [analyze_workflow_file] *)

Definition finding (sev cat t d r : string) (s : option string) : Finding :=
  {| severity := sev; category := cat; title := t; description := d;
     recommendation := r; estimated_savings := s |}.

Definition check_concurrency (content : string) : list Finding :=
  if negb (Py.contains "concurrency" content) then
    [finding "warning" "cost" "No concurrency group"
       "Workflow does not define a concurrency group. Multiple runs for the same branch will execute in parallel, wasting resources."
       ("Add:" +:+ newline +:+ "concurrency:" +:+ newline
        +:+ "  group: ${{ github.workflow }}-${{ github.ref }}" +:+ newline
        +:+ "  cancel-in-progress: true")
       (Some "10-30% fewer redundant runs")]
  else [].

Definition timeout_finding (job_name : string) : Finding :=
  finding "warning" "cost"
    ("No timeout on job '" +:+ job_name +:+ "'")
    ("Job '" +:+ job_name
     +:+ "' has no timeout-minutes set. A stuck job will run until the default 6-hour limit.")
    ("Add 'timeout-minutes: 15' (or appropriate limit) to the '" +:+ job_name
     +:+ "' job.")
    (Some "Prevents runaway jobs (up to 360 min wasted)").

Definition lacks_timeout (job : string * string) : bool :=
  negb (Py.contains "timeout-minutes" job.2).

Definition check_timeouts (jobs : list (string * string)) : list Finding :=
  (λ job, timeout_finding job.1) <$> List.filter lacks_timeout jobs.

Definition setup_actions : list string :=
  ["actions/setup-python@"; "actions/setup-node@"; "actions/setup-go@";
   "actions/setup-java@"].

Definition check_caching (content : string) : list Finding :=
  let has_cache :=
    Py.contains "actions/cache@" content || Py.contains "cache:" content in
  let has_setup_action := existsb (λ a, Py.contains a content) setup_actions in
  if has_setup_action && negb has_cache then
    [finding "warning" "performance" "No dependency caching detected"
       "A setup action is used but no caching is configured. Dependencies are re-downloaded every run."
       "Add 'cache: pip' (or npm/yarn) to the setup action, or use actions/cache@v4 with appropriate key."
       (Some "30-60% faster dependency installation")]
  else [].

Definition check_checkout (content : string) : list Finding :=
  let checkout_count := Py.count "actions/checkout@" content in
  let shallow_checkout_count := length (Re.findall shallow_re content) in
  if (0 <? checkout_count)%nat && (shallow_checkout_count =? 0)%nat
     && negb (Py.contains "fetch-depth" content)
     && negb (Py.contains "git log" content)
     && negb (Py.contains "git diff" content)
     && negb (Py.contains "git blame" content) then
    [finding "info" "performance" "Consider shallow checkout"
       "Full git history is fetched but may not be needed."
       "Add 'fetch-depth: 1' to actions/checkout if full history is not required."
       (Some "5-15 seconds per checkout")]
  else [].

(** [d.strip()], then the strip of both quote characters. *)
Definition clean_dep (d : string) : string :=
  Py.strip_chars (Re.oneof quotes) (Py.strip d).

Definition job_needs (job_content : string) : list string :=
  match Re.search needs_re job_content with
  | Some cs => clean_dep <$> Py.split "," (default "" (Re.group 1 cs))
  | None =>
      match Re.search needs_single_re job_content with
      | Some cs => [Py.strip (default "" (Re.group 1 cs))]
      | None => []
      end
  end.

Definition build_needs_map (jobs : list (string * string))
    : list (string * list string) :=
  foldl (λ m job, Py.dict_set job.1 (job_needs job.2) m) [] jobs.

Definition chain_finding (chain : list string) : Finding :=
  finding "info" "performance"
    ("Long sequential chain detected (" +:+ pretty (length chain) +:+ " jobs)")
    ("Jobs form a linear chain: " +:+ Py.join " -> " chain
     +:+ ". Some may be parallelizable.")
    "Review if any jobs in the chain are independent and can run in parallel by removing unnecessary 'needs' dependencies."
    (Some "Potential 20-40% pipeline time reduction").

(** The loop over the jobs with the shared set [visited]; it stops at the
    first chain of four or more. *)
Fixpoint find_long_chain (needs_map : list (string * list string))
    (names : list string) (visited : gset string) : list Finding :=
  match names with
  | [] => []
  | job_name :: names' =>
      let '(chain, visited') := _trace_chain job_name needs_map visited in
      if (4 <=? length chain)%nat then [chain_finding chain]
      else find_long_chain needs_map names' visited'
  end.

Definition check_chains (jobs : list (string * string)) : list Finding :=
  let needs_map := build_needs_map jobs in
  let chain_jobs := List.filter (λ e, (length e.2 =? 1)%nat) needs_map in
  if (2 <? length chain_jobs)%nat
  then find_long_chain needs_map (fst <$> needs_map) ∅
  else [].

Definition check_path_filters (content : string) : list Finding :=
  let on_section := _extract_section content "on:" in
  if Py.truthy on_section && negb (Py.contains "paths" on_section)
     && negb (Py.contains "paths-ignore" on_section)
     && (Py.contains "push" on_section || Py.contains "pull_request" on_section)
  then
    [finding "info" "cost" "No path filters on triggers"
       "Workflow runs on all file changes. Documentation-only changes trigger the full pipeline."
       "Add paths or paths-ignore filters to skip runs for non-code changes (e.g., docs/, *.md)."
       (Some "5-20% fewer unnecessary runs")]
  else [].

Definition check_deprecated_one (content : string) (p : Re.regex * string)
    : list Finding :=
  match Re.findall p.1 content with
  | m :: _ =>
      [finding "warning" "maintenance"
         ("Outdated action: " +:+ default "" (Re.group 0 m))
         "Using an older version of a GitHub action. Older versions may lack features, performance improvements, and security patches."
         ("Upgrade to " +:+ p.2 +:+ ".")
         None]
  | [] => []
  end.

Definition check_deprecated (content : string) : list Finding :=
  concat (check_deprecated_one content <$> deprecated_patterns).

Definition check_secrets (content : string) : list Finding :=
  match Re.findall secret_re content with
  | _ :: _ =>
      [finding "critical" "security" "Possible hardcoded secret"
         "Found what appears to be a hardcoded credential in the workflow file."
         "Use GitHub Secrets (${{ secrets.SECRET_NAME }}) instead of hardcoded values."
         None]
  | [] => []
  end.

Definition check_permissions (content : string) : list Finding :=
  if negb (Py.contains "permissions:" content) then
    [finding "warning" "security" "No permissions block"
       "Workflow does not restrict permissions. It runs with the default token permissions, which may be overly broad."
       "Add a top-level 'permissions:' block with least-privilege access (e.g., contents: read)."
       None]
  else [].

Definition check_runner (content : string) : list Finding :=
  if Py.contains "runs-on: ubuntu-latest" content then
    [finding "info" "maintenance" "Using ubuntu-latest (unpinned)"
       "ubuntu-latest will change over time as GitHub updates it. This could cause unexpected breakage."
       "Consider pinning to a specific version (e.g., ubuntu-24.04) for reproducibility, or accept the trade-off for automatic updates."
       None]
  else [].




(** ** [analyze_workflow_file] *)

(** The workflow file as the analyzer sees it. *)
Record workflow_file := {
  wf_path : string;           (* str(filepath) *)
  wf_name : string;           (* filepath.name *)
  wf_read : read_result;      (* filepath.read_text(encoding="utf-8") *)
}.

(** ** [_estimate_cost] *)

(** [timeout-minutes:], white space, then a non-empty run of digits
    (group 1). *)
Definition timeout_re : Re.regex :=
  Re.seq [Re.lit "timeout-minutes:"; Re.star Re.space;
          Re.Group 1 (Re.plus Re.digit)].

(** The number a run of decimal digits writes. *)
Definition decimal (s : string) : Z :=
  foldl (λ n c, (10 * n + (Z.of_N (Py.code c) - 48))%Z) 0%Z
        (list_ascii_of_string s).

(** [int(s)] on a run of digits: CPython (3.11 and later, and the security
    releases of the earlier lines) refuses more than
    [sys.int_info.default_max_str_digits] digits, leading zeros included. *)
Definition MAX_STR_DIGITS : nat := 4300.

Definition int_of_digits (s : string) : result Z :=
  if (MAX_STR_DIGITS <? Py.len s)%nat then Raised ValueError
  else Ok (decimal s).

(** [n * 0.5] converts the integer to a float first, which raises when the
    nearest double would be beyond the largest one. *)
Definition FLOAT_OVERFLOW : Z := (2 ^ 1024 - 2 ^ 970)%Z.

Definition half (n : Z) : result unit :=
  if (FLOAT_OVERFLOW <=? n)%Z then Raised OverflowError else Ok ().

(** The estimate for one job.  The estimate is floating-point arithmetic
    that no finding reads; what is kept of it here is what can make it
    raise, the conversion of the timeout. *)
Definition estimate_job (job_content : string) : result unit :=
  match Re.search timeout_re job_content with
  | Some cs => n ← int_of_digits (default "" (Re.group 1 cs)); half n
  | None => Ok ()
  end.

Fixpoint _estimate_cost (jobs : list (string * string)) : result unit :=
  match jobs with
  | [] => Ok ()
  | job :: jobs' => _ ← estimate_job job.2; _estimate_cost jobs'
  end.

(** [file_info] without its ["cost_estimate"] entry. *)
Record file_info := {
  fi_path : string;
  fi_name : string;
  fi_line_count : option nat;
}.

(** The findings before the final sort, in the order they are appended.
    ([_minimal_yaml_parse(content)] is also called at this point; its value
    is not used.) *)
Definition raw_findings (content : string) : list Finding :=
  let jobs_in_file := _extract_jobs content in
  check_concurrency content ++ check_timeouts jobs_in_file
  ++ check_caching content ++ check_checkout content
  ++ check_chains jobs_in_file ++ check_path_filters content
  ++ check_deprecated content ++ check_secrets content
  ++ check_permissions content ++ check_runner content.

Definition unreadable_finding (w : workflow_file) (e : string) : Finding :=
  finding "critical" "file" "Cannot read file"
    ("Error reading " +:+ wf_path w +:+ ": " +:+ e)
    "Check file permissions and encoding." None.

(** The findings are appended, then the cost is estimated, then the
    findings are sorted: an exception of the estimate leaves the function. *)
Definition analyze_workflow_file (w : workflow_file)
    : result (file_info * list Finding) :=
  match wf_read w with
  | Text content =>
      _ ← _estimate_cost (_extract_jobs content);
      Ok ({| fi_path := wf_path w; fi_name := wf_name w;
             fi_line_count := Some (length (Py.lines content)) |},
          sort_by_severity (raw_findings content))
  | OsFail e | DecodeFail e =>
      Ok ({| fi_path := wf_path w; fi_name := wf_name w;
             fi_line_count := None |},
          [unreadable_finding w e])
  end.

(** ** [main] *)

Record args := {
  arg_path : string;
  arg_format : string;            (* "text" or "json" *)
  arg_output : option string;
}.

(** What [Path(args.path)] is on disk. *)
Inductive target :=
| Missing                                    (* not target.exists() *)
| RegularFile (suffix : string) (w : workflow_file)
| Directory (yml yaml : list workflow_file)  (* the sorted *.yml, then *.yaml *)
| Special.                                   (* exists, neither file nor directory *)

Record world := {
  at_path : string → target;
  (** [open(args.output, "w")] followed by [write]: succeeds or raises
      [OSError]. *)
  can_write : string → option string;
}.

(** "Collect workflow files": the files to analyze, or [None] where [main]
    prints an error and calls [sys.exit(1)]. *)
Definition collect (t : target) : option (list workflow_file) :=
  match t with
  | Missing => None
  | RegularFile suffix f =>
      if Py.among suffix [".yml"; ".yaml"] then Some [f] else None
  | Directory yml yaml =>
      match yml ++ yaml with
      | [] => None
      | files => Some files
      end
  | Special => None
  end.

(** [main] on a parsed command line: how the process ends, and the
    analysis results the report is formatted from. *)
Definition main (cli : parsed args) (w : world)
    : outcome * list (file_info * list Finding) :=
  match cli with
  | Help => (Exit 0, [])
  | UsageError => (Exit 2, [])
  | Namespace a =>
      match collect (at_path w (arg_path a)) with
      | None => (Exit 1, [])
      | Some files =>
          match mapM analyze_workflow_file files with
          | Raised e => (Uncaught e, [])
          | Ok results =>
              match arg_output a with
              | Some out =>
                  if Py.truthy out then
                    match can_write w out with
                    | None => (Exit 0, results)
                    | Some e => (Uncaught (OSError e), results)
                    end
                  else (Exit 0, results)
              | None => (Exit 0, results)
              end
          end
      end
  end.

End Pipeline.

(* ===================================================================== *)
(** * claudemd_optimizer.py                                               *)
(* ===================================================================== *)

Module Optimizer.

(** [int(len(text) / 3.5)]: the quotient by 3.5 is the quotient of twice
    the length by 7, and the float division cannot reach the next integer
    for any length a file can have. *)
Definition estimate_tokens (text : string) : Z :=
  (2 * Z.of_nat (Py.len text) / 7)%Z.

(** ** [extract_sections] *)

Record section := {
  sec_title : string;
  sec_level : nat;
  sec_content : string;
  sec_line_count : nat;
  sec_token_estimate : Z;
}.

(** One to six [#], white space, then the rest of the line, not empty
    (groups 1 and 2). *)
Definition heading_re : Re.regex :=
  Re.seq [Re.Bol; Re.Group 1 (Re.Rep (Ascii.eqb "#") 1 (Some 6));
          Re.plus Re.space; Re.Group 2 (Re.plus Re.dot); Re.Eol].

Definition newline : string := String Py.nl "".

Definition make_section (title : string) (level : nat) (content : list string)
    : section :=
  let content_text := Py.strip (Py.join newline content) in
  {| sec_title := title; sec_level := level; sec_content := content_text;
     sec_line_count :=
       length (List.filter (λ l, Py.truthy (Py.strip l)) content);
     sec_token_estimate := estimate_tokens content_text |}.

Record sections_state := {
  xs_sections : list section;
  xs_current : option string;     (* current_section *)
  xs_content : list string;       (* current_content *)
  xs_level : nat;                 (* current_level *)
}.

(** [if current_section is not None: sections.append(...)] *)
Definition flush_section (st : sections_state) : list section :=
  match xs_current st with
  | Some title =>
      xs_sections st ++ [make_section title (xs_level st) (xs_content st)]
  | None => xs_sections st
  end.

Definition sections_step (st : sections_state) (line : string) : sections_state :=
  match Re.rmatch heading_re line with
  | Some cs =>
      {| xs_sections := flush_section st;
         xs_current := Some (Py.strip (default "" (Re.group 2 cs)));
         xs_content := [];
         xs_level := Py.len (default "" (Re.group 1 cs)) |}
  | None =>
      {| xs_sections := xs_sections st; xs_current := xs_current st;
         xs_content := xs_content st ++ [line]; xs_level := xs_level st |}
  end.

Definition extract_sections (text : string) : list section :=
  flush_section
    (foldl sections_step
       {| xs_sections := []; xs_current := None; xs_content := [];
          xs_level := 0 |}
       (Py.lines text)).

(** ** [check_section_completeness] *)

Record recommended := {
  rs_name : string;
  rs_aliases : list string;
  rs_importance : string;
  rs_description : string;
}.

Definition RECOMMENDED_SECTIONS : list recommended :=
  [ {| rs_name := "project purpose";
       rs_aliases := ["project purpose"; "project overview"; "about";
                      "overview"; "what is this"];
       rs_importance := "critical";
       rs_description :=
         "One paragraph explaining what the project is and who it serves" |};
    {| rs_name := "architecture overview";
       rs_aliases := ["architecture"; "structure"; "directory structure";
                      "repository structure"; "project structure"];
       rs_importance := "critical";
       rs_description := "Directory layout, key patterns, data flow" |};
    {| rs_name := "development environment";
       rs_aliases := ["development environment"; "development"; "setup";
                      "getting started"; "quick start"; "dev setup"; "build";
                      "environment"];
       rs_importance := "critical";
       rs_description := "Build commands, test commands, environment setup" |};
    {| rs_name := "key principles";
       rs_aliases := ["key principles"; "principles"; "guidelines"; "rules";
                      "conventions"; "standards"];
       rs_importance := "high";
       rs_description := "3-7 non-obvious rules Claude must follow" |};
    {| rs_name := "anti-patterns";
       rs_aliases := ["anti-patterns"; "anti patterns"; "don't"; "avoid";
                      "pitfalls"; "common mistakes"];
       rs_importance := "high";
       rs_description :=
         "Things that look reasonable but are wrong in this project" |};
    {| rs_name := "git workflow";
       rs_aliases := ["git workflow"; "git"; "branching"; "branch strategy";
                      "commits"; "version control"];
       rs_importance := "medium";
       rs_description := "Branch strategy, commit conventions, PR process" |};
    {| rs_name := "testing";
       rs_aliases := ["testing"; "tests"; "test"; "test commands";
                      "how to test"];
       rs_importance := "medium";
       rs_description :=
         "How to run tests, testing conventions, coverage targets" |} ].

Record completeness := {
  cp_section : string;
  cp_importance : string;
  cp_found : bool;
  cp_matched_as : option string;
  cp_description : string;
}.

(** The first title, alias by alias, with [alias in title or title in alias]. *)
Fixpoint find_alias (aliases titles : list string) : option string :=
  match aliases with
  | [] => None
  | alias :: aliases' =>
      match List.find (λ title, Py.contains alias title || Py.contains title alias)
                      titles with
      | Some title => Some title
      | None => find_alias aliases' titles
      end
  end.

Definition check_section_completeness (sections : list section)
    : list completeness :=
  let section_titles_lower := (λ s, Py.lower (sec_title s)) <$> sections in
  (λ info,
     let matched := find_alias (rs_aliases info) section_titles_lower in
     {| cp_section := rs_name info; cp_importance := rs_importance info;
        cp_found := bool_decide (is_Some matched); cp_matched_as := matched;
        cp_description := rs_description info |})
  <$> RECOMMENDED_SECTIONS.

(** ** [detect_redundancy] *)

Record issue := {
  is_type : string;
  is_pattern : option string;
  is_message : string;
  is_occurrences : nat;
}.

(** A pattern of the two tables: the expression, its source text and the
    message. *)
Record phrase := {
  ph_re : Re.regex;
  ph_source : string;
  ph_message : string;
}.

Definition words_group (i : nat) (l : list string) : Re.regex :=
  Re.Group i (Re.alt (Re.ilit <$> l)).

Definition GENERIC_PATTERNS : list phrase :=
  [ {| ph_re := Re.seq [Re.ilit "write clean";
                        Re.plus (λ c, Ascii.eqb c "," || Re.space c);
                        Re.ilit "readable code"];
       ph_source := "write clean[,\s]+readable code";
       ph_message := "Generic advice - Claude already writes clean code" |};
    {| ph_re := Re.ilit "follow best practices";
       ph_source := "follow best practices";
       ph_message := "Too vague - specify which practices" |};
    {| ph_re := Re.ilit "use meaningful variable names";
       ph_source := "use meaningful variable names";
       ph_message := "Generic advice - already default behavior" |};
    {| ph_re := Re.ilit "add comments where necessary";
       ph_source := "add comments where necessary";
       ph_message :=
         "Generic advice - specify commenting standards if non-obvious" |};
    {| ph_re := Re.seq [Re.ilit "handle error"; Re.Opt (Re.ichr "s");
                        Re.ichr " ";
                        words_group 1 ["properly"; "gracefully"; "appropriately"]];
       ph_source := "handle errors? (properly|gracefully|appropriately)";
       ph_message := "Too vague - specify error handling patterns" |};
    {| ph_re := Re.ilit "write unit tests";
       ph_source := "write unit tests";
       ph_message :=
         "Too vague without specifying framework, coverage target, or patterns" |};
    {| ph_re := Re.seq [Re.ilit "keep "; words_group 1 ["it"; "things"; "code"];
                        Re.ichr " "; words_group 2 ["simple"; "dry"; "clean"]];
       ph_source := "keep (it|things|code) (simple|dry|clean)";
       ph_message := "Generic advice - specify concrete constraints" |};
    {| ph_re := Re.seq [Re.ilit "follow the ";
                        words_group 1 ["existing"; "current"]; Re.ichr " ";
                        Re.Group 2
                          (Re.alt [Re.Seq (Re.ilit "pattern") (Re.Opt (Re.ichr "s"));
                                   Re.Seq (Re.ilit "convention") (Re.Opt (Re.ichr "s"));
                                   Re.ilit "style"])];
       ph_source :=
         "follow the (existing|current) (patterns?|conventions?|style)";
       ph_message := "Good intent but vague - specify which patterns" |};
    {| ph_re := Re.seq [Re.ilit "make sure to ";
                        words_group 1 ["test"; "validate"; "verify"]];
       ph_source := "make sure to (test|validate|verify)";
       ph_message := "Generic - specify what and how" |};
    {| ph_re := Re.seq [Re.ilit "ensure "; Re.Opt (Re.Group 1 (Re.ilit "code "));
                        Re.ilit "quality"];
       ph_source := "ensure (code )?quality";
       ph_message := "Too vague - specify quality metrics or checks" |} ].

Definition VERBOSITY_PATTERNS : list phrase :=
  [ {| ph_re := Re.ilit "it is important to note that";
       ph_source := "it is important to note that";
       ph_message := "Remove filler phrase" |};
    {| ph_re := Re.seq [Re.ilit "please ";
                        words_group 1 ["make sure"; "ensure"; "remember"];
                        Re.ichr " "; words_group 2 ["to"; "that"]];
       ph_source := "please (make sure|ensure|remember) (to|that)";
       ph_message := "Remove politeness filler" |};
    {| ph_re := Re.seq [Re.ilit "you should "; words_group 1 ["always"; "never"]];
       ph_source := "you should (always|never)";
       ph_message := "Simplify to direct instruction" |};
    {| ph_re := Re.ilit "in order to";
       ph_source := "in order to";
       ph_message := "Replace with 'to'" |};
    {| ph_re := Re.ilit "at this point in time";
       ph_source := "at this point in time";
       ph_message := "Replace with 'now' or remove" |};
    {| ph_re := Re.ilit "due to the fact that";
       ph_source := "due to the fact that";
       ph_message := "Replace with 'because'" |};
    {| ph_re := Re.ilit "it goes without saying";
       ph_source := "it goes without saying";
       ph_message := "If obvious, remove entirely" |};
    {| ph_re := Re.ilit "as a matter of fact";
       ph_source := "as a matter of fact";
       ph_message := "Remove filler" |} ].

Definition phrase_issues (type : string) (text : string) (ps : list phrase)
    : list issue :=
  omap (λ p,
          match Re.findall (ph_re p) text with
          | [] => None
          | matches =>
              Some {| is_type := type; is_pattern := Some (ph_source p);
                      is_message := ph_message p;
                      is_occurrences := length matches |}
          end) ps.

(** [collections.Counter]: the counts, in the order of first occurrence. *)
Fixpoint counter_add (x : string) (d : list (string * nat)) : list (string * nat) :=
  match d with
  | [] => [(x, 1%nat)]
  | (y, n) :: d' =>
      if Py.eqb x y then (y, S n) :: d' else (y, n) :: counter_add x d'
  end.

Definition Counter (l : list string) : list (string * nat) :=
  foldl (λ d x, counter_add x d) [] l.

(** One of [.], [!], [?], then some white space. *)
Definition sentence_end_re : Re.regex :=
  Re.Seq (Re.Chr (Re.oneof ".!?")) (Re.plus Re.space).

Definition quote : string := String Py.dquote "".

Definition duplicate_sentences (text : string) : list issue :=
  let sentences := Re.split sentence_end_re text in
  let sentences_clean :=
    (λ s, Py.lower (Py.strip s))
    <$> List.filter (λ s, (20 <? Py.len (Py.strip s))%nat) sentences in
  omap (λ e : string * nat,
          if (1 <? e.2)%nat then
            Some {| is_type := "duplicate_sentence"; is_pattern := None;
                    is_message := "Sentence appears " +:+ pretty e.2
                                  +:+ " times: " +:+ quote +:+ Py.take 80 e.1
                                  +:+ "..." +:+ quote;
                    is_occurrences := e.2 |}
          else None)
       (Counter sentences_clean).

(** [[" ".join(words[i : i + 3]) for i in range(len(words) - 2)]] *)
Fixpoint trigrams (ws : list string) : list string :=
  match ws with
  | a :: ((b :: c :: _) as t) => Py.join " " [a; b; c] :: trigrams t
  | _ => []
  end.

Definition repeated_phrases (text : string) : list issue :=
  let words := Py.words (Py.lower text) in
  omap (λ e : string * nat,
          if (4 <=? e.2)%nat && (10 <? Py.len e.1)%nat
             && negb (Py.among e.1 ["in the the"; "of the the"; "and the the"])
          then
            Some {| is_type := "repeated_phrase"; is_pattern := None;
                    is_message := "Phrase " +:+ quote +:+ e.1 +:+ quote
                                  +:+ " appears " +:+ pretty e.2 +:+ " times";
                    is_occurrences := e.2 |}
          else None)
       (Counter (trigrams words)).

Definition detect_redundancy (text : string) : list issue :=
  phrase_issues "generic_content" text GENERIC_PATTERNS
  ++ phrase_issues "verbose_phrasing" text VERBOSITY_PATTERNS
  ++ duplicate_sentences text
  ++ repeated_phrases text.

(** ** [suggest_hierarchical_loading] *)

(** [sorted(..., key=token_estimate, reverse=True)]: stable. *)
Fixpoint insert_desc (x : section) (l : list section) : list section :=
  match l with
  | [] => [x]
  | y :: l' =>
      if (sec_token_estimate y <=? sec_token_estimate x)%Z then x :: y :: l'
      else y :: insert_desc x l'
  end.

Definition sort_desc (l : list section) : list section :=
  foldr insert_desc [] l.

Fixpoint move_suggestions (movable : list section) (tokens_to_move overage : Z)
    : list string :=
  match movable with
  | [] => []
  | s :: movable' =>
      if (overage <=? tokens_to_move)%Z then []
      else
        ("Move " +:+ quote +:+ sec_title s +:+ quote +:+ " (~"
         +:+ pretty (sec_token_estimate s)
         +:+ " tokens) to a child CLAUDE.md or reference file")
        :: move_suggestions movable' (tokens_to_move + sec_token_estimate s)%Z
                            overage
  end.

Definition suggest_hierarchical_loading (text : string) (sections : list section)
    (token_limit : Z) : list string :=
  let total_tokens := estimate_tokens text in
  if (total_tokens <=? token_limit)%Z then []
  else
    let overage := (total_tokens - token_limit)%Z in
    let movable_sections :=
      sort_desc
        (List.filter (λ s, (sec_level s =? 2)%nat
                           && (200 <? sec_token_estimate s)%Z) sections) in
    ("File is ~" +:+ pretty total_tokens +:+ " tokens, " +:+ pretty overage
     +:+ " tokens over the " +:+ pretty token_limit +:+ " token target.")
    :: move_suggestions movable_sections 0 overage.

(** ** [generate_recommendations] *)

Record recommendation := {
  priority : string;
  category : string;
  message : string;
}.

Definition rec (p c m : string) : recommendation :=
  {| priority := p; category := c; message := m |}.

Definition missing_sections (importance p verb : string)
    (completeness : list completeness) : list recommendation :=
  (λ check,
     rec p "completeness"
         (verb +:+ cp_section check +:+ " -- " +:+ cp_description check))
  <$> List.filter (λ check, negb (cp_found check)
                            && Py.eqb (cp_importance check) importance)
                  completeness.

(** "Token budget recommendations". *)
Definition token_budget (total_tokens token_limit : Z) : list recommendation :=
  (if (token_limit <? total_tokens)%Z then
     [rec "high" "token_budget"
          ("File exceeds target of " +:+ pretty token_limit +:+ " tokens ("
           +:+ pretty total_tokens
           +:+ " current). Use hierarchical loading to reduce.")]
   else [])
  ++ (if (token_limit * 2 <? total_tokens)%Z then
        [rec "high" "token_budget"
             "File is more than double the target size. Major restructuring recommended."]
      else []).

Definition count_type (type : string) (redundancies : list issue) : nat :=
  length (List.filter (λ r, Py.eqb (is_type r) type) redundancies).

(** "Redundancy recommendations". *)
Definition redundancy_recs (redundancies : list issue) : list recommendation :=
  let generic_count := count_type "generic_content" redundancies in
  let verbose_count := count_type "verbose_phrasing" redundancies in
  let duplicate_count := count_type "duplicate_sentence" redundancies in
  (if (0 <? generic_count)%nat then
     [rec "medium" "redundancy"
          ("Found " +:+ pretty generic_count
           +:+ " generic/vague instructions. Replace with specific, actionable guidance or remove.")]
   else [])
  ++ (if (0 <? verbose_count)%nat then
        [rec "low" "redundancy"
             ("Found " +:+ pretty verbose_count
              +:+ " verbose phrases that can be simplified.")]
      else [])
  ++ (if (0 <? duplicate_count)%nat then
        [rec "medium" "redundancy"
             ("Found " +:+ pretty duplicate_count
              +:+ " duplicate sentences. Remove repetition.")]
      else []).

(** The check of an empty YAML frontmatter. *)
Definition empty_frontmatter (text : string) : bool :=
  Py.startswith "---" (Py.strip text) &&
  match Py.split_str "---" text (Some 2%nat) with
  | _ :: frontmatter :: _ :: _ => negb (Py.truthy (Py.strip frontmatter))
  | _ => false
  end.

(** "Structure recommendations". *)
Definition structure_recs (text : string) (sections : list section)
    : list recommendation :=
  let line_count := length (Py.lines text) in
  let h2_sections := List.filter (λ s, (sec_level s =? 2)%nat) sections in
  (if (300 <? line_count)%nat then
     [rec "medium" "structure"
          ("File is " +:+ pretty line_count
           +:+ " lines. Consider splitting into hierarchical CLAUDE.md files.")]
   else [])
  ++ (if (10 <? length h2_sections)%nat then
        [rec "low" "structure"
             ("File has " +:+ pretty (length h2_sections)
              +:+ " top-level sections. Consider consolidating.")]
      else [])
  ++ (if empty_frontmatter text then
        [rec "low" "structure"
             "YAML frontmatter is empty. Either add content or remove the delimiters."]
      else []).

Definition starts_with_any (prefixes : list string) (s : string) : bool :=
  existsb (λ p, Py.startswith p s) prefixes.

(** "Format recommendations". *)
Definition format_recs (text : string) : list recommendation :=
  let lines := Py.lines text in
  let bullet_lines :=
    length (List.filter
              (λ line, starts_with_any ["- "; "* "; "1."] (Py.strip line)) lines) in
  let paragraph_lines :=
    length (List.filter
              (λ line, (80 <? Py.len (Py.strip line))%nat
                       && negb (starts_with_any ["#"; "-"; "*"; "|"; "`"; ">"]
                                                (Py.strip line))) lines) in
  if (bullet_lines <? paragraph_lines)%nat && (10 <? paragraph_lines)%nat then
    [rec "medium" "format"
         "Heavy use of paragraphs. Bullet points are ~30% more token-efficient and easier for Claude to parse."]
  else [].

Definition generate_recommendations (text : string) (sections : list section)
    (completeness : list completeness) (redundancies : list issue)
    (hierarchical : list string) (token_limit : Z) : list recommendation :=
  let total_tokens := estimate_tokens text in
  missing_sections "critical" "high" "Add missing critical section: " completeness
  ++ missing_sections "high" "medium" "Consider adding section: " completeness
  ++ token_budget total_tokens token_limit
  ++ redundancy_recs redundancies
  ++ structure_recs text sections
  ++ format_recs text
  ++ (rec "medium" "hierarchical_loading" <$> hierarchical).

(** A recommendation that is not about the token budget. *)
Definition off_budget (r : recommendation) : Prop := category r ≠ "token_budget".

(** ** [analyze_claudemd] *)

Record metrics := {
  line_count : nat;
  non_empty_lines : nat;
  character_count : nat;
  word_count : nat;
  token_estimate : Z;
  token_limit : Z;
  within_budget : bool;
  section_count : nat;
}.

Record section_summary := {
  ss_title : string;
  ss_level : nat;
  ss_tokens : Z;
  ss_lines : nat;
}.

Record report := {
  file : string;
  report_metrics : metrics;
  report_sections : list section_summary;
  report_completeness : list completeness;
  redundancies : list issue;
  recommendations : list recommendation;
  score : Z;
}.

(** The returned dict: ["success"] false with an error, or true with the
    report. *)
Inductive analysis :=
| Failure (error : string)
| Success (r : report).

(** What [Path(file_path)] is on disk. *)
Inductive path_state :=
| NotFound                                   (* not path.exists() *)
| NotAFile                                   (* exists, not path.is_file() *)
| IsFile (resolved : string) (r : read_result).

Definition penalty (r : recommendation) : Z :=
  if Py.eqb (priority r) "high" then 15
  else if Py.eqb (priority r) "medium" then 8
  else if Py.eqb (priority r) "low" then 3
  else 0.

(** [max(0, min(100, score))] after the penalties. *)
Definition compute_score (recs : list recommendation) : Z :=
  Z.max 0 (Z.min 100 (foldl (λ score r, score - penalty r)%Z 100%Z recs)).

Definition analyze_text (resolved text : string) (limit : Z) : report :=
  let sections := extract_sections text in
  let completeness := check_section_completeness sections in
  let reds := detect_redundancy text in
  let hierarchical := suggest_hierarchical_loading text sections limit in
  let recs :=
    generate_recommendations text sections completeness reds hierarchical limit in
  {| file := resolved;
     report_metrics :=
       {| line_count := length (Py.lines text);
          non_empty_lines :=
            length (List.filter (λ l, Py.truthy (Py.strip l)) (Py.lines text));
          character_count := Py.len text;
          word_count := length (Py.words text);
          token_estimate := estimate_tokens text;
          token_limit := limit;
          within_budget := (estimate_tokens text <=? limit)%Z;
          section_count := length sections |};
     report_sections :=
       (λ s, {| ss_title := sec_title s; ss_level := sec_level s;
                ss_tokens := sec_token_estimate s;
                ss_lines := sec_line_count s |}) <$> sections;
     report_completeness := completeness;
     redundancies := reds;
     recommendations := recs;
     score := compute_score recs |}.

(** [path.read_text] is not guarded: what it raises leaves the function. *)
Definition analyze_claudemd (file_path : string) (p : path_state) (limit : Z)
    : result analysis :=
  match p with
  | NotFound => Ok (Failure ("File not found: " +:+ file_path))
  | NotAFile => Ok (Failure ("Not a file: " +:+ file_path))
  | IsFile resolved (Text text) => Ok (Success (analyze_text resolved text limit))
  | IsFile _ (OsFail e) => Raised (OSError e)
  | IsFile _ (DecodeFail e) => Raised (UnicodeDecodeError e)
  end.

End Optimizer.

(* ===================================================================== *)
(** * A directory tree                                                    *)
(* ===================================================================== *)

Module Fs.

(** A regular file with contents of type [C], or a directory with named
    entries. *)
Inductive node (C : Type) :=
| File (c : C)
| Dir (entries : gmap string (node C)).
Arguments File {C} c.
Arguments Dir {C} entries.

(** A path, by its parts, relative to the root of the tree. *)
Definition path := list string.

Definition missing : exn := OSError "FileNotFoundError".
Definition not_a_directory : exn := OSError "NotADirectoryError".
Definition is_a_directory : exn := OSError "IsADirectoryError".
Definition file_exists : exn := OSError "FileExistsError".

Fixpoint lookup {C} (p : path) (n : node C) : option (node C) :=
  match p with
  | [] => Some n
  | x :: p' =>
      match n with
      | Dir es =>
          match es !! x with
          | Some n' => lookup p' n'
          | None => None
          end
      | File _ => None
      end
  end.

(** [p.exists()] *)
Definition exists_ {C} (p : path) (n : node C) : bool :=
  bool_decide (is_Some (lookup p n)).

(** [p.mkdir(parents=True, exist_ok=True)] *)
Fixpoint mkdir_p {C} (p : path) (n : node C) : result (node C) :=
  match n with
  | File _ =>
      match p with
      | [] => Raised file_exists
      | _ :: _ => Raised not_a_directory
      end
  | Dir es =>
      match p with
      | [] => Ok n
      | x :: p' =>
          n' ← mkdir_p p' (default (Dir ∅) (es !! x));
          Ok (Dir (<[x := n']> es))
      end
  end.

(** [p.write_text(c)]: the parent must be a directory, [p] must not be
    one; a file that is there is replaced. *)
Fixpoint write_text {C} (p : path) (c : C) (n : node C) : result (node C) :=
  match p with
  | [] =>
      match n with
      | File _ => Ok (File c)
      | Dir _ => Raised is_a_directory
      end
  | x :: p' =>
      match n with
      | Dir es =>
          match es !! x with
          | Some n' =>
              n'' ← write_text p' c n';
              Ok (Dir (<[x := n'']> es))
          | None =>
              match p' with
              | [] => Ok (Dir (<[x := File c]> es))
              | _ :: _ => Raised missing
              end
          end
      | File _ => Raised not_a_directory
      end
  end.

(** A change of the file at [p] that keeps it a file, as [os.chmod] is. *)
Fixpoint update_file {C} (p : path) (f : C → C) (n : node C) : result (node C) :=
  match p with
  | [] =>
      match n with
      | File c => Ok (File (f c))
      | Dir _ => Ok n
      end
  | x :: p' =>
      match n with
      | Dir es =>
          match es !! x with
          | Some n' =>
              n'' ← update_file p' f n';
              Ok (Dir (<[x := n'']> es))
          | None => Raised missing
          end
      | File _ => Raised not_a_directory
      end
  end.

(** The names [shutil.ignore_patterns("__pycache__", "*.pyc", ".DS_Store")]
    leaves out. *)
Definition ignored (name : string) : bool :=
  Py.eqb name "__pycache__" || Py.endswith ".pyc" name || Py.eqb name ".DS_Store".

(** The tree [shutil.copytree(src, dest, ignore=...)] writes for a source
    directory. *)
Fixpoint copy_filtered {C} (n : node C) : node C :=
  match n with
  | File c => File c
  | Dir es => Dir (filter (λ e, ignored e.1 = false) (copy_filtered <$> es))
  end.

End Fs.

(* ===================================================================== *)
(** * skill_scaffolder.py                                                 *)
(* ===================================================================== *)

Module Scaffolder.

(** The three template constants of the module. *)
Inductive template :=
| SKILL_MD_TEMPLATE
| SCRIPT_TEMPLATE
| REFERENCE_TEMPLATE.

(** The text of a file: [TEMPLATE.format(field=value, ...)], kept as the
    template and its fields, or any other text. *)
Inductive text :=
| Formatted (t : template) (fields : list (string * string))
| Plain (s : string).

(** A file: its text and, once [os.chmod] has set it, its mode. *)
Record file := {
  f_text : text;
  f_mode : option N;
}.

(** [" ".join(word.capitalize() for word in name.split("-"))] *)
Definition to_title_case (name : string) : string :=
  Py.join " " (Py.capitalize <$> Py.split "-" name).

(** Returns the error message, or [None]. *)
Definition validate_skill_name (name : string) : option string :=
  if negb (Py.truthy name) then Some "Skill name cannot be empty"
  else if negb (forallb (λ c, Py.isalnum c || Ascii.eqb c "-")
                        (list_ascii_of_string name))
  then Some "Skill name must contain only alphanumeric characters and hyphens"
  else if Py.startswith "-" name || Py.endswith "-" name
  then Some "Skill name must not start or end with a hyphen"
  else if Py.contains "--" name
  then Some "Skill name must not contain consecutive hyphens"
  else None.

(** The dict [create_skill_directory] returns. *)
Inductive creation :=
| Failed (error : string) (path : Fs.path)
| Created (path : Fs.path) (name domain version : string)
          (directories_created files_created : list Fs.path).

Definition success (c : creation) : bool :=
  match c with
  | Created _ _ _ _ _ _ => true
  | Failed _ _ => false
  end.

Definition script_name (skill_name : string) : string :=
  Py.replace_char "-" "_" skill_name +:+ "_tool.py".

Definition skill_md_text (skill_name domain description version license_type
    category today : string) : text :=
  let title := to_title_case skill_name in
  Formatted SKILL_MD_TEMPLATE
    [ ("name", skill_name); ("description", description);
      ("license", license_type); ("version", version);
      ("category", category); ("domain", domain); ("title", title);
      ("summary", title +:+ " skill with automation tools and reference guides.");
      ("keywords", Py.join ", " (Py.split "-" skill_name ++ [domain; category]));
      ("date", today) ].

Definition script_text (skill_name : string) : text :=
  let title := to_title_case skill_name in
  Formatted SCRIPT_TEMPLATE
    [ ("title", title +:+ " Tool");
      ("description", "Automation tool for " +:+ Py.lower title);
      ("filename", script_name skill_name) ].

Definition reference_text (skill_name today : string) : text :=
  let title := to_title_case skill_name in
  Formatted REFERENCE_TEMPLATE
    [ ("title", title +:+ " Guide"); ("topic", Py.lower title);
      ("date", today) ].

Definition new_file (t : text) : file := {| f_text := t; f_mode := None |}.

(** [os.chmod(path, 0o755)] *)
Definition chmod_755 (f : file) : file :=
  {| f_text := f_text f; f_mode := Some 493%N |}.

(** [create_skill_directory] on the tree of the output directory.  [today]
    is [datetime.now().strftime("%B %Y")].  The tree is the one below the
    output directory; paths are relative to it. *)
Definition create_skill_directory (skill_name domain description version
    license_type category today : string) (root : Fs.node file)
    : result (creation * Fs.node file) :=
  let skill_path := [skill_name] in
  let category := if Py.truthy category then category else domain in
  let directories :=
    [skill_path ++ ["scripts"]; skill_path ++ ["references"];
     skill_path ++ ["assets"]] in
  if Fs.exists_ skill_path root then
    Ok (Failed ("Directory already exists: " +:+ Py.join "/" skill_path)
               skill_path, root)
  else
    root ← foldl (λ r d, root ← r; Fs.mkdir_p d root) (Ok root) directories;
    let skill_md_path := skill_path ++ ["SKILL.md"] in
    root ← Fs.write_text skill_md_path
             (new_file (skill_md_text skill_name domain description version
                          license_type category today)) root;
    let script_path := skill_path ++ ["scripts"; script_name skill_name] in
    root ← Fs.write_text script_path (new_file (script_text skill_name)) root;
    root ← Fs.update_file script_path chmod_755 root;
    let ref_path := skill_path ++ ["references"; "guide.md"] in
    root ← Fs.write_text ref_path
             (new_file (reference_text skill_name today)) root;
    let gitkeep_path := skill_path ++ ["assets"; ".gitkeep"] in
    root ← Fs.write_text gitkeep_path (new_file (Plain "")) root;
    Ok (Created skill_path skill_name domain version directories
                [skill_md_path; script_path; ref_path; gitkeep_path],
        root).

(** The directory a successful run leaves at [skill_name]: the four files,
    each in its place, and nothing else. *)
Definition scaffold (skill_name domain description version license_type
    category today : string) : Fs.node file :=
  Fs.Dir
    (<["assets" := Fs.Dir {[ ".gitkeep" := Fs.File (new_file (Plain "")) ]}]>
       (<["references" :=
            Fs.Dir {[ "guide.md" :=
                        Fs.File (new_file (reference_text skill_name today)) ]}]>
          (<["scripts" :=
               Fs.Dir {[ script_name skill_name :=
                           Fs.File (chmod_755 (new_file (script_text skill_name))) ]}]>
             {[ "SKILL.md" :=
                  Fs.File (new_file (skill_md_text skill_name domain description
                                       version license_type category today)) ]}))).

End Scaffolder.

(* ===================================================================== *)
(** * skill-installer.py                                                  *)
(* ===================================================================== *)

Module Installer.

Section Files.
(** The contents of files play no part in the installer. *)
Context {C : Type}.

Definition REPO_URL : string := "https://github.com/borghei/Claude-Skills".
Definition DEFAULT_AGENT : string := "project".

(** The directories of [AGENT_DIRS]; ["vscode"] and ["copilot"] share one. *)
Inductive target_dir :=
| HomeClaudeSkills    (* ~/.claude/skills *)
| CursorSkills        (* .cursor/skills *)
| GithubSkills        (* .github/skills *)
| HomeCodexSkills     (* ~/.codex/skills *)
| HomeGooseSkills     (* ~/.config/goose/skills *)
| ProjectSkills.      (* .skills *)

#[global] Instance target_dir_eq_dec : EqDecision target_dir.
Proof. solve_decision. Defined.

(** [AGENT_DIRS.get(agent, AGENT_DIRS[DEFAULT_AGENT])] *)
Definition get_target_dir (agent : string) : target_dir :=
  if Py.eqb agent "claude" then HomeClaudeSkills
  else if Py.eqb agent "cursor" then CursorSkills
  else if Py.eqb agent "vscode" then GithubSkills
  else if Py.eqb agent "copilot" then GithubSkills
  else if Py.eqb agent "codex" then HomeCodexSkills
  else if Py.eqb agent "goose" then HomeGooseSkills
  else ProjectSkills.

(** [args.agent or DEFAULT_AGENT] *)
Definition agent_or_default (agent : option string) : string :=
  match agent with
  | Some a => if Py.truthy a then a else DEFAULT_AGENT
  | None => DEFAULT_AGENT
  end.

(** ** [discover_skills] *)

Record skill_info := {
  si_path : Fs.path;           (* "path": group/skill_name, by its parts *)
  si_description : string;
  si_has_scripts : bool;
  si_has_references : bool;
  si_has_assets : bool;
}.

(** One SKILL.md met by [sorted(repo_root.rglob("SKILL.md"))]: the parts of
    its path relative to the repository root, what reading it gives, and
    what the three directory tests on its skill directory give. *)
Record hit := {
  hit_parts : list string;
  hit_text : read_result;
  hit_has_scripts : bool;
  hit_has_references : bool;
  hit_has_assets : bool;
}.

(** The description line of the frontmatter, as the loop over
    [fm.splitlines()] finds it. *)
Fixpoint description_line (ls : list string) : option string :=
  match ls with
  | [] => None
  | line :: ls' =>
      if Py.startswith "description:" (Py.strip line) then
        match Py.split1 ":" line with
        | (_, Some rest) =>
            Some (Py.strip (Py.strip_chars (Re.oneof ">-") (Py.strip rest)))
        | (_, None) => None
        end
      else description_line ls'
  end.

(** The [try] block of [discover_skills]; any exception leaves [""]. *)
Definition read_description (r : read_result) : string :=
  match r with
  | Text text =>
      if Py.startswith "---" text then
        match Py.find "---" text 3 with
        | Some (S e) =>
            default "" (description_line
                          (Py.splitlines (Py.take (S e - 3) (Py.drop 3 text))))
        | _ => ""
        end
      else ""
  | _ => ""
  end.

Definition skills_dict := list (string * list (string * skill_info)).

Definition discover_step (skills : skills_dict) (h : hit) : skills_dict :=
  let parts := hit_parts h in
  if bool_decide ("assets" ∈ parts) || bool_decide ("node_modules" ∈ parts)
     || bool_decide (".git" ∈ parts) then skills
  else
    match parts with
    | group :: skill_name :: _ =>
        let info :=
          {| si_path := [group; skill_name];
             si_description := Py.take 120 (read_description (hit_text h));
             si_has_scripts := hit_has_scripts h;
             si_has_references := hit_has_references h;
             si_has_assets := hit_has_assets h |} in
        let group_skills := default [] (Py.dict_get group skills) in
        Py.dict_set group (Py.dict_set skill_name info group_skills) skills
    | _ => skills
    end.

Definition discover_skills (hits : list hit) : skills_dict :=
  foldl discover_step [] hits.

(** Every entry of the dict [discover_skills] builds records, as its path,
    the group and the skill name it is stored under. *)
Definition keyed_by_path (skills : skills_dict) : Prop :=
  ∀ g gs, (g, gs) ∈ skills →
  ∀ n info, Py.dict_get n gs = Some info → si_path info = [g; n].

(** The repository: what the walk meets and the tree below its root. *)
Record repo := {
  repo_hits : list hit;
  repo_tree : Fs.node C;
}.

(** The loop of [cmd_install] that finds the skill: the first group, in
    the order of the dict, that has it. *)
Fixpoint find_skill (skill_name : string) (skills : skills_dict)
    : option (string * skill_info) :=
  match skills with
  | [] => None
  | (group, group_skills) :: skills' =>
      match Py.dict_get skill_name group_skills with
      | Some info => Some (group, info)
      | None => find_skill skill_name skills'
      end
  end.

(** ** The manifest *)

Record installed_info := {
  i_group : option string;
  i_path : Fs.path;
  i_installed_at : string;
  i_updated_at : string;
  i_auto_update : bool;
}.

(** The manifest dict.  A key that a file written by hand may lack is an
    option. *)
Record manifest := {
  m_installed : option (gmap string installed_info);
  m_auto_update : option bool;
  m_source : option string;
}.

(** The file [.claude-skills.json] of a target directory. *)
Inductive manifest_file :=
| NoManifest                  (* it does not exist *)
| Unreadable                  (* reading or [json.loads] raises *)
| Json (m : manifest).

(** A target directory: its manifest file, and its other entries by name.
    No skill is taken to be named like the manifest file. *)
Record target_state := {
  ts_manifest : manifest_file;
  ts_entries : gmap string (Fs.node C);
}.

(** The target directories on disk. *)
Definition world := target_dir → target_state.

Definition default_manifest : manifest :=
  {| m_installed := Some ∅; m_auto_update := Some false;
     m_source := Some REPO_URL |}.

Definition load_manifest (w : world) (t : target_dir) : manifest :=
  match ts_manifest (w t) with
  | Json m => m
  | NoManifest | Unreadable => default_manifest
  end.

Definition save_manifest (t : target_dir) (m : manifest) (w : world) : world :=
  <[t := {| ts_manifest := Json m; ts_entries := ts_entries (w t) |}]> w.

(** [manifest.get("installed", {})] *)
Definition installed_or_empty (m : manifest) : gmap string installed_info :=
  default ∅ (m_installed m).

(** How a command ends: it returns, calls [sys.exit], or raises. *)
Inductive status :=
| Returned
| SysExit (code : Z)
| Raise (e : exn).

(** ** [copy_skill] *)

Definition set_entries (t : target_dir) (es : gmap string (Fs.node C))
    (w : world) : world :=
  <[t := {| ts_manifest := ts_manifest (w t); ts_entries := es |}]> w.

(** [Path(skill_path).name] *)
Definition path_name (p : Fs.path) : string := List.last p "".

(** [if dest.exists(): shutil.rmtree(dest)], which raises on a file. *)
Definition remove_dest (t : target_dir) (name : string) (w : world)
    : result world :=
  match ts_entries (w t) !! name with
  | Some (Fs.Dir _) => Ok (set_entries t (delete name (ts_entries (w t))) w)
  | Some (Fs.File _) => Raised Fs.not_a_directory
  | None => Ok w
  end.

(** Returns the world it leaves and, unless it raised, nothing else (the
    returned [dest] is only printed). *)
Definition copy_skill (r : repo) (skill_path : Fs.path) (t : target_dir)
    (w : world) : status * world :=
  let name := path_name skill_path in
  match remove_dest t name w with
  | Raised e => (Raise e, w)
  | Ok w1 =>
      match Fs.lookup skill_path (repo_tree r) with
      | Some (Fs.Dir es) =>
          (Returned,
           set_entries t (<[name := Fs.copy_filtered (Fs.Dir es)]>
                            (ts_entries (w1 t))) w1)
      | Some (Fs.File _) => (Raise Fs.not_a_directory, w1)
      | None => (Raise Fs.missing, w1)
      end
  end.

(** ** [cmd_install] *)

Record install_args := {
  ia_skill_name : string;
  ia_agent : option string;
  ia_auto_update : bool;
  ia_force : bool;
  ia_json : bool;
}.

(** An installed skill of the same group under another name. *)
Definition conflicts (found_group skill_name : string)
    (e : string * installed_info) : bool :=
  bool_decide (i_group e.2 = Some found_group) && negb (Py.eqb e.1 skill_name).

(** The "one-per-group enforcement" loop reaches its [sys.exit(1)]. *)
Definition group_taken (m : manifest) (found_group skill_name : string)
    (force : bool) : bool :=
  existsb (conflicts found_group skill_name)
          (map_to_list (installed_or_empty m))
  && negb force.

(** [now] is [datetime.now(timezone.utc).isoformat()]. *)
Definition cmd_install (a : install_args) (r : repo) (now : string) (w : world)
    : status * world :=
  let skill_name := ia_skill_name a in
  let target := get_target_dir (agent_or_default (ia_agent a)) in
  match find_skill skill_name (discover_skills (repo_hits r)) with
  | None => (SysExit 1, w)
  | Some (found_group, found_info) =>
      let manifest := load_manifest w target in
      if group_taken manifest found_group skill_name (ia_force a)
      then (SysExit 1, w)
      else
        match copy_skill r (si_path found_info) target w with
        | (Returned, w1) =>
            match m_installed manifest with
            | None => (Raise (KeyError "installed"), w1)
            | Some installed =>
                let entry :=
                  {| i_group := Some found_group;
                     i_path := si_path found_info;
                     i_installed_at := now; i_updated_at := now;
                     i_auto_update := ia_auto_update a |} in
                let manifest' :=
                  {| m_installed := Some (<[skill_name := entry]> installed);
                     m_auto_update :=
                       if ia_auto_update a then Some true
                       else m_auto_update manifest;
                     m_source := m_source manifest |} in
                (Returned, save_manifest target manifest' w1)
            end
        | (s, w1) => (s, w1)
        end
  end.

(** ** [cmd_uninstall] *)

Record uninstall_args := {
  ua_skill_name : string;
  ua_agent : option string;
  ua_json : bool;
}.

Definition cmd_uninstall (a : uninstall_args) (r : repo) (w : world)
    : status * world :=
  let skill_name := ua_skill_name a in
  let target := get_target_dir (agent_or_default (ua_agent a)) in
  let manifest := load_manifest w target in
  match installed_or_empty manifest !! skill_name with
  | None => (SysExit 1, w)
  | Some _ =>
      match remove_dest target skill_name w with
      | Raised e => (Raise e, w)
      | Ok w1 =>
          match m_installed manifest with
          | None => (Raise (KeyError "installed"), w1)
          | Some installed =>
              (Returned,
               save_manifest target
                 {| m_installed := Some (delete skill_name installed);
                    m_auto_update := m_auto_update manifest;
                    m_source := m_source manifest |} w1)
          end
      end
  end.

End Files.

Arguments repo C : clear implicits.
Arguments world C : clear implicits.
Arguments target_state C : clear implicits.

End Installer.
(* ===================================================================== *)
(** * Shared tests of the line-based parsers                              *)
(* ===================================================================== *)

Module Yaml.

(** [not stripped or stripped.startswith("#")]: the line is blank or a
    comment, and the parsers pass over it. *)
Definition skipped (line : string) : bool :=
  negb (Py.truthy (Py.strip line)) || Py.startswith "#" (Py.strip line).

End Yaml.

(* ===================================================================== *)
(** * pipeline_analyzer.py: the report                                    *)
(* ===================================================================== *)

Module PipelineReport.
Import Pipeline.

Definition has_severity (s : string) (f : Finding) : bool :=
  Py.eqb (severity f) s.

(** The ["summary"] entry [format_report] writes for one file in the JSON
    format. *)
Record summary := {
  n_critical : nat;
  n_warning : nat;
  n_info : nat;
  n_total : nat;
}.

Definition summarize (findings : list Finding) : summary :=
  {| n_critical := Py.count_if (has_severity "critical") findings;
     n_warning := Py.count_if (has_severity "warning") findings;
     n_info := Py.count_if (has_severity "info") findings;
     n_total := length findings |}.

(** The severities of [Finding.SEVERITY_ORDER]. *)
Definition ranked (f : Finding) : Prop :=
  severity f = "critical" ∨ severity f = "warning" ∨ severity f = "info".

(** The order of the final sort. *)
Definition by_rank (a b : Finding) : Prop :=
  (severity_rank a ≤ severity_rank b)%nat.

(** A line of the workflow that opens the jobs section for
    [_extract_jobs]. *)
Definition opens_jobs (line : string) : bool :=
  Py.startswith "jobs:" (Py.lstrip line).

End PipelineReport.

(* ===================================================================== *)
(** * claudemd_optimizer.py: reading a report                             *)
(* ===================================================================== *)

Module OptimizerReport.
Import Optimizer.

(** The priorities the score counts. *)
Definition known_priority (r : recommendation) : Prop :=
  priority r = "high" ∨ priority r = "medium" ∨ priority r = "low".

Definition in_category (c : string) (r : recommendation) : bool :=
  Py.eqb (category r) c.

(** The sum the loop of the score subtracts from 100. *)
Definition total_penalty (recs : list recommendation) : Z :=
  foldr (λ r s, (penalty r + s)%Z) 0%Z recs.

End OptimizerReport.

(* ===================================================================== *)
(** * skill-installer.py: reading its results                             *)
(* ===================================================================== *)

Module InstallerReport.
Import Installer.

(** The parts that make [discover_skills] pass over a SKILL.md. *)
Definition excluded (parts : list string) : bool :=
  bool_decide ("assets" ∈ parts) || bool_decide ("node_modules" ∈ parts)
  || bool_decide (".git" ∈ parts).

(** A SKILL.md that [discover_skills] lists under [group] and
    [skill_name]. *)
Definition lists (h : hit) (group skill_name : string) : Prop :=
  excluded (hit_parts h) = false
  ∧ ∃ rest, hit_parts h = group :: skill_name :: rest.

(** [skill_name in skills[group]] *)
Definition listed (skills : skills_dict) (group skill_name : string) : Prop :=
  ∃ gs info, Py.dict_get group skills = Some gs
             ∧ Py.dict_get skill_name gs = Some info.


End InstallerReport.

(* ===================================================================== *)
(** * skills_index_builder.py: [build_index]                              *)
(* ===================================================================== *)

Module IndexBuild.







Record summary := {
  total_tools : nat;
  total_references : nat;
  total_size_bytes : N;
  categories : list (string * nat);
  domains : list (string * nat);
  platforms : list (string * nat);
}.






End IndexBuild.

(* ===================================================================== *)
(** * Sample inputs                                                       *)
(* ===================================================================== *)

Module Samples.

(** A Markdown text without frontmatter. *)
Definition title_only : string := "# Title".

(** A text whose first line starts with three hyphens and goes on. *)
Definition loose_opening : string :=
  "---abc
name: x
---".

(** A skill directory that holds nothing. *)
Definition bare_dir : Validator.skill_dir :=
  {| Validator.dir_name := "demo";
     Validator.dir_path := "/skills/demo";
     Validator.skill_md := None;
     Validator.scripts_py := None;
     Validator.references_md := None;
     Validator.assets_files := None;
     Validator.requirements := None;
     Validator.openai_yaml_file := None;
     Validator.script_is_file := λ _, false;
     Validator.files := [] |}.

(** A skill directory that holds only a requirements.txt whose bytes are
    not UTF-8 (a UTF-16 file starts with the byte 0xff). *)
Definition utf16_requirements_dir : Validator.skill_dir :=
  {| Validator.dir_name := "demo";
     Validator.dir_path := "/skills/demo";
     Validator.skill_md := None;
     Validator.scripts_py := None;
     Validator.references_md := None;
     Validator.assets_files := None;
     Validator.requirements :=
       Some (DecodeFail "'utf-8' codec can't decode byte 0xff in position 0: invalid start byte");
     Validator.openai_yaml_file := None;
     Validator.script_is_file := λ _, false;
     Validator.files :=
       [ {| Validator.fe_rel := "requirements.txt"; Validator.fe_size := 24;
            Validator.fe_read :=
              DecodeFail "'utf-8' codec can't decode byte 0xff in position 0: invalid start byte" |} ] |}.

(** A complete skill directory. *)
Definition skill_md_text : string :=
  "---
name: demo
description: This skill should be used when a demo is needed.
license: MIT
---
# Demo
".

Definition openai_yaml_text : string :=
  "name: demo
description: A demo skill
instructions: Follow the steps of the demo skill one by one and report each result.
tools:
  - name: run
    command: python scripts/run.py
".

Definition complete_dir : Validator.skill_dir :=
  {| Validator.dir_name := "demo";
     Validator.dir_path := "/skills/demo";
     Validator.skill_md := Some (Text skill_md_text);
     Validator.scripts_py := Some 1%nat;
     Validator.references_md := Some 0%nat;
     Validator.assets_files := Some 0%nat;
     Validator.requirements := None;
     Validator.openai_yaml_file := Some (Text openai_yaml_text);
     Validator.script_is_file := λ s, Py.eqb s "run.py";
     Validator.files :=
       [ {| Validator.fe_rel := "SKILL.md"; Validator.fe_size := 100;
            Validator.fe_read := Text skill_md_text |};
         {| Validator.fe_rel := "agents/openai.yaml"; Validator.fe_size := 180;
            Validator.fe_read := Text openai_yaml_text |};
         {| Validator.fe_rel := "scripts/run.py"; Validator.fe_size := 40;
            Validator.fe_read := Text "print(1)" |} ] |}.

(** A workflow with one job and no timeout, and a workflow that only
    mentions concurrency in a comment. *)
Definition one_job : string :=
  "jobs:
  build:
    runs-on: ubuntu-22.04
".

Definition comment_only : string :=
  "# concurrency is configured by the caller
permissions: read-all
".

(** A job whose timeout has four hundred digits. *)
Definition huge_timeout : string :=
  "jobs:
  build:
    timeout-minutes: 1" +:+ Py.join "" (replicate 399 "0") +:+ "
".

Definition workflow (content : string) : Pipeline.workflow_file :=
  {| Pipeline.wf_path := ".github/workflows/ci.yml";
     Pipeline.wf_name := "ci.yml";
     Pipeline.wf_read := Text content |}.





(** A short CLAUDE.md. *)
Definition small_claude_md : string :=
  "# Project

## Overview
A small service.
".

(** A repository with one skill, and two states of the target directories:
    nothing installed anywhere, and another skill of the same group
    installed in the project's directory. *)
Definition one_skill_repo : Installer.repo string :=
  {| Installer.repo_hits :=
       [ {| Installer.hit_parts := ["marketing"; "content-creator"; "SKILL.md"];
            Installer.hit_text := Text skill_md_text;
            Installer.hit_has_scripts := false;
            Installer.hit_has_references := false;
            Installer.hit_has_assets := false |} ];
     Installer.repo_tree :=
       Fs.Dir {[ "marketing" :=
                   Fs.Dir {[ "content-creator" :=
                               Fs.Dir {[ "SKILL.md" := Fs.File skill_md_text ]} ]} ]} |}.

Definition nothing_installed : Installer.world string :=
  λ _, {| Installer.ts_manifest := Installer.NoManifest;
          Installer.ts_entries := ∅ |}.

Definition seo_installed : Installer.world string :=
  λ _, {| Installer.ts_manifest :=
            Installer.Json
              {| Installer.m_installed :=
                   Some {[ "seo-optimizer" :=
                             {| Installer.i_group := Some "marketing";
                                Installer.i_path := ["marketing"; "seo-optimizer"];
                                Installer.i_installed_at := "2025-01-01T00:00:00+00:00";
                                Installer.i_updated_at := "2025-01-01T00:00:00+00:00";
                                Installer.i_auto_update := false |} ]};
                 Installer.m_auto_update := Some false;
                 Installer.m_source := Some Installer.REPO_URL |};
          Installer.ts_entries := {[ "seo-optimizer" := Fs.Dir ∅ ]} |}.




Definition install_content_creator : Installer.install_args :=
  {| Installer.ia_skill_name := "content-creator";
     Installer.ia_agent := None;
     Installer.ia_auto_update := false;
     Installer.ia_force := false;
     Installer.ia_json := false |}.

Definition uninstall_content_creator : Installer.uninstall_args :=
  {| Installer.ua_skill_name := "content-creator";
     Installer.ua_agent := None;
     Installer.ua_json := false |}.

End Samples.

(* ===================================================================== *)
(** * Properties of the matcher                                           *)
(* ===================================================================== *)

Section Matcher.
Import Re.

Lemma extends_refl cs : extends cs cs.
Proof. intros i H; exact H. Qed.

Lemma extends_trans cs1 cs2 cs3 :
  extends cs1 cs2 → extends cs2 cs3 → extends cs1 cs3.
Proof. intros H12 H23 i H. apply H23, H12, H. Qed.

Lemma extends_cons i s cs : extends cs ((i, s) :: cs).
Proof.
  intros j H. simpl. destruct (Nat.eqb j i); [eexists; reflexivity | exact H].
Qed.

Lemma group_cons_same i s cs : is_Some (group i ((i, s) :: cs)).
Proof. simpl. rewrite Nat.eqb_refl. eexists; reflexivity. Qed.

Lemma has_groups_extends l cs cs' :
  extends cs cs' → has_groups l cs → has_groups l cs'.
Proof.
  intros He H. unfold has_groups in *. induction H; constructor; auto.
Qed.

(** A repetition that matches hands its continuation the same captures. *)
Lemma rep_cont {A} p lo hi prev s cs (k : cont A) x :
  rep p lo hi prev s cs k = Some x →
  ∃ prev' s', k prev' s' cs = Some x.
Proof.
  revert lo hi prev.
  induction s as [| c s IH]; intros lo hi prev H; simpl in H.
  - destruct lo; [eauto | discriminate].
  - destruct (p c && negb (bool_decide (hi = Some 0%nat))).
    + destruct (rep p (pred lo) (pred <$> hi) (Some c) s cs k) eqn:E.
      * inversion H; subst. eapply IH, E.
      * destruct lo; [eauto | discriminate].
    + destruct lo; [eauto | discriminate].
Qed.

(** A pattern that matches calls its continuation, with captures that keep
    the earlier groups and hold all the groups the pattern is sure to set. *)
Lemma run_cont {A} r : ∀ prev s cs (k : cont A) x,
  run r prev s cs k = Some x →
  ∃ prev' s' cs', k prev' s' cs' = Some x ∧ extends cs cs'
                  ∧ has_groups (sure_groups r) cs'.
Proof.
  induction r as [| p | r1 IH1 r2 IH2 | r1 IH1 r2 IH2 | p lo hi | r IH
                 | i r IH | | | ]; intros prev s cs k x H; simpl in H.
  - exists prev, s, cs. split; [exact H |]. split; [apply extends_refl | constructor].
  - destruct s as [| c s]; [discriminate |].
    destruct (p c); [| discriminate].
    exists (Some c), s, cs. split; [exact H |]. split; [apply extends_refl | constructor].
  - apply IH1 in H as (p1 & s1 & cs1 & H & He1 & Hg1).
    apply IH2 in H as (p2 & s2 & cs2 & H & He2 & Hg2).
    exists p2, s2, cs2. split; [exact H |]. split.
    + eapply extends_trans; eassumption.
    + simpl. apply Forall_app. split; [| exact Hg2].
      eapply has_groups_extends; eassumption.
  - destruct (run r1 prev s cs k) eqn:E.
    + inversion H; subst. apply IH1 in E as (p1 & s1 & cs1 & E & He & _).
      exists p1, s1, cs1. split; [exact E |]. split; [exact He | constructor].
    + apply IH2 in H as (p1 & s1 & cs1 & E' & He & _).
      exists p1, s1, cs1. split; [exact E' |]. split; [exact He | constructor].
  - apply rep_cont in H as (p1 & s1 & H).
    exists p1, s1, cs. split; [exact H |]. split; [apply extends_refl | constructor].
  - destruct (run r prev s cs k) eqn:E.
    + inversion H; subst. apply IH in E as (p1 & s1 & cs1 & E & He & _).
      exists p1, s1, cs1. split; [exact E |]. split; [exact He | constructor].
    + exists prev, s, cs. split; [exact H |]. split; [apply extends_refl | constructor].
  - apply IH in H as (p1 & s1 & cs1 & H & He & Hg).
    exists p1, s1, ((i, consumed s s1) :: cs1). split; [exact H |]. split.
    + eapply extends_trans; [exact He | apply extends_cons].
    + simpl. constructor; [apply group_cons_same |].
      eapply has_groups_extends; [apply extends_cons | exact Hg].
  - destruct prev; [discriminate |].
    exists None, s, cs. split; [exact H |]. split; [apply extends_refl | constructor].
  - destruct (Py.eqb s "" || Py.eqb s (String Py.nl "")); [| discriminate].
    exists prev, s, cs. split; [exact H |]. split; [apply extends_refl | constructor].
  - destruct (xorb (is_word_at prev) (is_word_at (head s))); [| discriminate].
    exists prev, s, cs. split; [exact H |]. split; [apply extends_refl | constructor].
Qed.

(** What [re.match] returns holds every group the pattern is sure to set. *)
Lemma rmatch_groups r s cs :
  rmatch r s = Some cs → has_groups (sure_groups r) cs.
Proof.
  unfold rmatch, match_here. intros H.
  destruct (run (Group 0 r) None s [] (λ _ s' cs0, Some (cs0, s'))) as [[cs' rest] |] eqn:E;
    [| discriminate].
  simpl in H. inversion H; subst cs'.
  apply run_cont in E as (p1 & s1 & cs1 & E & _ & Hg).
  inversion E; subst. simpl in Hg. inversion Hg; assumption.
Qed.

Lemma search_from_groups r : ∀ s prev cs,
  search_from r prev s = Some cs → has_groups (sure_groups r) cs.
Proof.
  induction s as [| c s IH]; intros prev cs H; simpl in H.
  - destruct (match_here r prev "") as [[cs' rest] |] eqn:E; [| discriminate].
    inversion H; subst. unfold match_here in E.
    apply run_cont in E as (p1 & s1 & cs1 & E & _ & Hg).
    inversion E; subst. simpl in Hg. inversion Hg; assumption.
  - destruct (match_here r prev (String c s)) as [[cs' rest] |] eqn:E.
    + inversion H; subst. unfold match_here in E.
      apply run_cont in E as (p1 & s1 & cs1 & E & _ & Hg).
      inversion E; subst. simpl in Hg. inversion Hg; assumption.
    + eapply IH, H.
Qed.

Lemma search_groups r s cs :
  search r s = Some cs → has_groups (sure_groups r) cs.
Proof. apply search_from_groups. Qed.

End Matcher.

(** [m.group(1)] and [m.group(2)] exist for a match of a [key: value] line. *)
Lemma key_value_groups s cs :
  Re.rmatch Frontmatter.key_value_re s = Some cs →
  ∃ k v, Frontmatter.get_group 1 cs = Ok k ∧ Frontmatter.get_group 2 cs = Ok v.
Proof.
  intros H. apply rmatch_groups in H. simpl in H.
  inversion H as [| ? ? [k Hk] H']; subst.
  inversion H' as [| ? ? [v Hv] _]; subst.
  exists k, v. unfold Frontmatter.get_group. rewrite Hk, Hv. split; reflexivity.
Qed.

(* ===================================================================== *)
(** * The frontmatter parsers                                             *)
(* ===================================================================== *)

Section FrontmatterFacts.
Import Frontmatter.

Lemma eqb_eq s t : Py.eqb s t = true ↔ s = t.
Proof. unfold Py.eqb. apply String.eqb_eq. Qed.

Lemma eqb_neq s t : Py.eqb s t = false ↔ s ≠ t.
Proof. unfold Py.eqb. apply String.eqb_neq. Qed.

(** The search for the closing line stays inside the list, so [lines[i]]
    never raises; it answers [None] exactly when no line in range closes. *)
Lemma find_end_from_spec lines : ∀ n i,
  (n = 0 ∨ i + n ≤ length lines)%nat →
  (∃ e, find_end_from lines i n = Ok (Some e)
        ∧ (i ≤ e < i + n)%nat
        ∧ ∃ l, lines !! e = Some l ∧ Py.strip l = "---")
  ∨ (find_end_from lines i n = Ok None
     ∧ ∀ j l, (i ≤ j < i + n)%nat → lines !! j = Some l → Py.strip l ≠ "---").
Proof.
  induction n as [| n IH]; intros i Hn; simpl.
  - right. split; [reflexivity |]. intros j l Hj. lia.
  - destruct Hn as [Hn | Hn]; [discriminate |].
    unfold get_line.
    destruct (lines !! i) as [l |] eqn:El.
    2: { apply lookup_ge_None in El. lia. }
    simpl. destruct (Py.eqb (Py.strip l) "---") eqn:Eq.
    + left. exists i. split; [reflexivity |]. split; [lia |].
      exists l. split; [exact El | apply eqb_eq, Eq].
    + destruct (IH (S i)) as [(e & He & Hr & Hl) | [He Hall]]; [right; lia | |].
      * left. exists e. split; [exact He |]. split; [lia | exact Hl].
      * right. split; [exact He |]. intros j l' Hj Hl'.
        destruct (decide (j = i)) as [-> | Hne].
        -- rewrite El in Hl'. inversion Hl'; subst. apply eqb_neq, Eq.
        -- eapply Hall; [| exact Hl']. lia.
Qed.

Lemma find_end_spec content :
  (∃ e, find_end (Py.lines content) = Ok (Some e) ∧ has_closing_line content)
  ∨ (find_end (Py.lines content) = Ok None ∧ ¬ has_closing_line content).
Proof.
  unfold find_end.
  destruct (find_end_from_spec (Py.lines content)
              (length (Py.lines content) - 1) 1) as [(e & He & Hr & l & Hl & Hs) | [He Hall]].
  - destruct (length (Py.lines content)); [left | right]; lia.
  - left. exists e. split; [exact He |]. exists e, l. repeat split; [lia | exact Hl | exact Hs].
  - right. split; [exact He |]. intros (i & l & Hi & Hl & Hs).
    apply (Hall i l); [| exact Hl | exact Hs].
    apply lookup_lt_Some in Hl. lia.
Qed.

(** A loop whose step never raises never raises. *)
Lemma loop_total {S} (step : S → string → result S) :
  (∀ st l, ∃ st', step st l = Ok st') →
  ∀ ls st, ∃ st', loop step ls st = Ok st'.
Proof.
  intros Hstep. induction ls as [| l ls IH]; intros st; simpl.
  - eauto.
  - destruct (Hstep st l) as [st' ->]. simpl. apply IH.
Qed.

Lemma fm_step_total st line : ∃ st', Validator.fm_step st line = Ok st'.
Proof.
  unfold Validator.fm_step.
  destruct (negb (Py.truthy (Py.strip line)) || Py.startswith "#" (Py.strip line));
    [eauto |].
  destruct (Re.rmatch key_value_re (Py.strip line)) as [cs |] eqn:E; [| eauto].
  destruct (indent_of line =? 0)%nat; [| eauto].
  destruct (key_value_groups _ _ E) as (k & v & -> & ->). simpl. eauto.
Qed.

Lemma index_step_total st line : ∃ st', IndexBuilder.step st line = Ok st'.
Proof.
  assert (Hn : ∀ i s, ∃ st', IndexBuilder.nested_or_continuation st i s = Ok st').
  { intros i s. unfold IndexBuilder.nested_or_continuation.
    destruct ((0 <? i)%nat && key_set (IndexBuilder.st_nested_key st)); [| eauto].
    destruct (Re.rmatch key_value_re s) as [cs |] eqn:E; [| eauto].
    destruct (key_value_groups _ _ E) as (k & v & -> & ->). simpl. eauto. }
  unfold IndexBuilder.step.
  destruct (negb (Py.truthy (Py.strip line)) || Py.startswith "#" (Py.strip line));
    [eauto |].
  destruct (Re.rmatch key_value_re (Py.strip line)) as [cs |] eqn:E; [| apply Hn].
  destruct (indent_of line =? 0)%nat; [| apply Hn].
  destruct (key_value_groups _ _ E) as (k & v & -> & ->). simpl. eauto.
Qed.

End FrontmatterFacts.

(** The validator's parser never raises; without the opening [---] or
    without a closing line it answers the empty mapping, marked invalid. *)
Lemma parse_yaml_frontmatter_simple_total content :
  ∃ m valid, Validator.parse_yaml_frontmatter_simple content = Ok (m, valid)
    ∧ (Py.startswith "---" content = false
       ∨ ¬ Frontmatter.has_closing_line content → m = ∅ ∧ valid = false).
Proof.
  unfold Validator.parse_yaml_frontmatter_simple.
  destruct (Py.startswith "---" content) eqn:Hs; simpl.
  2: { exists ∅, false. split; [reflexivity | auto]. }
  destruct (find_end_spec content) as [(e & -> & Hc) | [-> Hc]]; simpl.
  - destruct (loop_total _ fm_step_total
                (Frontmatter.body (Py.lines content) e) Validator.fm_init) as [st ->].
    simpl. eexists _, _. split; [reflexivity |].
    intros [H | H]; [discriminate | contradiction].
  - exists ∅, false. split; [reflexivity | auto].
Qed.

(** The index builder's parser never raises; without the opening [---] or
    without a closing line it answers the empty mapping. *)
Lemma parse_yaml_frontmatter_total content :
  ∃ m, IndexBuilder.parse_yaml_frontmatter content = Ok m
    ∧ (Py.startswith "---" content = false
       ∨ ¬ Frontmatter.has_closing_line content → m = ∅).
Proof.
  unfold IndexBuilder.parse_yaml_frontmatter.
  destruct (Py.startswith "---" content) eqn:Hs; simpl.
  2: { exists ∅. split; [reflexivity | auto]. }
  destruct (find_end_spec content) as [(e & -> & Hc) | [-> Hc]]; simpl.
  - destruct (loop_total _ index_step_total
                (Frontmatter.body (Py.lines content) e) IndexBuilder.init) as [st ->].
    simpl. eexists. split; [reflexivity |].
    intros [H | H]; [discriminate | contradiction].
  - exists ∅. split; [reflexivity | auto].
Qed.

(* ===================================================================== *)
(** * The validator                                                       *)
(* ===================================================================== *)

Section ValidatorFacts.
Import Frontmatter Validator.

Lemma split1_of_contains c s :
  Py.contains (String c "") s = true → ∃ h t, Py.split1 c s = (h, Some t).
Proof.
  induction s as [| a s IH]; simpl; intros H.
  - discriminate.
  - destruct (Ascii.eqb a c) eqn:E; [eauto |].
    rewrite Ascii.eqb_sym, E in H. simpl in H.
    destruct (IH H) as (h & t & ->). eauto.
Qed.

Lemma contains_of_startswith p : ∀ q s,
  Py.startswith (p +:+ q) s = true → Py.contains q (Py.drop (Py.len p) s) = true.
Proof.
  induction p as [| a p IH]; intros q s H.
  - change (Py.startswith q s = true) in H.
    destruct s; simpl; rewrite H; reflexivity.
  - change (Py.startswith (String a (p +:+ q)) s = true) in H.
    destruct s as [| b s]; [discriminate |]. simpl in H.
    apply andb_true_iff in H as [_ H]. apply (IH _ _ H).
Qed.

Lemma contains_drop q : ∀ n s,
  Py.contains q (Py.drop n s) = true → Py.contains q s = true.
Proof.
  induction n as [| n IH]; intros s H; simpl in H; [exact H |].
  destruct s as [| a s]; [exact H |].
  simpl. rewrite (IH _ H). apply orb_true_r.
Qed.

(** A line that starts with [- name:] has a colon, so
    [stripped.split(":", 1)[1]] exists. *)
Lemma name_line_has_colon s :
  Py.startswith "- name:" s = true → Py.contains ":" s = true.
Proof.
  intros H. eapply contains_drop.
  apply (contains_of_startswith "- name" ":" s H).
Qed.

Lemma oy_tools_line_total st s : ∃ st', oy_tools_line st s = Ok st'.
Proof.
  unfold oy_tools_line.
  destruct (Py.startswith "- name:" s) eqn:Hn.
  - destruct (split1_of_contains _ _ (name_line_has_colon _ Hn)) as (h & t & ->).
    eauto.
  - destruct (Py.contains ":" s) eqn:Hc; cbn [andb].
    + destruct (dict_truthy (oy_tool st)); [| eauto].
      destruct (split1_of_contains _ _ Hc) as (h & t & ->).
      destruct (Py.among (Py.strip t) [">"; "|"]); [eauto |].
      destruct (Py.truthy (Py.strip t)); eauto.
    + destruct (dict_truthy (oy_tool st)); eauto.
Qed.

Lemma oy_step_total st line : ∃ st', oy_step st line = Ok st'.
Proof.
  assert (Hr : ∀ i s, ∃ st', oy_rest st i s = Ok st').
  { intros i s. unfold oy_rest.
    destruct (oy_in_tools st); [apply oy_tools_line_total | eauto]. }
  unfold oy_step.
  destruct (negb (Py.truthy (Py.strip line)) || Py.startswith "#" (Py.strip line));
    [eauto |].
  destruct (Re.rmatch key_value_re (Py.strip line)) as [cs |] eqn:E; [| apply Hr].
  destruct (indent_of line =? 0)%nat; [| apply Hr].
  destruct (key_value_groups _ _ E) as (k & v & -> & ->). simpl. eauto.
Qed.

(** [parse_openai_yaml_simple] never raises. *)
Lemma parse_openai_yaml_simple_total content :
  ∃ y valid, parse_openai_yaml_simple content = Ok (y, valid).
Proof.
  unfold parse_openai_yaml_simple.
  destruct (loop_total _ oy_step_total (Py.lines content) oy_init) as [st ->].
  simpl. eauto.
Qed.

Ltac known :=
  repeat match goal with
         | |- Forall _ [] => constructor
         | |- Forall _ (_ :: _) => constructor
         | |- Forall _ (_ ++ _) => apply Forall_app; split
         | |- known_severity _ => unfold known_severity; simpl; tauto
         | |- known_severity (if ?b then _ else _) => destruct b
         | |- Forall _ (match ?x with _ => _ end) => destruct x
         | |- Forall _ (if ?b then _ else _) => destruct b
         end.

Lemma known_skill_md_exists d : Forall known_severity (check_skill_md_exists d).
Proof. unfold check_skill_md_exists. known. Qed.

Lemma known_frontmatter d cs fm :
  check_frontmatter d = Ok (cs, fm) → Forall known_severity cs.
Proof.
  unfold check_frontmatter. intros H.
  destruct (skill_md d) as [[content | e | e] |].
  - destruct (parse_yaml_frontmatter_simple content) as [[m [|]] | e]; simpl in H;
      inversion H; subst; known.
  - inversion H; subst; known.
  - inversion H; subst; known.
  - inversion H; subst; known.
Qed.

Lemma known_name d fm : Forall known_severity (check_name d fm).1.
Proof. unfold check_name. destruct (get_truthy fm "name"); simpl; known. Qed.

Lemma known_description fm : Forall known_severity (check_description fm).
Proof. unfold check_description. known. Qed.

Lemma known_license fm : Forall known_severity (check_license fm).
Proof. unfold check_license. known. Qed.

Lemma known_scripts d : Forall known_severity (check_scripts d).
Proof. unfold check_scripts. known. Qed.

Lemma known_references d : Forall known_severity (check_references d).
Proof. unfold check_references. known. Qed.

Lemma known_assets d : Forall known_severity (check_assets d).
Proof. unfold check_assets. known. Qed.

Lemma known_no_heavy_deps d cs :
  check_no_heavy_deps d = Ok cs → Forall known_severity cs.
Proof.
  unfold check_no_heavy_deps. intros H.
  destruct (requirements d) as [[content | e | e] |].
  - destruct (requirement_lines content); inversion H; subst; known.
  - inversion H; subst; known.
  - discriminate.
  - inversion H; subst; known.
Qed.

Lemma known_openai_yaml_exists d : Forall known_severity (check_openai_yaml_exists d).
Proof. unfold check_openai_yaml_exists. known. Qed.

Lemma known_openai_yaml_valid d cs y :
  check_openai_yaml_valid d = Ok (cs, y) → Forall known_severity cs.
Proof.
  unfold check_openai_yaml_valid. intros H.
  destruct (openai_yaml_file d) as [[content | e | e] |].
  - destruct (parse_openai_yaml_simple content) as [[m [|]] | e]; simpl in H;
      inversion H; subst; known.
  - inversion H; subst; known.
  - inversion H; subst; known.
  - inversion H; subst; known.
Qed.

Lemma known_yaml_name d y n : Forall known_severity (check_yaml_name d y n).
Proof. unfold check_yaml_name. known. Qed.

Lemma known_yaml_description d y : Forall known_severity (check_yaml_description d y).
Proof. unfold check_yaml_description. known. Qed.

Lemma known_yaml_instructions d y : Forall known_severity (check_yaml_instructions d y).
Proof. unfold check_yaml_instructions. known. Qed.

Lemma known_tool d t cs : check_tool d t = Ok cs → Forall known_severity cs.
Proof.
  unfold check_tool. intros H.
  destruct (Re.search script_re (default "" (t !! "command"))) as [caps |].
  - destruct (get_group 1 caps) as [script | e]; simpl in H; [| discriminate].
    destruct (script_is_file d script); inversion H; subst; known.
  - inversion H; subst; known.
Qed.

Lemma known_tools d : ∀ ts cs, check_tools d ts = Ok cs → Forall known_severity cs.
Proof.
  induction ts as [| t ts IH]; intros cs H; simpl in H.
  - inversion H; subst; known.
  - destruct (check_tool d t) as [c |] eqn:Et; simpl in H; [| discriminate].
    destruct (check_tools d ts) as [c' |] eqn:Ets; simpl in H; [| discriminate].
    inversion H; subst. apply Forall_app. split; [eapply known_tool, Et | eapply IH; reflexivity].
Qed.

Lemma known_utf8 : ∀ fs cs, check_utf8 fs = Ok cs → Forall known_severity cs.
Proof.
  induction fs as [| f fs IH]; intros cs H; simpl in H.
  - inversion H; subst; known.
  - destruct (is_text_file f); [| apply IH, H].
    destruct (fe_read f); [apply IH, H | discriminate | inversion H; subst; known].
Qed.

Lemma known_skill_size fs : Forall known_severity (check_skill_size fs).
Proof. unfold check_skill_size. known. Qed.

(** What [run_checks] returns, spelled out. *)
Lemma run_checks_inv d cs name :
  run_checks d = Ok (cs, name) →
  ∃ c2 fm c9 c11 y c15 c16,
    check_frontmatter d = Ok (c2, fm) ∧
    check_no_heavy_deps d = Ok c9 ∧
    check_openai_yaml_valid d = Ok (c11, y) ∧
    check_tools d (tools y) = Ok c15 ∧
    check_utf8 (files d) = Ok c16 ∧
    name = (check_name d fm).2 ∧
    cs = check_skill_md_exists d ++ c2 ++ (check_name d fm).1
         ++ check_description fm ++ check_license fm ++ check_scripts d
         ++ check_references d ++ check_assets d ++ c9
         ++ check_openai_yaml_exists d ++ c11
         ++ check_yaml_name d y (check_name d fm).2
         ++ check_yaml_description d y ++ check_yaml_instructions d y
         ++ c15 ++ c16 ++ check_skill_size (files d).
Proof.
  unfold run_checks. intros H.
  destruct (check_frontmatter d) as [[c2 fm] |] eqn:E2; simpl in H; [| discriminate].
  destruct (check_name d fm) as [c3 nm] eqn:En.
  destruct (check_no_heavy_deps d) as [c9 |] eqn:E9; simpl in H; [| discriminate].
  destruct (check_openai_yaml_valid d) as [[c11 y] |] eqn:E11; simpl in H; [| discriminate].
  destruct (check_tools d (tools y)) as [c15 |] eqn:E15; simpl in H; [| discriminate].
  destruct (check_utf8 (files d)) as [c16 |] eqn:E16; simpl in H; [| discriminate].
  inversion H; subst. exists c2, fm, c9, c11, y, c15, c16.
  rewrite En. simpl. repeat split; assumption || reflexivity.
Qed.

Lemma run_checks_known d cs name :
  run_checks d = Ok (cs, name) → Forall known_severity cs.
Proof.
  intros H. apply run_checks_inv in H
    as (c2 & fm & c9 & c11 & y & c15 & c16 & H2 & H9 & H11 & H15 & H16 & _ & ->).
  repeat (apply Forall_app; split);
    eauto using known_skill_md_exists, known_frontmatter, known_name,
      known_description, known_license, known_scripts, known_references,
      known_assets, known_no_heavy_deps, known_openai_yaml_exists,
      known_openai_yaml_valid, known_yaml_name, known_yaml_description,
      known_yaml_instructions, known_tools, known_utf8, known_skill_size.
Qed.

(** The four counts of the summary split a list of checks with known
    severities. *)
Lemma count_if_cons {A} (p : A → bool) c cs :
  Py.count_if p (c :: cs) = ((if p c then 1 else 0) + Py.count_if p cs)%nat.
Proof. unfold Py.count_if. simpl. destruct (p c); reflexivity. Qed.

Lemma counts_partition cs :
  Forall known_severity cs →
  (Py.count_if passed cs + Py.count_if (is_failed "error") cs
   + Py.count_if (is_failed "warning") cs + Py.count_if (is_failed "info") cs
   = length cs)%nat.
Proof.
  induction 1 as [| c cs Hc _ IH]; [reflexivity |].
  rewrite !count_if_cons. unfold is_failed at 1 3 5.
  cbn [length]. destruct (passed c); cbn [negb andb].
  - lia.
  - destruct Hc as [-> | [-> | ->]]; cbn; lia.
Qed.

(** [validate_skill] returns exactly when neither the requirements check
    nor the encoding check raises. *)
Lemma validate_skill_returns d strict :
  (∀ e, requirements d ≠ Some (DecodeFail e)) →
  (∀ e, check_utf8 (files d) ≠ Raised e) →
  ∃ r, validate_skill d strict = Ok r.
Proof.
  intros Hreq Hutf. unfold validate_skill, run_checks.
  assert (∃ c2 fm, check_frontmatter d = Ok (c2, fm)) as (c2 & fm & ->).
  { unfold check_frontmatter. destruct (skill_md d) as [[content | e | e] |]; eauto.
    destruct (parse_yaml_frontmatter_simple_total content) as (m & v & -> & _).
    simpl. destruct v; eauto. }
  simpl. destruct (check_name d fm) as [c3 nm].
  assert (∃ c9, check_no_heavy_deps d = Ok c9) as (c9 & ->).
  { unfold check_no_heavy_deps. destruct (requirements d) as [[content | e | e] |]; eauto.
    - destruct (requirement_lines content); eauto.
    - exfalso. eapply Hreq. reflexivity. }
  simpl.
  assert (∃ c11 y, check_openai_yaml_valid d = Ok (c11, y)) as (c11 & y & ->).
  { unfold check_openai_yaml_valid. destruct (openai_yaml_file d) as [[content | e | e] |]; eauto.
    destruct (parse_openai_yaml_simple_total content) as (m & v & ->).
    simpl. destruct v; eauto. }
  simpl.
  assert (∃ c15, check_tools d (tools y) = Ok c15) as (c15 & ->).
  { induction (tools y) as [| t ts [c IH]]; simpl; [eauto |].
    assert (∃ c', check_tool d t = Ok c') as (c' & ->).
    { unfold check_tool.
      destruct (Re.search script_re (default "" (t !! "command"))) as [caps |] eqn:E; [| eauto].
      apply search_groups in E. simpl in E. inversion E as [| ? ? [s Hs] _]; subst.
      unfold get_group. rewrite Hs. simpl. destruct (script_is_file d s); eauto. }
    simpl. rewrite IH. simpl. eauto. }
  simpl. destruct (check_utf8 (files d)) as [c16 | e] eqn:E16.
  - simpl. eauto.
  - exfalso. eapply Hutf. reflexivity.
Qed.

End ValidatorFacts.

(* ===================================================================== *)
(** * The pipeline analyzer                                               *)
(* ===================================================================== *)

Section PipelineFacts.
Import Pipeline.

Lemma count_if_nil {A} (p : A → bool) : Py.count_if p [] = 0%nat.
Proof. reflexivity. Qed.

Lemma count_if_app {A} (p : A → bool) l1 l2 :
  Py.count_if p (l1 ++ l2) = (Py.count_if p l1 + Py.count_if p l2)%nat.
Proof. unfold Py.count_if. rewrite List.filter_app, length_app. reflexivity. Qed.



(** A check that appends findings none of which satisfies [p]. *)
Lemma count_if_none {A} (p : A → bool) l :
  Forall (λ x, p x = false) l → Py.count_if p l = 0%nat.
Proof.
  induction 1 as [| x l Hx _ IH]; [reflexivity |].
  rewrite count_if_cons, Hx, IH. reflexivity.
Qed.




Lemma find_long_chain_shape needs_map : ∀ names visited,
  find_long_chain needs_map names visited = []
  ∨ ∃ chain, find_long_chain needs_map names visited = [chain_finding chain].
Proof.
  induction names as [| n names IH]; intros visited; cbn [find_long_chain];
    [auto |].
  destruct (_trace_chain n needs_map visited) as [chain visited'].
  destruct (4 <=? length chain)%nat; [right; eauto | apply IH].
Qed.

Lemma chains_shape jobs :
  check_chains jobs = [] ∨ ∃ chain, check_chains jobs = [chain_finding chain].
Proof.
  unfold check_chains.
  destruct (2 <? _)%nat; [apply find_long_chain_shape | auto].
Qed.



(** The fuel of [_trace_chain] is never used up: with any larger fuel
    the loop returns the same chain and the same set. *)
Lemma unvisited_le needs_map visited parent :
  (unvisited needs_map ({[parent]} ∪ visited) ≤ unvisited needs_map visited)%nat.
Proof.
  unfold unvisited. induction needs_map as [| e m IH]; simpl; [lia |].
  destruct (bool_decide (e.1 ∉ {[parent]} ∪ visited)) eqn:E1;
    destruct (bool_decide (e.1 ∉ visited)) eqn:E2; simpl; try lia.
  apply bool_decide_eq_true in E1. apply bool_decide_eq_false in E2.
  exfalso. apply E2. set_solver.
Qed.

Lemma unvisited_lt needs_map visited parent :
  parent ∉ visited → Py.dict_has parent needs_map = true →
  (unvisited needs_map ({[parent]} ∪ visited) < unvisited needs_map visited)%nat.
Proof.
  unfold unvisited, Py.dict_has. intros Hv.
  induction needs_map as [| [k v] m IH]; simpl; intros Hin.
  - discriminate.
  - destruct (Py.eqb parent k) eqn:Ek.
    + apply eqb_eq in Ek. subst k.
      rewrite (bool_decide_eq_false_2 (parent ∉ {[parent]} ∪ visited)) by set_solver.
      rewrite (bool_decide_eq_true_2 (parent ∉ visited)) by exact Hv.
      simpl. pose proof (unvisited_le m visited parent) as Hle.
      unfold unvisited in Hle. lia.
    + specialize (IH Hin).
      destruct (bool_decide (k ∉ {[parent]} ∪ visited)) eqn:E1;
        destruct (bool_decide (k ∉ visited)) eqn:E2; simpl; try lia.
      apply bool_decide_eq_true in E1. apply bool_decide_eq_false in E2.
      exfalso. apply E2. set_solver.
Qed.

Lemma trace_loop_fuel needs_map : ∀ n current chain visited f1 f2,
  (rounds_left needs_map current visited < n)%nat →
  (n ≤ f1)%nat → (n ≤ f2)%nat →
  trace_loop f1 needs_map current chain visited
  = trace_loop f2 needs_map current chain visited.
Proof.
  induction n as [| n IH]; intros current chain visited f1 f2 Hm H1 H2; [lia |].
  destruct f1 as [| f1]; [lia |]. destruct f2 as [| f2]; [lia |].
  simpl.
  destruct (Py.dict_get current needs_map) as [[| parent [| ? ?]] |] eqn:Eg;
    try reflexivity.
  destruct (bool_decide (parent ∈ visited)) eqn:Ev; simpl; [reflexivity |].
  destruct (Py.eqb parent current) eqn:Ec; [reflexivity |].
  apply bool_decide_eq_false in Ev.
  apply IH; try lia.
  unfold rounds_left in *.
  assert (Hc : Py.dict_has current needs_map = true).
  { unfold Py.dict_has. rewrite Eg. apply bool_decide_eq_true. eauto. }
  rewrite Hc in Hm.
  destruct (Py.dict_has parent needs_map) eqn:Ep.
  - pose proof (unvisited_lt needs_map visited parent Ev Ep). lia.
  - pose proof (unvisited_le needs_map visited parent). lia.
Qed.

Lemma trace_chain_fuel_enough start needs_map visited fuel :
  (trace_fuel needs_map ≤ fuel)%nat →
  trace_loop fuel needs_map start [start] visited
  = _trace_chain start needs_map visited.
Proof.
  intros Hf. unfold _trace_chain.
  apply (trace_loop_fuel needs_map (trace_fuel needs_map)); try lia.
  unfold rounds_left, trace_fuel, unvisited.
  pose proof (List.filter_length_le
                (λ e : string * list string, bool_decide (e.1 ∉ visited)) needs_map).
  destruct (Py.dict_has start needs_map); lia.
Qed.

(** A timeout of four hundred digits is beyond the floats: the cost
    estimate raises, and the analysis with it. *)
Lemma huge_timeout_raises :
  analyze_workflow_file (Samples.workflow Samples.huge_timeout)
  = Raised OverflowError.
Proof. vm_compute. reflexivity. Qed.

End PipelineFacts.

(* ===================================================================== *)
(** * The CLAUDE.md optimizer                                             *)
(* ===================================================================== *)

Section OptimizerFacts.
Import Optimizer.

Lemma estimate_tokens_nonneg text : (0 ≤ estimate_tokens text)%Z.
Proof. unfold estimate_tokens. apply Z.div_pos; lia. Qed.

(** Under the limit, the token-budget block appends nothing. *)
Lemma token_budget_under total limit :
  (0 ≤ total)%Z → (total ≤ limit)%Z → token_budget total limit = [].
Proof.
  intros H0 Hlt. unfold token_budget.
  destruct (limit <? total)%Z eqn:E1; [apply Z.ltb_lt in E1; lia |].
  destruct (limit * 2 <? total)%Z eqn:E2; [apply Z.ltb_lt in E2; lia |].
  reflexivity.
Qed.

Ltac off :=
  cbv zeta;
  repeat match goal with
         | |- Forall _ [] => constructor
         | |- Forall _ (_ :: _) => constructor
         | |- Forall _ (_ ++ _) => apply Forall_app; split
         | |- Forall _ (if ?b then _ else _) => destruct b
         | |- off_budget _ => unfold off_budget; simpl; discriminate
         end.

Lemma missing_sections_off importance p verb cs :
  Forall off_budget (missing_sections importance p verb cs).
Proof.
  unfold missing_sections.
  induction (List.filter _ cs) as [| c l IH]; [constructor |].
  rewrite fmap_cons. constructor; [off | exact IH].
Qed.

Lemma redundancy_recs_off reds : Forall off_budget (redundancy_recs reds).
Proof. unfold redundancy_recs. off. Qed.

Lemma structure_recs_off text sections : Forall off_budget (structure_recs text sections).
Proof. unfold structure_recs. off. Qed.

Lemma format_recs_off text : Forall off_budget (format_recs text).
Proof. unfold format_recs. off. Qed.

Lemma hierarchical_off (l : list string) :
  Forall off_budget (rec "medium" "hierarchical_loading" <$> l).
Proof.
  induction l as [| s l IH]; [constructor |].
  rewrite fmap_cons. constructor; [off | exact IH].
Qed.

(** With the token budget respected, no recommendation is about it. *)
Lemma recommendations_off text sections completeness reds hierarchical limit :
  (estimate_tokens text ≤ limit)%Z →
  Forall off_budget
    (generate_recommendations text sections completeness reds hierarchical limit).
Proof.
  intros H. unfold generate_recommendations. cbv zeta.
  rewrite (token_budget_under _ _ (estimate_tokens_nonneg text) H).
  apply Forall_app; split; [apply missing_sections_off |].
  apply Forall_app; split; [apply missing_sections_off |].
  apply Forall_app; split; [constructor |].
  apply Forall_app; split; [apply redundancy_recs_off |].
  apply Forall_app; split; [apply structure_recs_off |].
  apply Forall_app; split; [apply format_recs_off | apply hierarchical_off].
Qed.

End OptimizerFacts.

(* ===================================================================== *)
(** * The scaffolder                                                      *)
(* ===================================================================== *)

Section TreeFacts.
Context {C : Type}.
Implicit Types (es : gmap string (Fs.node C)) (n : Fs.node C).

Lemma mkdir_p_here es : Fs.mkdir_p [] (Fs.Dir es) = Ok (Fs.Dir es).
Proof. reflexivity. Qed.

Lemma mkdir_p_new x p es :
  es !! x = None →
  Fs.mkdir_p (x :: p) (Fs.Dir es)
  = (n' ← Fs.mkdir_p p (Fs.Dir ∅); Ok (Fs.Dir (<[x := n']> es))).
Proof. intros H. simpl. rewrite H. reflexivity. Qed.

Lemma mkdir_p_in x p es n :
  es !! x = Some n →
  Fs.mkdir_p (x :: p) (Fs.Dir es)
  = (n' ← Fs.mkdir_p p n; Ok (Fs.Dir (<[x := n']> es))).
Proof. intros H. simpl. rewrite H. reflexivity. Qed.

Lemma write_text_new x (c : C) es :
  es !! x = None →
  Fs.write_text [x] c (Fs.Dir es) = Ok (Fs.Dir (<[x := Fs.File c]> es)).
Proof. intros H. simpl. rewrite H. reflexivity. Qed.

Lemma write_text_in x p (c : C) es n :
  es !! x = Some n →
  Fs.write_text (x :: p) c (Fs.Dir es)
  = (n' ← Fs.write_text p c n; Ok (Fs.Dir (<[x := n']> es))).
Proof. intros H. simpl. rewrite H. reflexivity. Qed.

Lemma update_file_here (f : C → C) (c : C) :
  Fs.update_file [] f (Fs.File c) = Ok (Fs.File (f c)).
Proof. reflexivity. Qed.

Lemma update_file_in x p (f : C → C) es n :
  es !! x = Some n →
  Fs.update_file (x :: p) f (Fs.Dir es)
  = (n' ← Fs.update_file p f n; Ok (Fs.Dir (<[x := n']> es))).
Proof. intros H. simpl. rewrite H. reflexivity. Qed.

End TreeFacts.

Section ScaffolderFacts.
Import Scaffolder.

Ltac look :=
  repeat first [ rewrite lookup_insert_eq
               | rewrite lookup_insert_ne by discriminate
               | rewrite lookup_empty ];
  reflexivity.

Ltac run :=
  repeat first
    [ rewrite mkdir_p_here
    | rewrite update_file_here
    | erewrite mkdir_p_in by look
    | rewrite mkdir_p_new by look
    | erewrite write_text_in by look
    | rewrite write_text_new by look
    | erewrite update_file_in by look
    | rewrite insert_insert_eq
    | progress cbn [mbind result_bind foldl] ].

(** The whole effect of [create_skill_directory] on an output directory:
    when [skill_name] is free it becomes the scaffold, otherwise nothing
    changes and the failure is returned. *)
Lemma create_skill_directory_spec name domain desc version lic cat today
    (es : gmap string (Fs.node file)) :
  create_skill_directory name domain desc version lic cat today (Fs.Dir es)
  = match es !! name with
    | Some _ =>
        Ok (Failed ("Directory already exists: " +:+ name) [name], Fs.Dir es)
    | None =>
        Ok (Created [name] name domain version
              [[name; "scripts"]; [name; "references"]; [name; "assets"]]
              [[name; "SKILL.md"]; [name; "scripts"; script_name name];
               [name; "references"; "guide.md"]; [name; "assets"; ".gitkeep"]],
            Fs.Dir (<[name := scaffold name domain desc version lic
                                (if Py.truthy cat then cat else domain) today]> es))
    end.
Proof.
  unfold create_skill_directory, Fs.exists_. cbn [Fs.lookup app].
  destruct (es !! name) as [n |] eqn:E.
  - rewrite bool_decide_eq_true_2 by (eexists; reflexivity). reflexivity.
  - rewrite bool_decide_eq_false_2 by (intros [x Hx]; discriminate).
    cbn [foldl mbind result_bind]. rewrite (mkdir_p_new name) by exact E.
    run. reflexivity.
Qed.

End ScaffolderFacts.

(* ===================================================================== *)
(** * The installer                                                       *)
(* ===================================================================== *)

Section DictFacts.
Context {V : Type}.
Implicit Types (d : list (string * V)).

Lemma dict_get_elem k d v : Py.dict_get k d = Some v → (k, v) ∈ d.
Proof.
  induction d as [| [k' v'] d IH]; simpl; intros H; [discriminate |].
  destruct (Py.eqb k k') eqn:E.
  - apply eqb_eq in E. inversion H; subst. left.
  - right. apply IH, H.
Qed.

Lemma dict_set_elem k v d e : e ∈ Py.dict_set k v d → e = (k, v) ∨ e ∈ d.
Proof.
  induction d as [| [k' v'] d IH]; simpl; intros H.
  - apply list_elem_of_singleton in H. auto.
  - destruct (Py.eqb k k').
    + apply elem_of_cons in H as [-> | H]; [auto |]. right. right. exact H.
    + apply elem_of_cons in H as [-> | H]; [right; left |].
      destruct (IH H) as [-> | H']; [auto | right; right; exact H'].
Qed.

Lemma dict_get_set k k' v d :
  Py.dict_get k (Py.dict_set k' v d)
  = if Py.eqb k k' then Some v else Py.dict_get k d.
Proof.
  induction d as [| [k0 v0] d IH]; simpl.
  - reflexivity.
  - destruct (Py.eqb k' k0) eqn:E0; simpl.
    + apply eqb_eq in E0. subst k0. destruct (Py.eqb k k'); reflexivity.
    + destruct (Py.eqb k k0) eqn:E1.
      * apply eqb_eq in E1. subst k0.
        destruct (Py.eqb k k') eqn:E2; [| reflexivity].
        apply eqb_eq in E2. subst k'. apply eqb_neq in E0. contradiction.
      * exact IH.
Qed.

End DictFacts.

Section InstallerFacts.
Import Installer.
Context {C : Type}.

Lemma discover_step_keyed skills h :
  keyed_by_path skills → keyed_by_path (discover_step skills h).
Proof.
  intros Hk. unfold discover_step.
  destruct (_ || _); [exact Hk |].
  destruct (hit_parts h) as [| group [| skill_name rest]]; try exact Hk.
  intros g gs Hin n info Hget.
  apply dict_set_elem in Hin as [Heq | Hin]; [| eapply Hk; eassumption].
  inversion Heq; subst g gs. rewrite dict_get_set in Hget.
  destruct (Py.eqb n skill_name) eqn:E.
  - apply eqb_eq in E. subst n. inversion Hget; subst. reflexivity.
  - destruct (Py.dict_get group skills) as [old |] eqn:Eo; simpl in Hget;
      [| discriminate].
    eapply Hk; [eapply dict_get_elem, Eo | exact Hget].
Qed.

Lemma discover_skills_keyed hits : keyed_by_path (discover_skills hits).
Proof.
  unfold discover_skills.
  assert (H : ∀ skills, keyed_by_path skills →
                        keyed_by_path (foldl discover_step skills hits)).
  { induction hits as [| h hits IH]; intros skills Hk; simpl; [exact Hk |].
    apply IH, discover_step_keyed, Hk. }
  apply H. intros g gs Hin. inversion Hin.
Qed.

Lemma find_skill_elem name skills g info :
  find_skill name skills = Some (g, info) →
  ∃ gs, (g, gs) ∈ skills ∧ Py.dict_get name gs = Some info.
Proof.
  induction skills as [| [g' gs'] skills IH]; simpl; intros H; [discriminate |].
  destruct (Py.dict_get name gs') as [i |] eqn:E.
  - inversion H; subst. exists gs'. split; [left | exact E].
  - destruct (IH H) as (gs & Hin & Hg). exists gs. split; [right; exact Hin | exact Hg].
Qed.

(** The directory [copy_skill] writes is the one [cmd_uninstall] removes. *)
Lemma found_path_name name hits g info :
  find_skill name (discover_skills hits) = Some (g, info) →
  path_name (si_path info) = name.
Proof.
  intros H. apply find_skill_elem in H as (gs & Hin & Hg).
  rewrite (discover_skills_keyed hits g gs Hin name info Hg). reflexivity.
Qed.

Lemma set_entries_entries t es (w : world C) :
  ts_entries (set_entries t es w t) = es.
Proof. unfold set_entries, world. rewrite fn_lookup_insert. reflexivity. Qed.

Lemma set_entries_manifest t es (w : world C) :
  ts_manifest (set_entries t es w t) = ts_manifest (w t).
Proof. unfold set_entries, world. rewrite fn_lookup_insert. reflexivity. Qed.

Lemma save_manifest_manifest t m (w : world C) :
  ts_manifest (save_manifest t m w t) = Json m.
Proof. unfold save_manifest, world. rewrite fn_lookup_insert. reflexivity. Qed.

Lemma save_manifest_entries t m (w : world C) :
  ts_entries (save_manifest t m w t) = ts_entries (w t).
Proof. unfold save_manifest, world. rewrite fn_lookup_insert. reflexivity. Qed.




(** An entry of the manifest that conflicts makes the enforcement loop
    exit, unless [--force] is given. *)
Lemma group_taken_true m g name other info :
  installed_or_empty m !! other = Some info →
  i_group info = Some g → other ≠ name →
  group_taken m g name false = true.
Proof.
  intros Hl Hg Hne. unfold group_taken. rewrite andb_true_r.
  apply existsb_exists. exists (other, info). split.
  - apply list_elem_of_In, elem_of_map_to_list, Hl.
  - unfold conflicts. simpl. rewrite Hg.
    rewrite bool_decide_eq_true_2 by reflexivity.
    apply eqb_neq in Hne. rewrite Hne. reflexivity.
Qed.

End InstallerFacts.

(* ===================================================================== *)
(** * The properties of the specification                                 *)
(* ===================================================================== *)

(** C1.  On a skill directory without SKILL.md whose requirements.txt is
    not UTF-8, [validate_skill] produces no report, in either mode: the
    [UnicodeDecodeError] of the requirements check (check 9, which catches
    [OSError] only) leaves the function. *)
Theorem validate_skill_undecodable_requirements :
  Validator.skill_md Samples.utf16_requirements_dir = None
  ∧ (∀ strict r, Validator.validate_skill Samples.utf16_requirements_dir strict ≠ Ok r)
  ∧ ∃ msg, ∀ strict,
      Validator.validate_skill Samples.utf16_requirements_dir strict
      = Raised (UnicodeDecodeError msg).
Proof.
  split; [reflexivity |]. split.
  - intros [|] r; vm_compute; discriminate.
  - eexists. intros [|]; vm_compute; reflexivity.
Qed.

(** The promise of C1 where [validate_skill] does return: for a skill
    directory without SKILL.md whose requirements.txt, if any, decodes and
    whose text files can be opened, the report holds the failed
    [skill_md_exists] check of severity [error] and is not compatible, in
    both modes. *)
Theorem missing_skill_md_reported (d : Validator.skill_dir) (strict : bool) :
  Validator.skill_md d = None →
  (∀ e, Validator.requirements d ≠ Some (DecodeFail e)) →
  (∀ e, Validator.check_utf8 (Validator.files d) ≠ Raised e) →
  ∃ r, Validator.validate_skill d strict = Ok r
       ∧ (∃ c, c ∈ Validator.checks r
               ∧ Validator.check c = "skill_md_exists"
               ∧ Validator.passed c = false
               ∧ Validator.severity c = "error")
       ∧ Validator.compatible r = false.
Proof.
  intros Hmd Hreq Hutf.
  destruct (validate_skill_returns d strict Hreq Hutf) as [r Hr].
  exists r. split; [exact Hr |].
  unfold Validator.validate_skill in Hr.
  destruct (Validator.run_checks d) as [[cs name] |] eqn:E; [| discriminate].
  simpl in Hr. inversion Hr; subst r. clear Hr.
  apply run_checks_inv in E
    as (c2 & fm & c9 & c11 & y & c15 & c16 & _ & _ & _ & _ & _ & _ & ->).
  unfold Validator.check_skill_md_exists. rewrite Hmd.
  set (c := Validator.fail "skill_md_exists" "claude-code"
              "SKILL.md not found - required for Claude Code" "error").
  set (rest := c2 ++ _).
  split.
  - exists c. split; [simpl; left |]. repeat split; reflexivity.
  - unfold Validator.build_report. cbn [Validator.compatible].
    change ([c] ++ rest) with (c :: rest).
    rewrite (count_if_cons (Validator.is_failed "error") c rest).
    change (Validator.is_failed "error" c) with true. cbn [Nat.add Nat.eqb andb].
    destruct strict; reflexivity.
Qed.

Lemma missing_skill_md_reported_witness :
  ∃ r, Validator.validate_skill Samples.bare_dir true = Ok r
       ∧ Validator.compatible r = false.
Proof.
  destruct (missing_skill_md_reported Samples.bare_dir true) as (r & Hr & _ & Hc).
  - reflexivity.
  - intros e. discriminate.
  - intros e. discriminate.
  - exists r. split; [exact Hr | exact Hc].
Defined.







(** C4.  For a CLAUDE.md file whose token estimate is under the limit,
    [analyze_claudemd] returns a report with [within_budget] true and no
    recommendation of category [token_budget]. *)
Theorem under_budget (file_path resolved text : string) (limit : Z) :
  (Optimizer.estimate_tokens text < limit)%Z →
  ∃ r, Optimizer.analyze_claudemd file_path
         (Optimizer.IsFile resolved (Text text)) limit
       = Ok (Optimizer.Success r)
       ∧ Optimizer.within_budget (Optimizer.report_metrics r) = true
       ∧ Forall (λ rec, Optimizer.category rec ≠ "token_budget")
                (Optimizer.recommendations r).
Proof.
  intros H. eexists. split; [reflexivity |]. split.
  - cbn. apply Z.leb_le. lia.
  - cbn [Optimizer.analyze_text Optimizer.recommendations].
    apply recommendations_off. lia.
Qed.

Lemma under_budget_witness :
  ∃ r, Optimizer.analyze_claudemd "CLAUDE.md"
         (Optimizer.IsFile "/repo/CLAUDE.md" (Text Samples.small_claude_md)) 6000
       = Ok (Optimizer.Success r)
       ∧ Optimizer.within_budget (Optimizer.report_metrics r) = true
       ∧ Forall (λ rec, Optimizer.category rec ≠ "token_budget")
                (Optimizer.recommendations r).
Proof.
  apply (under_budget "CLAUDE.md" "/repo/CLAUDE.md" Samples.small_claude_md 6000).
  vm_compute. reflexivity.
Defined.

(** C5.  Scaffolding [foo-bar] into an output directory: when the
    directory has no entry [foo-bar], the call succeeds, names the four
    files it wrote, and the directory gains the entry [foo-bar] holding
    exactly SKILL.md, scripts/foo_bar_tool.py, references/guide.md and
    assets/.gitkeep; when it has one, the call fails with an error and the
    directory is as it was. *)
Theorem scaffold_foo_bar (domain description version license_type category
    today : string) (es : gmap string (Fs.node Scaffolder.file)) :
  Scaffolder.create_skill_directory "foo-bar" domain description version
    license_type category today (Fs.Dir es)
  = match es !! "foo-bar" with
    | Some _ =>
        Ok (Scaffolder.Failed "Directory already exists: foo-bar" ["foo-bar"],
            Fs.Dir es)
    | None =>
        Ok (Scaffolder.Created ["foo-bar"] "foo-bar" domain version
              [["foo-bar"; "scripts"]; ["foo-bar"; "references"];
               ["foo-bar"; "assets"]]
              [["foo-bar"; "SKILL.md"];
               ["foo-bar"; "scripts"; "foo_bar_tool.py"];
               ["foo-bar"; "references"; "guide.md"];
               ["foo-bar"; "assets"; ".gitkeep"]],
            Fs.Dir
              (<["foo-bar" :=
                   Fs.Dir
                     (<["assets" :=
                          Fs.Dir {[ ".gitkeep" :=
                                      Fs.File (Scaffolder.new_file
                                                 (Scaffolder.Plain "")) ]}]>
                        (<["references" :=
                             Fs.Dir {[ "guide.md" :=
                                         Fs.File
                                           (Scaffolder.new_file
                                              (Scaffolder.reference_text
                                                 "foo-bar" today)) ]}]>
                           (<["scripts" :=
                                Fs.Dir {[ "foo_bar_tool.py" :=
                                            Fs.File
                                              (Scaffolder.chmod_755
                                                 (Scaffolder.new_file
                                                    (Scaffolder.script_text
                                                       "foo-bar"))) ]}]>
                              {[ "SKILL.md" :=
                                   Fs.File
                                     (Scaffolder.new_file
                                        (Scaffolder.skill_md_text "foo-bar"
                                           domain description version
                                           license_type
                                           (if Py.truthy category
                                            then category else domain)
                                           today)) ]})))]> es))
    end.
Proof. rewrite create_skill_directory_spec. reflexivity. Qed.

(** C6, as the code has it.  On every input both frontmatter parsers
    return a mapping and raise nothing; when the input does not start with
    the three characters [---], or no later line is [---] once white space
    is stripped, the mapping is empty. *)
Theorem frontmatter_parsers_safe (content : string) :
  (∃ m valid,
     Validator.parse_yaml_frontmatter_simple content = Ok (m, valid)
     ∧ (Py.startswith "---" content = false
        ∨ ¬ Frontmatter.has_closing_line content → m = ∅ ∧ valid = false))
  ∧ (∃ m,
       IndexBuilder.parse_yaml_frontmatter content = Ok m
       ∧ (Py.startswith "---" content = false
          ∨ ¬ Frontmatter.has_closing_line content → m = ∅)).
Proof.
  split; [apply parse_yaml_frontmatter_simple_total
         | apply parse_yaml_frontmatter_total].
Qed.

Lemma frontmatter_parsers_safe_witness :
  Validator.parse_yaml_frontmatter_simple Samples.title_only = Ok (∅, false)
  ∧ IndexBuilder.parse_yaml_frontmatter Samples.title_only = Ok ∅.
Proof.
  destruct (frontmatter_parsers_safe Samples.title_only)
    as [(m & valid & H1 & E1) (m' & H2 & E2)].
  destruct E1 as [-> ->]; [left; reflexivity |].
  rewrite E2 in H2 by (left; reflexivity).
  split; [exact H1 | exact H2].
Defined.

(** C6 as stated fails: the first line of this input is not the delimiter
    line [---], and both parsers return a mapping that is not empty. *)
Lemma delimiter_line_counterexample :
  ¬ Frontmatter.starts_with_delimiter_line Samples.loose_opening
  ∧ Validator.parse_yaml_frontmatter_simple Samples.loose_opening
    = Ok ({[ "name" := "x" ]}, true)
  ∧ IndexBuilder.parse_yaml_frontmatter Samples.loose_opening
    = Ok {[ "name" := IndexBuilder.Scalar "x" ]}.
Proof.
  split.
  - intros (l & Hl & Hs). vm_compute in Hl. inversion Hl; subst.
    vm_compute in Hs. discriminate.
  - split; vm_compute; reflexivity.
Qed.

Section ExitCodes.




End ExitCodes.



(** C8.  In every report of [validate_skill], [compatible] is true exactly
    when no check failed with severity [error] and, in strict mode, none
    failed with severity [warning] either. *)
Theorem compatible_iff (d : Validator.skill_dir) (strict : bool)
    (r : Validator.Report) :
  Validator.validate_skill d strict = Ok r →
  Validator.compatible r = true ↔
  Py.count_if (Validator.is_failed "error") (Validator.checks r) = 0%nat
  ∧ (strict = true →
     Py.count_if (Validator.is_failed "warning") (Validator.checks r) = 0%nat).
Proof.
  unfold Validator.validate_skill. intros H.
  destruct (Validator.run_checks d) as [[cs name] |]; [| discriminate].
  simpl in H. inversion H; subst r. clear H.
  unfold Validator.build_report. cbn [Validator.compatible Validator.checks].
  destruct strict.
  - rewrite andb_true_iff, !Nat.eqb_eq. tauto.
  - rewrite Nat.eqb_eq. split; [intros H; split; [exact H | discriminate] | tauto].
Qed.

Lemma compatible_iff_witness :
  ∃ r, Validator.validate_skill Samples.complete_dir true = Ok r
       ∧ (Validator.compatible r = true ↔
          Py.count_if (Validator.is_failed "error") (Validator.checks r) = 0%nat
          ∧ (true = true →
             Py.count_if (Validator.is_failed "warning") (Validator.checks r)
             = 0%nat)).
Proof.
  destruct (Validator.validate_skill Samples.complete_dir true) as [r | e] eqn:E.
  - exists r. split; [reflexivity |].
    apply (compatible_iff Samples.complete_dir true r E).
  - vm_compute in E. discriminate.
Defined.

(** C9.  In every report of [validate_skill] the summary counts partition
    the checks: passed, errors, warnings and info add up to
    [total_checks], which is the length of the checks list, and every
    check has severity [error], [warning] or [info]. *)
Theorem summary_partitions_checks (d : Validator.skill_dir) (strict : bool)
    (r : Validator.Report) :
  Validator.validate_skill d strict = Ok r →
  (Validator.n_passed (Validator.summary r)
   + Validator.n_errors (Validator.summary r)
   + Validator.n_warnings (Validator.summary r)
   + Validator.n_info (Validator.summary r)
   = Validator.total_checks (Validator.summary r))%nat
  ∧ Validator.total_checks (Validator.summary r) = length (Validator.checks r)
  ∧ Forall Validator.known_severity (Validator.checks r).
Proof.
  unfold Validator.validate_skill. intros H.
  destruct (Validator.run_checks d) as [[cs name] |] eqn:E; [| discriminate].
  simpl in H. inversion H; subst r. clear H.
  apply run_checks_known in E.
  unfold Validator.build_report. cbn.
  split; [apply counts_partition, E |]. split; [reflexivity | exact E].
Qed.

Lemma summary_partitions_checks_witness :
  ∃ r, Validator.validate_skill Samples.complete_dir false = Ok r
       ∧ Validator.total_checks (Validator.summary r)
         = length (Validator.checks r)
       ∧ (Validator.n_passed (Validator.summary r)
          + Validator.n_errors (Validator.summary r)
          + Validator.n_warnings (Validator.summary r)
          + Validator.n_info (Validator.summary r)
          = Validator.total_checks (Validator.summary r))%nat.
Proof.
  destruct (Validator.validate_skill Samples.complete_dir false) as [r | e] eqn:E.
  - exists r. split; [reflexivity |].
    destruct (summary_partitions_checks Samples.complete_dir false r E)
      as (Hsum & Hlen & _).
    split; [exact Hlen | exact Hsum].
  - vm_compute in E. discriminate.
Defined.

(** C10.  An install without [--force] of a skill of the repository, when
    the manifest of the target directory records another skill of the same
    group, exits with status 1 and leaves every target directory, manifest
    included, as it was: nothing is copied. *)
Theorem one_skill_per_group {C} (a : Installer.install_args)
    (r : Installer.repo C) (now : string) (w : Installer.world C)
    (g other : string) (info : Installer.skill_info)
    (oinfo : Installer.installed_info) :
  Installer.ia_force a = false →
  Installer.find_skill (Installer.ia_skill_name a)
    (Installer.discover_skills (Installer.repo_hits r)) = Some (g, info) →
  Installer.installed_or_empty
    (Installer.load_manifest w
       (Installer.get_target_dir
          (Installer.agent_or_default (Installer.ia_agent a))))
    !! other = Some oinfo →
  Installer.i_group oinfo = Some g →
  other ≠ Installer.ia_skill_name a →
  Installer.cmd_install a r now w = (Installer.SysExit 1, w).
Proof.
  intros Hforce Hfind Hother Hgroup Hne.
  unfold Installer.cmd_install. rewrite Hfind, Hforce.
  rewrite (group_taken_true _ g _ other oinfo Hother Hgroup Hne).
  reflexivity.
Qed.

Lemma one_skill_per_group_witness :
  Installer.cmd_install Samples.install_content_creator Samples.one_skill_repo
    "2025-06-01T12:00:00+00:00" Samples.seo_installed
  = (Installer.SysExit 1, Samples.seo_installed).
Proof.
  eapply (one_skill_per_group Samples.install_content_creator
            Samples.one_skill_repo "2025-06-01T12:00:00+00:00"
            Samples.seo_installed "marketing" "seo-optimizer").
  - reflexivity.
  - vm_compute. reflexivity.
  - vm_compute. reflexivity.
  - reflexivity.
  - discriminate.
Defined.
(* ===================================================================== *)
(** * Further properties of cross_platform_validator.py                   *)
(* ===================================================================== *)

Section ValidatorMore.
Import Frontmatter Validator.

Lemma check_frontmatter_total d : ∃ c2 fm, check_frontmatter d = Ok (c2, fm).
Proof.
  unfold check_frontmatter. destruct (skill_md d) as [[content | e | e] |]; eauto.
  destruct (parse_yaml_frontmatter_simple_total content) as (m & v & -> & _).
  simpl. destruct v; eauto.
Qed.

Lemma check_openai_yaml_valid_total d :
  ∃ c11 y, check_openai_yaml_valid d = Ok (c11, y).
Proof.
  unfold check_openai_yaml_valid.
  destruct (openai_yaml_file d) as [[content | e | e] |]; eauto.
  destruct (parse_openai_yaml_simple_total content) as (m & v & ->).
  simpl. destruct v; eauto.
Qed.

Lemma check_tool_total d t : ∃ c, check_tool d t = Ok c.
Proof.
  unfold check_tool.
  destruct (Re.search script_re (default "" (t !! "command"))) as [caps |] eqn:E;
    [| eauto].
  apply search_groups in E. simpl in E. inversion E as [| ? ? [s Hs] _]; subst.
  unfold get_group. rewrite Hs. simpl. destruct (script_is_file d s); eauto.
Qed.

Lemma check_tools_total d ts : ∃ c, check_tools d ts = Ok c.
Proof.
  induction ts as [| t ts [c IH]]; simpl; [eauto |].
  destruct (check_tool_total d t) as [c' ->]. simpl. rewrite IH. simpl. eauto.
Qed.

(** How [validate_skill] ends, by what the two unguarded reads give. *)
Lemma validate_skill_outcome d strict :
  match requirements d with
  | Some (DecodeFail msg) =>
      validate_skill d strict = Raised (UnicodeDecodeError msg)
  | _ =>
      match check_utf8 (files d) with
      | Raised e => validate_skill d strict = Raised e
      | Ok _ => ∃ r, validate_skill d strict = Ok r
      end
  end.
Proof.
  unfold validate_skill, run_checks.
  destruct (check_frontmatter_total d) as (c2 & fm & ->). simpl.
  destruct (check_name d fm) as [c3 nm].
  unfold check_no_heavy_deps.
  destruct (requirements d) as [[content | e | e] |]; [| | reflexivity |].
  all: try (destruct (requirement_lines content)); simpl.
  all: destruct (check_openai_yaml_valid_total d) as (c11 & y & ->); simpl.
  all: destruct (check_tools_total d (tools y)) as (c15 & ->); simpl.
  all: destruct (check_utf8 (files d)) as [c16 | e']; simpl; eauto.
Qed.

(** When the encoding check raises: at the first text file that is not
    read as text, if opening it is what fails. *)
Lemma check_utf8_raises fs e :
  check_utf8 fs = Raised e ↔
  ∃ before f after msg,
    fs = before ++ f :: after
    ∧ Forall (λ g, is_text_file g = true → ∃ c, fe_read g = Text c) before
    ∧ is_text_file f = true
    ∧ fe_read f = OsFail msg
    ∧ e = OSError msg.
Proof.
  induction fs as [| f0 fs IH]; cbn [check_utf8].
  - split; [discriminate |].
    intros (before & f & after & msg & H & _). destruct before; discriminate.
  - assert (Hskip :
      (is_text_file f0 = true → ∃ c, fe_read f0 = Text c) →
      check_utf8 fs = Raised e ↔
      ∃ before f after msg,
        f0 :: fs = before ++ f :: after
        ∧ Forall (λ g, is_text_file g = true → ∃ c, fe_read g = Text c) before
        ∧ is_text_file f = true ∧ fe_read f = OsFail msg ∧ e = OSError msg).
    { intros H0. rewrite IH. split.
      - intros (before & f & after & msg & -> & Hb & Hf).
        exists (f0 :: before), f, after, msg.
        split; [reflexivity |]. split; [constructor; assumption | exact Hf].
      - intros (before & f & after & msg & Hl & Hb & Ht & Hr & He).
        destruct before as [| g before]; simpl in Hl; inversion Hl; subst.
        + destruct (H0 Ht) as [c Hc]. congruence.
        + inversion Hb; subst. exists before, f, after, msg. auto. }
    destruct (is_text_file f0) eqn:Et; [| apply Hskip; discriminate].
    destruct (fe_read f0) as [c | msg0 | msg0] eqn:Er.
    + apply Hskip. eauto.
    + split.
      * intros H. inversion H; subst.
        exists [], f0, fs, msg0. repeat split; auto.
      * intros (before & f & after & msg & Hl & Hb & Ht & Hr & He).
        destruct before as [| g before]; simpl in Hl; inversion Hl; subst.
        -- congruence.
        -- inversion Hb as [| ? ? Hg _]; subst.
           destruct (Hg Et) as [c Hc]. congruence.
    + split; [discriminate |].
      intros (before & f & after & msg & Hl & Hb & Ht & Hr & He).
      destruct before as [| g before]; simpl in Hl; inversion Hl; subst.
      * congruence.
      * inversion Hb as [| ? ? Hg _]; subst.
        destruct (Hg Et) as [c Hc]. congruence.
Qed.

End ValidatorMore.

(** X2.  Which file reads make [validate_skill] raise, for a directory
    whose listings are at hand (a [skill_dir] holds them).  There are
    exactly two: reading a requirements.txt that is not UTF-8 raises
    [UnicodeDecodeError]; and, when that did not happen, the encoding
    check raises [OSError] exactly when a file with suffix [.md], [.yaml],
    [.yml] or [.py] cannot be opened and every such file before it, in the
    order of [rglob], was read as text.  No other read and no parser
    makes it raise. *)
Theorem validate_skill_raises_iff (d : Validator.skill_dir) (strict : bool)
    (e : exn) :
  Validator.validate_skill d strict = Raised e ↔
  (∃ msg, Validator.requirements d = Some (DecodeFail msg)
          ∧ e = UnicodeDecodeError msg)
  ∨ ((∀ msg, Validator.requirements d ≠ Some (DecodeFail msg))
     ∧ ∃ before f after msg,
         Validator.files d = before ++ f :: after
         ∧ Forall (λ g, Validator.is_text_file g = true →
                        ∃ c, Validator.fe_read g = Text c) before
         ∧ Validator.is_text_file f = true
         ∧ Validator.fe_read f = OsFail msg
         ∧ e = OSError msg).
Proof.
  rewrite <- check_utf8_raises.
  pose proof (validate_skill_outcome d strict) as H.
  destruct (Validator.requirements d) as [[content | msg | msg] |] eqn:Er.
  3: { split.
       - intros Hv. left. exists msg. split; [reflexivity | congruence].
       - intros [(m & Hm & He) | [Hno _]].
         + inversion Hm; subst. exact H.
         + exfalso. eapply Hno. reflexivity. }
  all: destruct (Validator.check_utf8 (Validator.files d)) as [c | e'] eqn:Eu.
  all: split;
    [ intros Hv | intros [(m & Hm & _) | [_ Hu]]; [discriminate | congruence] ].
  all: try (destruct H; congruence).
  all: right; split; [intros m; discriminate | congruence].
Qed.

(** X3.  Strict mode only changes the verdict: the report of a strict run
    has the checks and the summary of the plain run, and a directory that
    is compatible in strict mode is compatible in plain mode. *)
Theorem strict_is_stricter (d : Validator.skill_dir) (rs : Validator.Report) :
  Validator.validate_skill d true = Ok rs →
  ∃ r, Validator.validate_skill d false = Ok r
       ∧ Validator.checks r = Validator.checks rs
       ∧ Validator.summary r = Validator.summary rs
       ∧ Validator.skill_name r = Validator.skill_name rs
       ∧ (Validator.compatible rs = true → Validator.compatible r = true).
Proof.
  unfold Validator.validate_skill. intros H.
  destruct (Validator.run_checks d) as [[cs name] |]; [| discriminate].
  simpl in H. inversion H; subst rs. clear H. simpl.
  eexists. split; [reflexivity |]. unfold Validator.build_report. simpl.
  repeat split. intros Hc. apply andb_true_iff in Hc. tauto.
Qed.

Lemma strict_is_stricter_witness :
  ∃ rs r, Validator.validate_skill Samples.complete_dir true = Ok rs
          ∧ Validator.validate_skill Samples.complete_dir false = Ok r
          ∧ Validator.checks r = Validator.checks rs.
Proof.
  destruct (Validator.validate_skill Samples.complete_dir true) as [rs |] eqn:E.
  - destruct (strict_is_stricter Samples.complete_dir rs E)
      as (r & Hr & Hc & _).
    exists rs, r. split; [reflexivity |]. split; [exact Hr | exact Hc].
  - vm_compute in E. discriminate.
Defined.

(** X4.  The validator's frontmatter parser never raises, and it marks the
    frontmatter valid exactly when the text starts with [---] and a later
    line is [---] once white space is stripped. *)
Theorem frontmatter_valid_iff (content : string) :
  ∃ m valid,
    Validator.parse_yaml_frontmatter_simple content = Ok (m, valid)
    ∧ (valid = true ↔
       Py.startswith "---" content = true
       ∧ Frontmatter.has_closing_line content).
Proof.
  unfold Validator.parse_yaml_frontmatter_simple.
  destruct (Py.startswith "---" content) eqn:Hs; simpl.
  2: { exists ∅, false. split; [reflexivity |].
       split; [discriminate | intros [H _]; discriminate]. }
  destruct (find_end_spec content) as [(e & -> & Hc) | [-> Hc]]; simpl.
  - destruct (loop_total _ fm_step_total
                (Frontmatter.body (Py.lines content) e) Validator.fm_init)
      as [st ->].
    simpl. eexists _, _. split; [reflexivity |]. tauto.
  - exists ∅, false. split; [reflexivity |].
    split; [discriminate | intros [_ H]; contradiction].
Qed.

Section OpenaiYamlMore.
Import Frontmatter Validator.

(** A line that is blank or a comment leaves the state of the openai.yaml
    parser as it is. *)
Lemma oy_loop_skipped ls st :
  forallb Yaml.skipped ls = true → loop oy_step ls st = Ok st.
Proof.
  induction ls as [| l ls IH]; cbn [forallb loop]; [reflexivity |].
  intros H. apply andb_true_iff in H as [Hl Hls].
  unfold oy_step. unfold Yaml.skipped in Hl. rewrite Hl. simpl. auto.
Qed.

End OpenaiYamlMore.

(** X5.  The parser of agents/openai.yaml never raises, whatever the text;
    a text whose lines are all blank or comments gives the empty mapping
    without tools, marked invalid. *)
Theorem parse_openai_yaml_simple_safe (content : string) :
  (∃ y valid, Validator.parse_openai_yaml_simple content = Ok (y, valid))
  ∧ (forallb Yaml.skipped (Py.lines content) = true →
     Validator.parse_openai_yaml_simple content
     = Ok (Validator.empty_yaml, false)).
Proof.
  split; [apply parse_openai_yaml_simple_total |].
  intros H. unfold Validator.parse_openai_yaml_simple.
  rewrite (oy_loop_skipped _ _ H). reflexivity.
Qed.

Section IncompatibleFacts.
Import Validator.

Lemma count_if_pos {A} (p : A → bool) (x : A) (l : list A) :
  x ∈ l → p x = true → (0 < Py.count_if p l)%nat.
Proof.
  intros Hin Hp. induction Hin as [x l | x y l _ IH].
  - rewrite count_if_cons, Hp. lia.
  - rewrite count_if_cons. specialize (IH Hp). lia.
Qed.

(** A failed check of severity [error] makes the report incompatible, in
    both modes. *)
Lemma error_is_incompatible name path strict cs c :
  c ∈ cs → passed c = false → severity c = "error" →
  compatible (build_report name path strict cs) = false.
Proof.
  intros Hin Hp Hs.
  assert (0 < Py.count_if (is_failed "error") cs)%nat as Hc.
  { apply (count_if_pos _ c); [exact Hin |].
    unfold is_failed. rewrite Hp, Hs. reflexivity. }
  unfold build_report. cbn [compatible].
  destruct (Py.count_if (is_failed "error") cs); [lia |].
  destruct strict; reflexivity.
Qed.

End IncompatibleFacts.

(** X6.  A skill directory without agents/openai.yaml is never compatible:
    every report [validate_skill] returns for it holds the failed check
    [openai_yaml_exists] of severity [error], exactly once, holds no check
    on the fields or the tools of the file, and is incompatible in both
    modes. *)
Theorem missing_openai_yaml_reported (d : Validator.skill_dir) (strict : bool)
    (r : Validator.Report) :
  Validator.openai_yaml_file d = None →
  Validator.validate_skill d strict = Ok r →
  Validator.compatible r = false
  ∧ (∃ c, c ∈ Validator.checks r
          ∧ Validator.check c = "openai_yaml_exists"
          ∧ Validator.platform c = "codex-cli"
          ∧ Validator.passed c = false
          ∧ Validator.severity c = "error")
  ∧ Forall (λ c, Validator.platform c = "codex-cli" →
                 Validator.check c = "openai_yaml_exists")
           (Validator.checks r).
Proof.
  intros Hy Hv. unfold Validator.validate_skill in Hv.
  destruct (Validator.run_checks d) as [[cs name] |] eqn:E; [| discriminate].
  simpl in Hv. inversion Hv; subst r. clear Hv.
  apply run_checks_inv in E
    as (c2 & fm & c9 & c11 & y & c15 & c16 & H2 & H9 & H11 & H15 & H16 & _ & ->).
  unfold Validator.check_openai_yaml_valid in H11. rewrite Hy in H11.
  inversion H11; subst c11 y. clear H11.
  simpl in H15. inversion H15; subst c15. clear H15.
  set (c := Validator.fail "openai_yaml_exists" "codex-cli"
              "agents/openai.yaml not found - required for Codex CLI" "error").
  assert (Hex : Validator.check_openai_yaml_exists d = [c]).
  { unfold Validator.check_openai_yaml_exists. rewrite Hy. reflexivity. }
  assert (Hin : c ∈ Validator.check_skill_md_exists d ++ c2
                    ++ (Validator.check_name d fm).1
                    ++ Validator.check_description fm
                    ++ Validator.check_license fm ++ Validator.check_scripts d
                    ++ Validator.check_references d ++ Validator.check_assets d
                    ++ c9 ++ Validator.check_openai_yaml_exists d ++ []
                    ++ Validator.check_yaml_name d Validator.empty_yaml
                         (Validator.check_name d fm).2
                    ++ Validator.check_yaml_description d Validator.empty_yaml
                    ++ Validator.check_yaml_instructions d Validator.empty_yaml
                    ++ [] ++ c16 ++ Validator.check_skill_size (Validator.files d)).
  { rewrite Hex. rewrite !elem_of_app. do 9 right. left. left. }
  split; [| split].
  - apply (error_is_incompatible _ _ _ _ c Hin); reflexivity.
  - exists c. split; [exact Hin |]. repeat split; reflexivity.
  - cbn [Validator.checks Validator.build_report].
    assert (Hcc : ∀ l, Forall (λ c, Validator.platform c = "claude-code") l →
                       Forall (λ c, Validator.platform c = "codex-cli" →
                                    Validator.check c = "openai_yaml_exists") l).
    { intros l. apply List.Forall_impl. intros a Ha Hb. rewrite Ha in Hb.
      discriminate. }
    assert (Hxp : ∀ l, Forall (λ c, Validator.platform c = "cross-platform") l →
                       Forall (λ c, Validator.platform c = "codex-cli" →
                                    Validator.check c = "openai_yaml_exists") l).
    { intros l. apply List.Forall_impl. intros a Ha Hb. rewrite Ha in Hb.
      discriminate. }
    rewrite Hex.
    unfold Validator.check_yaml_name, Validator.check_yaml_description,
      Validator.check_yaml_instructions, Validator.get_truthy,
      Validator.empty_yaml, Validator.is_file.
    cbn [Validator.scalars]. rewrite !lookup_empty, Hy. cbn [app].
    rewrite !Forall_app. repeat split.
    + apply Hcc. unfold Validator.check_skill_md_exists.
      destruct (Validator.skill_md d); repeat constructor.
    + apply Hcc. unfold Validator.check_frontmatter in H2.
      destruct (Validator.skill_md d) as [[content | e | e] |].
      * destruct (Validator.parse_yaml_frontmatter_simple content)
          as [[m [|]] | e]; simpl in H2; inversion H2; subst;
          repeat constructor.
      * inversion H2; subst; repeat constructor.
      * inversion H2; subst; repeat constructor.
      * inversion H2; subst; repeat constructor.
    + apply Hcc. unfold Validator.check_name.
      destruct (Validator.get_truthy fm "name"); repeat constructor.
    + apply Hcc. unfold Validator.check_description.
      destruct (Validator.get_truthy fm "description"); [| repeat constructor].
      destruct (Validator.has_discovery_pattern s); repeat constructor.
    + apply Hcc. unfold Validator.check_license.
      destruct (Validator.get_truthy fm "license"); repeat constructor.
    + apply Hcc. unfold Validator.check_scripts.
      destruct (Validator.scripts_py d) as [[| n] |]; repeat constructor.
    + apply Hcc. unfold Validator.check_references.
      destruct (Validator.references_md d); repeat constructor.
    + apply Hcc. unfold Validator.check_assets.
      destruct (Validator.assets_files d); repeat constructor.
    + apply Hcc. unfold Validator.check_no_heavy_deps in H9.
      destruct (Validator.requirements d) as [[content | e | e] |];
        try discriminate.
      * destruct (Validator.requirement_lines content); inversion H9; subst;
          repeat constructor.
      * inversion H9; subst; repeat constructor.
      * inversion H9; subst; repeat constructor.
    + constructor; [intros _; reflexivity |]. apply Forall_app. split.
      * apply Hxp. clear -H16.
        revert c16 H16. induction (Validator.files d) as [| f fs IH];
          intros c16 H16; simpl in H16.
        -- inversion H16; subst; repeat constructor.
        -- destruct (Validator.is_text_file f); [| auto].
           destruct (Validator.fe_read f); [auto | discriminate |].
           inversion H16; subst; repeat constructor.
      * apply Hxp. unfold Validator.check_skill_size.
        destruct (_ <? _)%N; repeat constructor.
Qed.

Lemma missing_openai_yaml_reported_witness :
  ∃ r, Validator.validate_skill Samples.bare_dir false = Ok r
       ∧ Validator.compatible r = false.
Proof.
  destruct (Validator.validate_skill Samples.bare_dir false) as [r |] eqn:E.
  - exists r. split; [reflexivity |].
    apply (missing_openai_yaml_reported Samples.bare_dir false r eq_refl E).
  - vm_compute in E. discriminate.
Defined.
(* ===================================================================== *)
(** * Further properties of pipeline_analyzer.py                          *)
(* ===================================================================== *)

Section PipelineMore.
Import Pipeline PipelineReport.

Lemma insert_by_rank_perm x l : insert_by_rank x l ≡ₚ x :: l.
Proof.
  induction l as [| y l IH]; cbn [insert_by_rank]; [reflexivity |].
  destruct (severity_rank x <=? severity_rank y)%nat; [reflexivity |].
  rewrite IH. apply Permutation_swap.
Qed.

Lemma sort_by_severity_perm l : sort_by_severity l ≡ₚ l.
Proof.
  induction l as [| x l IH]; [reflexivity |].
  unfold sort_by_severity in *. cbn [foldr].
  rewrite insert_by_rank_perm, IH. reflexivity.
Qed.

Lemma insert_by_rank_sorted x l :
  StronglySorted by_rank l → StronglySorted by_rank (insert_by_rank x l).
Proof.
  induction 1 as [| y l Hs IH Hy]; cbn [insert_by_rank].
  - repeat constructor.
  - destruct (severity_rank x <=? severity_rank y)%nat eqn:E.
    + apply Nat.leb_le in E. constructor; [constructor; assumption |].
      constructor; [exact E |].
      eapply List.Forall_impl; [| exact Hy]. unfold by_rank. intros z Hz. lia.
    + apply Nat.leb_gt in E. constructor; [exact IH |].
      rewrite insert_by_rank_perm. constructor; [unfold by_rank; lia | exact Hy].
Qed.

Lemma sort_by_severity_sorted l : StronglySorted by_rank (sort_by_severity l).
Proof.
  induction l as [| x l IH]; [constructor |].
  unfold sort_by_severity in *. cbn [foldr]. apply insert_by_rank_sorted, IH.
Qed.

Ltac ranked :=
  cbv zeta;
  repeat match goal with
         | |- Forall _ [] => constructor
         | |- Forall _ (_ :: _) => constructor
         | |- Forall _ (_ ++ _) => apply Forall_app; split
         | |- Forall _ (if ?b then _ else _) => destruct b
         | |- Forall _ (match ?x with _ => _ end) => destruct x
         | |- ranked _ => unfold ranked; simpl; tauto
         end.

Lemma raw_findings_ranked content : Forall ranked (raw_findings content).
Proof.
  unfold raw_findings. cbv zeta.
  apply Forall_app; split; [unfold check_concurrency; ranked |].
  apply Forall_app; split.
  { unfold check_timeouts.
    induction (List.filter lacks_timeout (_extract_jobs content))
      as [| j l IH]; [constructor |].
    rewrite fmap_cons. constructor; [| exact IH].
    unfold ranked. simpl. tauto. }
  apply Forall_app; split; [unfold check_caching; ranked |].
  apply Forall_app; split; [unfold check_checkout; ranked |].
  apply Forall_app; split.
  { destruct (chains_shape (_extract_jobs content)) as [-> | [chain ->]]; ranked. }
  apply Forall_app; split; [unfold check_path_filters; ranked |].
  apply Forall_app; split.
  { unfold check_deprecated.
    induction deprecated_patterns as [| d ds IH]; [constructor |].
    rewrite fmap_cons. simpl. apply Forall_app. split; [| exact IH].
    unfold check_deprecated_one. ranked. }
  apply Forall_app; split; [unfold check_secrets; ranked |].
  apply Forall_app; split; [unfold check_permissions; ranked |].
  unfold check_runner; ranked.
Qed.

Lemma ranked_counts l :
  Forall ranked l →
  (Py.count_if (has_severity "critical") l
   + Py.count_if (has_severity "warning") l
   + Py.count_if (has_severity "info") l = length l)%nat.
Proof.
  induction 1 as [| f l Hf _ IH]; [reflexivity |].
  rewrite !count_if_cons. cbn [length]. unfold has_severity at 1 3 5.
  destruct Hf as [-> | [-> | ->]]; cbn; lia.
Qed.

(** What [analyze_workflow_file] returns when it returns. *)
Lemma analyze_inv w info findings :
  analyze_workflow_file w = Ok (info, findings) →
  (∃ content, wf_read w = Text content
              ∧ findings = sort_by_severity (raw_findings content))
  ∨ (∃ e, (wf_read w = OsFail e ∨ wf_read w = DecodeFail e)
          ∧ findings = [unreadable_finding w e]
          ∧ fi_line_count info = None).
Proof.
  unfold analyze_workflow_file. intros H.
  destruct (wf_read w) as [content | e | e].
  - destruct (_estimate_cost (_extract_jobs content)); simpl in H;
      [| discriminate].
    inversion H; subst. left. eauto.
  - inversion H; subst. right. exists e. auto.
  - inversion H; subst. right. exists e. auto.
Qed.

(** The loop of [_trace_chain]: the parents it prepends are new to
    [visited], distinct, and exactly what [visited] gains. *)
Lemma trace_loop_shape needs_map : ∀ fuel current chain visited,
  ∃ parents,
    trace_loop fuel needs_map current chain visited
    = (rev parents ++ chain, list_to_set parents ∪ visited)
    ∧ NoDup parents ∧ ∀ p, p ∈ parents → p ∉ visited.
Proof.
  assert (Hstop : ∀ (chain : list string) (visited : gset string),
            ∃ parents,
              (chain, visited)
              = (rev parents ++ chain, list_to_set parents ∪ visited)
              ∧ NoDup parents ∧ ∀ p, p ∈ parents → p ∉ visited).
  { intros chain visited. exists []. split; [| split].
    - cbn [rev app list_to_set foldr]. rewrite (left_id_L ∅ (∪)). reflexivity.
    - constructor.
    - intros p Hp. inversion Hp. }
  induction fuel as [| fuel IH]; intros current chain visited;
    cbn [trace_loop]; [apply Hstop |].
  destruct (Py.dict_get current needs_map) as [[| parent [| ? ?]] |];
    try apply Hstop.
  destruct (bool_decide (parent ∈ visited) || Py.eqb parent current) eqn:E;
    [apply Hstop |].
  apply orb_false_iff in E as [Ev _]. apply bool_decide_eq_false in Ev.
  destruct (IH parent (parent :: chain) ({[parent]} ∪ visited))
    as (ps & -> & Hnd & Hfresh).
  exists (parent :: ps). split; [| split].
  - f_equal.
    + cbn [rev]. rewrite <- app_assoc. reflexivity.
    + rewrite list_to_set_cons.
      rewrite (comm_L (∪) {[parent]} (list_to_set ps)).
      rewrite <- (assoc_L (∪)). reflexivity.
  - constructor; [| exact Hnd]. intros Hin. apply Hfresh in Hin.
    apply Hin. apply elem_of_union. left. apply elem_of_singleton. reflexivity.
  - intros p Hp. apply elem_of_cons in Hp as [-> | Hp]; [exact Ev |].
    apply Hfresh in Hp. intros Hv. apply Hp. apply elem_of_union. right.
    exact Hv.
Qed.

(** Without a line that opens the jobs section, [_extract_jobs] finds no
    job. *)
Lemma jobs_fold_closed ls : ∀ st,
  forallb (λ l, negb (opens_jobs l)) ls = true →
  js_in_jobs st = false →
  foldl jobs_step st ls = st.
Proof.
  induction ls as [| l ls IH]; intros st Hls Hin; cbn [foldl]; [reflexivity |].
  cbn [forallb] in Hls. apply andb_true_iff in Hls as [Hl Hls].
  assert (jobs_step st l = st) as ->.
  { unfold jobs_step. destruct (js_done st); [reflexivity |].
    unfold opens_jobs in Hl. apply negb_true_iff in Hl. rewrite Hl, Hin.
    reflexivity. }
  apply IH; assumption.
Qed.

Lemma no_jobs content :
  forallb (λ l, negb (opens_jobs l)) (Py.lines content) = true →
  _extract_jobs content = [].
Proof.
  intros H. unfold _extract_jobs. rewrite jobs_fold_closed by auto. reflexivity.
Qed.

End PipelineMore.

(** X7.  The findings [analyze_workflow_file] returns for a readable file
    are the findings of its checks, none added and none dropped, ordered
    by severity: critical first, then warning, then info; no finding has
    another severity. *)
Theorem findings_sorted (w : Pipeline.workflow_file) (content : string)
    (info : Pipeline.file_info) (findings : list Pipeline.Finding) :
  Pipeline.wf_read w = Text content →
  Pipeline.analyze_workflow_file w = Ok (info, findings) →
  findings ≡ₚ Pipeline.raw_findings content
  ∧ StronglySorted PipelineReport.by_rank findings
  ∧ Forall PipelineReport.ranked findings.
Proof.
  intros Hr H. apply analyze_inv in H as [(c & Hc & ->) | (e & [He | He] & _)];
    try congruence.
  assert (c = content) as -> by congruence.
  split; [apply sort_by_severity_perm |].
  split; [apply sort_by_severity_sorted |].
  rewrite sort_by_severity_perm. apply raw_findings_ranked.
Qed.

Lemma findings_sorted_witness :
  ∃ info findings,
    Pipeline.analyze_workflow_file (Samples.workflow Samples.one_job)
    = Ok (info, findings)
    ∧ StronglySorted PipelineReport.by_rank findings.
Proof.
  destruct (Pipeline.analyze_workflow_file (Samples.workflow Samples.one_job))
    as [[info findings] |] eqn:E.
  - exists info, findings. split; [reflexivity |].
    apply (findings_sorted (Samples.workflow Samples.one_job) Samples.one_job
             info findings eq_refl E).
  - vm_compute in E. discriminate.
Defined.

(** X8.  In the JSON report the summary of a file adds up: the counts of
    critical, warning and info findings sum to the total, for every file
    the analysis returns findings for, readable or not. *)
Theorem summary_adds_up (w : Pipeline.workflow_file)
    (info : Pipeline.file_info) (findings : list Pipeline.Finding) :
  Pipeline.analyze_workflow_file w = Ok (info, findings) →
  (PipelineReport.n_critical (PipelineReport.summarize findings)
   + PipelineReport.n_warning (PipelineReport.summarize findings)
   + PipelineReport.n_info (PipelineReport.summarize findings)
   = PipelineReport.n_total (PipelineReport.summarize findings))%nat.
Proof.
  intros H. unfold PipelineReport.summarize. simpl. apply ranked_counts.
  apply analyze_inv in H as [(c & Hc & ->) | (e & _ & -> & _)].
  - rewrite sort_by_severity_perm. apply raw_findings_ranked.
  - constructor; [| constructor]. unfold PipelineReport.ranked. simpl. tauto.
Qed.

Lemma summary_adds_up_witness :
  ∃ info findings,
    Pipeline.analyze_workflow_file (Samples.workflow Samples.one_job)
    = Ok (info, findings)
    ∧ length findings = 3%nat
    ∧ PipelineReport.n_warning (PipelineReport.summarize findings) = 3%nat
    ∧ (PipelineReport.n_critical (PipelineReport.summarize findings)
       + PipelineReport.n_warning (PipelineReport.summarize findings)
       + PipelineReport.n_info (PipelineReport.summarize findings)
       = PipelineReport.n_total (PipelineReport.summarize findings))%nat.
Proof.
  destruct (Pipeline.analyze_workflow_file
              (Samples.workflow Samples.one_job))
    as [[info findings] |] eqn:E.
  - exists info, findings. split; [reflexivity |].
    pose proof (summary_adds_up _ info findings E) as Hsum.
    vm_compute in E. injection E as <- <-.
    split; [reflexivity |]. split; [reflexivity |]. exact Hsum.
  - vm_compute in E. discriminate.
Defined.

(** X9.  A workflow file that cannot be read (an [OSError] or bytes that
    are not UTF-8) does not make [analyze_workflow_file] raise: it returns
    exactly one finding, critical, of category [file], titled
    "Cannot read file", and no line count. *)
Theorem unreadable_workflow_reported (w : Pipeline.workflow_file) :
  (∀ content, Pipeline.wf_read w ≠ Text content) →
  ∃ info f,
    Pipeline.analyze_workflow_file w = Ok (info, [f])
    ∧ Pipeline.severity f = "critical"
    ∧ Pipeline.category f = "file"
    ∧ Pipeline.title f = "Cannot read file"
    ∧ Pipeline.fi_line_count info = None
    ∧ Pipeline.fi_path info = Pipeline.wf_path w.
Proof.
  intros H. unfold Pipeline.analyze_workflow_file.
  destruct (Pipeline.wf_read w) as [content | e | e].
  - exfalso. eapply H. reflexivity.
  - eexists _, _. split; [reflexivity |]. repeat split.
  - eexists _, _. split; [reflexivity |]. repeat split.
Qed.

Lemma unreadable_workflow_reported_witness :
  ∃ info f,
    Pipeline.analyze_workflow_file
      {| Pipeline.wf_path := "ci.yml"; Pipeline.wf_name := "ci.yml";
         Pipeline.wf_read := OsFail "Permission denied" |}
    = Ok (info, [f])
    ∧ Pipeline.severity f = "critical".
Proof.
  destruct (unreadable_workflow_reported
              {| Pipeline.wf_path := "ci.yml"; Pipeline.wf_name := "ci.yml";
                 Pipeline.wf_read := OsFail "Permission denied" |})
    as (info & f & H & Hs & _).
  - intros content. discriminate.
  - exists info, f. split; [exact H | exact Hs].
Defined.

(** X10.  The loop of [_trace_chain] ends on every dependency map, cyclic
    ones included: more rounds than twice the number of entries plus two
    change nothing.  The chain it returns ends with the start job; the
    jobs before it are distinct, were not in [visited], and are exactly
    what [visited] gains. *)
Theorem trace_chain_ends (start_job : string)
    (needs_map : list (string * list string)) (visited : gset string) :
  (∀ fuel, (2 * length needs_map + 2 ≤ fuel)%nat →
           Pipeline.trace_loop fuel needs_map start_job [start_job] visited
           = Pipeline._trace_chain start_job needs_map visited)
  ∧ ∃ parents,
      Pipeline._trace_chain start_job needs_map visited
      = (rev parents ++ [start_job], list_to_set parents ∪ visited)
      ∧ NoDup parents
      ∧ ∀ p, p ∈ parents → p ∉ visited.
Proof.
  split.
  - intros fuel Hf. apply trace_chain_fuel_enough. exact Hf.
  - apply trace_loop_shape.
Qed.

(** X11.  A workflow text with no line that starts, after its
    indentation, with [jobs:] has no jobs for the analyzer: the analysis
    of the file returns, and its findings hold no timeout finding and no
    chain finding. *)
Theorem no_jobs_section (w : Pipeline.workflow_file) (content : string) :
  Pipeline.wf_read w = Text content →
  forallb (λ l, negb (PipelineReport.opens_jobs l)) (Py.lines content) = true →
  Pipeline._extract_jobs content = []
  ∧ ∃ info findings,
      Pipeline.analyze_workflow_file w = Ok (info, findings)
      ∧ findings
        ≡ₚ Pipeline.check_concurrency content ++ Pipeline.check_caching content
           ++ Pipeline.check_checkout content
           ++ Pipeline.check_path_filters content
           ++ Pipeline.check_deprecated content
           ++ Pipeline.check_secrets content
           ++ Pipeline.check_permissions content
           ++ Pipeline.check_runner content.
Proof.
  intros Hr Hl. pose proof (no_jobs content Hl) as Hj.
  split; [exact Hj |].
  unfold Pipeline.analyze_workflow_file. rewrite Hr, Hj. simpl.
  eexists _, _. split; [reflexivity |].
  rewrite sort_by_severity_perm. unfold Pipeline.raw_findings.
  rewrite Hj. reflexivity.
Qed.

Lemma no_jobs_section_witness :
  Pipeline._extract_jobs Samples.comment_only = [].
Proof.
  apply (no_jobs_section (Samples.workflow Samples.comment_only)
           Samples.comment_only); reflexivity.
Defined.
(* ===================================================================== *)
(** * Further properties of claudemd_optimizer.py                         *)
(* ===================================================================== *)

Section OptimizerMore.
Import Optimizer OptimizerReport.

Lemma score_loop recs : ∀ a,
  foldl (λ score r, (score - penalty r)%Z) a recs = (a - total_penalty recs)%Z.
Proof.
  induction recs as [| r recs IH]; intros a; simpl; [lia |].
  rewrite IH. lia.
Qed.

Lemma penalty_nonneg r : (0 ≤ penalty r)%Z.
Proof.
  unfold penalty.
  destruct (Py.eqb (priority r) "high"); [lia |].
  destruct (Py.eqb (priority r) "medium"); [lia |].
  destruct (Py.eqb (priority r) "low"); lia.
Qed.

Lemma total_penalty_nonneg recs : (0 ≤ total_penalty recs)%Z.
Proof.
  induction recs as [| r recs IH]; simpl; [lia |].
  pose proof (penalty_nonneg r). lia.
Qed.

Lemma total_penalty_app l1 l2 :
  total_penalty (l1 ++ l2) = (total_penalty l1 + total_penalty l2)%Z.
Proof. induction l1 as [| r l1 IH]; simpl; [reflexivity | rewrite IH; lia]. Qed.

Lemma penalty_known r : known_priority r → (3 ≤ penalty r)%Z.
Proof. unfold penalty. intros [-> | [-> | ->]]; simpl; lia. Qed.

Ltac prio :=
  cbv zeta;
  repeat match goal with
         | |- Forall _ [] => constructor
         | |- Forall _ (_ :: _) => constructor
         | |- Forall _ (_ ++ _) => apply Forall_app; split
         | |- Forall _ (if ?b then _ else _) => destruct b
         | |- known_priority _ => unfold known_priority; simpl; tauto
         end.

Lemma fmap_known {A} (f : A → recommendation) (l : list A) :
  (∀ x, known_priority (f x)) → Forall known_priority (f <$> l).
Proof.
  intros H. induction l as [| x l IH]; [constructor |].
  rewrite fmap_cons. constructor; [apply H | exact IH].
Qed.

Lemma recommendations_known text sections completeness reds hierarchical limit :
  Forall known_priority
    (generate_recommendations text sections completeness reds hierarchical limit).
Proof.
  unfold generate_recommendations. cbv zeta.
  apply Forall_app; split.
  { unfold missing_sections. apply fmap_known. intros x. prio. }
  apply Forall_app; split.
  { unfold missing_sections. apply fmap_known. intros x. prio. }
  apply Forall_app; split; [unfold token_budget; prio |].
  apply Forall_app; split; [unfold redundancy_recs; prio |].
  apply Forall_app; split; [unfold structure_recs; prio |].
  apply Forall_app; split; [unfold format_recs; prio |].
  apply fmap_known. intros x. prio.
Qed.

Lemma in_category_off c l :
  Forall (λ r, category r ≠ c) l → Py.count_if (in_category c) l = 0%nat.
Proof.
  intros H. apply count_if_none. eapply List.Forall_impl; [| exact H].
  intros r Hr. unfold in_category. apply eqb_neq. exact Hr.
Qed.

End OptimizerMore.

(** X12.  For a CLAUDE.md file whose token estimate is over the limit,
    [analyze_claudemd] returns a report with [within_budget] false; its
    recommendations of category [token_budget] are all of priority high
    and number one, or two when the estimate is more than twice the
    limit; a [hierarchical_loading] recommendation is there as well, and
    the score is at most 77. *)
Theorem over_budget (file_path resolved text : string) (limit : Z) :
  (limit < Optimizer.estimate_tokens text)%Z →
  ∃ r, Optimizer.analyze_claudemd file_path
         (Optimizer.IsFile resolved (Text text)) limit
       = Ok (Optimizer.Success r)
       ∧ Optimizer.within_budget (Optimizer.report_metrics r) = false
       ∧ Py.count_if (OptimizerReport.in_category "token_budget")
                     (Optimizer.recommendations r)
         = (if (limit * 2 <? Optimizer.estimate_tokens text)%Z
            then 2%nat else 1%nat)
       ∧ Forall (λ rc, Optimizer.category rc = "token_budget" →
                       Optimizer.priority rc = "high")
                (Optimizer.recommendations r)
       ∧ (∃ rc, rc ∈ Optimizer.recommendations r
                ∧ Optimizer.category rc = "hierarchical_loading")
       ∧ (Optimizer.score r ≤ 77)%Z.
Proof.
  intros Hover. eexists. split; [reflexivity |].
  cbn [Optimizer.analyze_text Optimizer.report_metrics Optimizer.within_budget
       Optimizer.recommendations Optimizer.score].
  assert (Hlt : (limit <? Optimizer.estimate_tokens text)%Z = true)
    by (apply Z.ltb_lt; exact Hover).
  assert (Hle : (Optimizer.estimate_tokens text <=? limit)%Z = false)
    by (apply Z.leb_gt; exact Hover).
  split; [exact Hle |].
  set (sections := Optimizer.extract_sections text).
  set (cs := Optimizer.check_section_completeness sections).
  set (reds := Optimizer.detect_redundancy text).
  unfold Optimizer.suggest_hierarchical_loading. cbv zeta. rewrite Hle.
  set (first := (_ +:+ _ +:+ _ +:+ _ +:+ _ +:+ _ +:+ _)%string).
  set (more := Optimizer.move_suggestions _ _ _).
  unfold Optimizer.generate_recommendations. cbv zeta.
  unfold Optimizer.token_budget at 1 2 3 4. rewrite Hlt.
  set (tb := Optimizer.rec "high" "token_budget" _).
  set (A := Optimizer.missing_sections "critical" _ _ _).
  set (B := Optimizer.missing_sections "high" _ _ _).
  set (D := Optimizer.redundancy_recs reds).
  set (E := Optimizer.structure_recs text sections).
  set (F := Optimizer.format_recs text).
  rewrite fmap_cons.
  set (h := Optimizer.rec "medium" "hierarchical_loading" first).
  set (H := Optimizer.rec "medium" "hierarchical_loading" <$> more).
  assert (HA : Forall Optimizer.off_budget A) by apply missing_sections_off.
  assert (HB : Forall Optimizer.off_budget B) by apply missing_sections_off.
  assert (HD : Forall Optimizer.off_budget D) by apply redundancy_recs_off.
  assert (HE : Forall Optimizer.off_budget E) by apply structure_recs_off.
  assert (HF : Forall Optimizer.off_budget F) by apply format_recs_off.
  assert (HH : Forall Optimizer.off_budget (h :: H)).
  { constructor; [unfold Optimizer.off_budget; simpl; discriminate |].
    apply hierarchical_off. }
  split; [| split; [| split]].
  - rewrite !count_if_app.
    rewrite (in_category_off _ A HA), (in_category_off _ B HB),
      (in_category_off _ D HD), (in_category_off _ E HE),
      (in_category_off _ F HF), (in_category_off _ (h :: H) HH).
    destruct (limit * 2 <? Optimizer.estimate_tokens text)%Z; reflexivity.
  - assert (Hoff : ∀ l, Forall Optimizer.off_budget l →
                        Forall (λ rc, Optimizer.category rc = "token_budget" →
                                      Optimizer.priority rc = "high") l).
    { intros l. apply List.Forall_impl. intros a Ha Hb. contradiction. }
    rewrite !Forall_app. repeat split; try (apply Hoff; assumption).
    + constructor; [intros _; reflexivity | constructor].
    + destruct (limit * 2 <? Optimizer.estimate_tokens text)%Z; constructor;
        [intros _; reflexivity | constructor].
  - exists h. split; [| reflexivity].
    rewrite !elem_of_app. do 6 right. left.
  - unfold Optimizer.compute_score. rewrite score_loop.
    rewrite !total_penalty_app.
    pose proof (total_penalty_nonneg A). pose proof (total_penalty_nonneg B).
    pose proof (total_penalty_nonneg D). pose proof (total_penalty_nonneg E).
    pose proof (total_penalty_nonneg F). pose proof (total_penalty_nonneg H).
    pose proof (total_penalty_nonneg
                  (if (limit * 2 <? Optimizer.estimate_tokens text)%Z
                   then [Optimizer.rec "high" "token_budget"
                           "File is more than double the target size. Major restructuring recommended."]
                   else [])).
    change (OptimizerReport.total_penalty [tb]) with 15%Z.
    change (OptimizerReport.total_penalty (h :: H))
      with (8 + OptimizerReport.total_penalty H)%Z.
    lia.
Qed.

Lemma over_budget_witness :
  ∃ r, Optimizer.analyze_claudemd "CLAUDE.md"
         (Optimizer.IsFile "/repo/CLAUDE.md" (Text Samples.small_claude_md)) 5
       = Ok (Optimizer.Success r)
       ∧ Optimizer.within_budget (Optimizer.report_metrics r) = false.
Proof.
  destruct (over_budget "CLAUDE.md" "/repo/CLAUDE.md" Samples.small_claude_md 5)
    as (r & Hr & Hw & _).
  - vm_compute. reflexivity.
  - exists r. split; [exact Hr | exact Hw].
Defined.

(** X13.  The score of every report lies between 0 and 100, every
    recommendation has priority high, medium or low, and the score is 100
    exactly when the report has no recommendation. *)
Theorem score_range (file_path : string) (p : Optimizer.path_state)
    (limit : Z) (r : Optimizer.report) :
  Optimizer.analyze_claudemd file_path p limit = Ok (Optimizer.Success r) →
  (0 ≤ Optimizer.score r ≤ 100)%Z
  ∧ Forall OptimizerReport.known_priority (Optimizer.recommendations r)
  ∧ (Optimizer.score r = 100%Z ↔ Optimizer.recommendations r = []).
Proof.
  unfold Optimizer.analyze_claudemd. intros H.
  destruct p as [| | resolved [text | e | e]]; try discriminate.
  inversion H; subst r. clear H.
  cbn [Optimizer.analyze_text Optimizer.recommendations Optimizer.score].
  set (recs := Optimizer.generate_recommendations _ _ _ _ _ _).
  assert (Hk : Forall OptimizerReport.known_priority recs)
    by apply recommendations_known.
  unfold Optimizer.compute_score. rewrite score_loop.
  pose proof (total_penalty_nonneg recs) as Hp.
  split; [lia |]. split; [exact Hk |].
  split.
  - intros Hs. destruct recs as [| rc recs']; [reflexivity |].
    inversion Hk as [| ? ? Hrc _]; subst.
    apply penalty_known in Hrc.
    pose proof (total_penalty_nonneg recs').
    cbn [OptimizerReport.total_penalty foldr] in Hs, Hp.
    fold (OptimizerReport.total_penalty recs') in Hs, Hp. lia.
  - intros ->. simpl. lia.
Qed.

Lemma score_range_witness :
  ∃ r, Optimizer.analyze_claudemd "CLAUDE.md"
         (Optimizer.IsFile "/repo/CLAUDE.md" (Text Samples.small_claude_md)) 6000
       = Ok (Optimizer.Success r)
       ∧ (0 ≤ Optimizer.score r ≤ 100)%Z.
Proof.
  eexists. split; [reflexivity |].
  apply (score_range "CLAUDE.md"
           (Optimizer.IsFile "/repo/CLAUDE.md" (Text Samples.small_claude_md))
           6000 _ eq_refl).
Defined.
(* ===================================================================== *)
(** * Further properties of skill_scaffolder.py                           *)
(* ===================================================================== *)

(** X14.  For every skill name [validate_skill_name] accepts and every
    output directory, [create_skill_directory] returns and leaves every
    other entry of the output directory as it was.  When the name is
    taken the result is the failure and the directory is unchanged; when
    it is free the result is the success and the entry of that name is a
    directory with SKILL.md, scripts/<name with underscores>_tool.py (mode
    0o755), references/guide.md and an empty assets/.gitkeep, and nothing
    else. *)
Theorem create_skill_directory_frame (name domain description version
    license_type category today : string)
    (es : gmap string (Fs.node Scaffolder.file)) :
  Scaffolder.validate_skill_name name = None →
  ∃ c es',
    Scaffolder.create_skill_directory name domain description version
      license_type category today (Fs.Dir es) = Ok (c, Fs.Dir es')
    ∧ (∀ other, other ≠ name → es' !! other = es !! other)
    ∧ match es !! name with
      | Some n => Scaffolder.success c = false ∧ es' = es
      | None =>
          Scaffolder.success c = true
          ∧ es' !! name
            = Some (Scaffolder.scaffold name domain description version
                      license_type
                      (if Py.truthy category then category else domain)
                      today)
      end.
Proof.
  intros _. rewrite create_skill_directory_spec.
  destruct (es !! name) as [n |] eqn:E.
  - eexists _, _. split; [reflexivity |]. split; [reflexivity |].
    split; reflexivity.
  - eexists _, _. split; [reflexivity |]. split; [| split].
    + intros other Hne. apply lookup_insert_ne. congruence.
    + reflexivity.
    + apply lookup_insert_eq.
Qed.

Lemma create_skill_directory_frame_witness :
  ∃ c es',
    Scaffolder.create_skill_directory "api-analyzer" "engineering" "API analysis"
      "1.0.0" "MIT" "" "June 2025"
      (Fs.Dir {[ "README.md" := Fs.File (Scaffolder.new_file (Scaffolder.Plain "x")) ]})
    = Ok (c, Fs.Dir es')
    ∧ es' !! "README.md"
      = Some (Fs.File (Scaffolder.new_file (Scaffolder.Plain "x")))
    ∧ Scaffolder.success c = true.
Proof.
  destruct (create_skill_directory_frame "api-analyzer" "engineering"
              "API analysis" "1.0.0" "MIT" "" "June 2025"
              {[ "README.md" := Fs.File (Scaffolder.new_file (Scaffolder.Plain "x")) ]})
    as (c & es' & Hc & Hframe & Hnew).
  - reflexivity.
  - exists c, es'. split; [exact Hc |]. split.
    + rewrite Hframe by discriminate. reflexivity.
    + rewrite lookup_singleton_ne in Hnew by discriminate. apply Hnew.
Defined.
(* ===================================================================== *)
(** * Further properties of skill-installer.py                            *)
(* ===================================================================== *)

Section InstallerMore.
Import Installer.
Context {C : Type}.

Lemma set_entries_other t t' es (w : world C) :
  t' ≠ t → set_entries t es w t' = w t'.
Proof. intros H. unfold set_entries, world. apply fn_lookup_insert_ne. congruence. Qed.

Lemma save_manifest_other t t' m (w : world C) :
  t' ≠ t → save_manifest t m w t' = w t'.
Proof. intros H. unfold save_manifest, world. apply fn_lookup_insert_ne. congruence. Qed.

(** What [remove_dest] leaves: the entry is gone, the rest is as it was. *)
Lemma remove_dest_spec t name (w w1 : world C) :
  remove_dest t name w = Ok w1 →
  ts_entries (w1 t) = delete name (ts_entries (w t))
  ∧ ts_manifest (w1 t) = ts_manifest (w t)
  ∧ ∀ t', t' ≠ t → w1 t' = w t'.
Proof.
  unfold remove_dest. intros H.
  destruct (ts_entries (w t) !! name) as [[c | es] |] eqn:E;
    inversion H; subst; clear H.
  - rewrite set_entries_entries, set_entries_manifest.
    split; [reflexivity |]. split; [reflexivity |].
    intros t' Ht. apply set_entries_other, Ht.
  - split; [symmetry; apply delete_id, E |]. auto.
Qed.

(** What a [copy_skill] that returns leaves. *)
Lemma copy_skill_spec (r : repo C) p t (w w1 : world C) :
  copy_skill r p t w = (Returned, w1) →
  ∃ es, Fs.lookup p (repo_tree r) = Some (Fs.Dir es)
        ∧ ts_entries (w1 t)
          = <[path_name p := Fs.copy_filtered (Fs.Dir es)]> (ts_entries (w t))
        ∧ ts_manifest (w1 t) = ts_manifest (w t)
        ∧ ∀ t', t' ≠ t → w1 t' = w t'.
Proof.
  unfold copy_skill. intros H.
  destruct (remove_dest t (path_name p) w) as [w' | e] eqn:Er; [| discriminate].
  destruct (Fs.lookup p (repo_tree r)) as [[c | es] |]; try discriminate.
  inversion H; subst w1. clear H.
  apply remove_dest_spec in Er as (He & Hm & Ho).
  exists es. split; [reflexivity |].
  rewrite set_entries_entries, set_entries_manifest, He, Hm.
  split; [apply insert_delete_eq |]. split; [reflexivity |].
  intros t' Ht. rewrite set_entries_other by exact Ht. apply Ho, Ht.
Qed.

(** A [copy_skill] that does not return raises: it never exits. *)
Lemma copy_skill_no_exit (r : repo C) p t (w w1 : world C) code :
  copy_skill r p t w ≠ (SysExit code, w1).
Proof.
  unfold copy_skill.
  destruct (remove_dest t (path_name p) w); [| discriminate].
  destruct (Fs.lookup p (repo_tree r)) as [[c | es] |]; discriminate.
Qed.

(** What a [cmd_install] that returns leaves, in full. *)
Lemma cmd_install_spec (a : install_args) (r : repo C) now (w w1 : world C) t :
  t = get_target_dir (agent_or_default (ia_agent a)) →
  cmd_install a r now w = (Returned, w1) →
  ∃ g info es installed,
    find_skill (ia_skill_name a) (discover_skills (repo_hits r)) = Some (g, info)
    ∧ group_taken (load_manifest w t) g (ia_skill_name a) (ia_force a) = false
    ∧ Fs.lookup (si_path info) (repo_tree r) = Some (Fs.Dir es)
    ∧ m_installed (load_manifest w t) = Some installed
    ∧ ts_entries (w1 t)
      = <[ia_skill_name a := Fs.copy_filtered (Fs.Dir es)]> (ts_entries (w t))
    ∧ ts_manifest (w1 t)
      = Json {| m_installed :=
                  Some (<[ia_skill_name a :=
                            {| i_group := Some g; i_path := si_path info;
                               i_installed_at := now; i_updated_at := now;
                               i_auto_update := ia_auto_update a |}]> installed);
                m_auto_update :=
                  if ia_auto_update a then Some true
                  else m_auto_update (load_manifest w t);
                m_source := m_source (load_manifest w t) |}
    ∧ ∀ t', t' ≠ t → w1 t' = w t'.
Proof.
  intros Ht. unfold cmd_install. rewrite <- Ht. intros H.
  destruct (find_skill (ia_skill_name a) (discover_skills (repo_hits r)))
    as [[g info] |] eqn:Ef; [| discriminate].
  destruct (group_taken _ g _ _) eqn:Eg; [discriminate |].
  destruct (copy_skill r (si_path info) t w) as [[| c | e] w'] eqn:Ec;
    try discriminate.
  destruct (m_installed (load_manifest w t)) as [installed |] eqn:Ei;
    [| discriminate].
  inversion H; subst w1. clear H.
  apply copy_skill_spec in Ec as (es & Hs & He & Hm & Ho).
  rewrite (found_path_name _ _ _ _ Ef) in He.
  exists g, info, es, installed.
  rewrite save_manifest_manifest, save_manifest_entries.
  repeat split; try assumption.
  intros t' Hne. rewrite save_manifest_other by exact Hne. apply Ho, Hne.
Qed.

(** No entry of the manifest stands in the way of its own name. *)
Lemma group_free_of_self m g name force :
  (∀ other info, installed_or_empty m !! other = Some info →
                 i_group info = Some g → other = name) →
  group_taken m g name force = false.
Proof.
  intros H. unfold group_taken.
  replace (existsb _ _) with false; [reflexivity |].
  symmetry. apply not_true_is_false. intros Hex.
  apply existsb_exists in Hex as ([other info] & Hin & Hc).
  apply list_elem_of_In, elem_of_map_to_list in Hin.
  unfold conflicts in Hc. simpl in Hc. apply andb_true_iff in Hc as [Hg Hn].
  apply bool_decide_eq_true in Hg. apply negb_true_iff, eqb_neq in Hn.
  apply Hn. eapply H; eassumption.
Qed.

Lemma group_taken_forced m g name : group_taken m g name true = false.
Proof. unfold group_taken. apply andb_false_r. Qed.

End InstallerMore.

(** X15.  When [cmd_install] or [cmd_uninstall] ends in [sys.exit], the
    status is 1 and nothing on disk has changed: no file was copied or
    removed and no manifest was written. *)
Theorem exits_change_nothing {C} (a : Installer.install_args)
    (u : Installer.uninstall_args) (r : Installer.repo C) (now : string)
    (w w' : Installer.world C) (code : Z) :
  (Installer.cmd_install a r now w = (Installer.SysExit code, w') →
   code = 1%Z ∧ w' = w)
  ∧ (Installer.cmd_uninstall u r w = (Installer.SysExit code, w') →
     code = 1%Z ∧ w' = w).
Proof.
  split.
  - unfold Installer.cmd_install. intros H.
    destruct (Installer.find_skill _ _) as [[g info] |].
    2: { inversion H. auto. }
    destruct (Installer.group_taken _ g _ _).
    1: { inversion H. auto. }
    destruct (Installer.copy_skill r (Installer.si_path info) _ w)
      as [[| c | e] w1] eqn:Ec.
    + destruct (Installer.m_installed _); discriminate.
    + exfalso. eapply copy_skill_no_exit. exact Ec.
    + discriminate.
  - unfold Installer.cmd_uninstall. intros H.
    destruct (Installer.installed_or_empty _ !! _).
    2: { inversion H. auto. }
    destruct (Installer.remove_dest _ _ w); [| discriminate].
    destruct (Installer.m_installed _); discriminate.
Qed.

Lemma exits_change_nothing_witness :
  Installer.cmd_uninstall Samples.uninstall_content_creator
    Samples.one_skill_repo Samples.seo_installed
  = (Installer.SysExit 1, Samples.seo_installed).
Proof.
  destruct (Installer.cmd_uninstall Samples.uninstall_content_creator
              Samples.one_skill_repo Samples.seo_installed)
    as [s w'] eqn:E.
  assert (s = Installer.SysExit 1) as -> by (vm_compute in E; congruence).
  destruct (exits_change_nothing Samples.install_content_creator
              Samples.uninstall_content_creator Samples.one_skill_repo
              "2025-06-01T12:00:00+00:00" Samples.seo_installed w' 1)
    as [_ Hu].
  destruct (Hu E) as [_ ->]. reflexivity.
Defined.

(** X16.  A [cmd_install] that returns changes only what it installs: the
    other target directories are untouched; in its target directory the
    other entries are as they were and the entry of the skill is the copy
    of the repository's directory; the manifest keeps every other
    installed entry as it was and records the skill with its group, its
    path and both time stamps set to the time of the install. *)
Theorem install_frame {C} (a : Installer.install_args) (r : Installer.repo C)
    (now : string) (w w1 : Installer.world C) (t : Installer.target_dir) :
  t = Installer.get_target_dir (Installer.agent_or_default (Installer.ia_agent a)) →
  Installer.cmd_install a r now w = (Installer.Returned, w1) →
  (∀ t', t' ≠ t → w1 t' = w t')
  ∧ (∀ name, name ≠ Installer.ia_skill_name a →
             Installer.ts_entries (w1 t) !! name
             = Installer.ts_entries (w t) !! name)
  ∧ ∃ m installed entry g,
      Installer.ts_manifest (w1 t) = Installer.Json m
      ∧ Installer.m_installed m = Some installed
      ∧ Installer.m_source m = Installer.m_source (Installer.load_manifest w t)
      ∧ (∀ name, name ≠ Installer.ia_skill_name a →
                 installed !! name
                 = Installer.installed_or_empty (Installer.load_manifest w t)
                   !! name)
      ∧ installed !! Installer.ia_skill_name a = Some entry
      ∧ Installer.i_installed_at entry = now
      ∧ Installer.i_updated_at entry = now
      ∧ Installer.i_auto_update entry = Installer.ia_auto_update a
      ∧ Installer.i_group entry = Some g
      ∧ Installer.i_path entry = [g; Installer.ia_skill_name a].
Proof.
  intros Ht H.
  destruct (cmd_install_spec a r now w w1 t Ht H)
    as (g & info & es & installed & Hf & _ & _ & Hi & He & Hm & Ho).
  split; [exact Ho |]. split.
  - intros name Hne. rewrite He. apply lookup_insert_ne. congruence.
  - eexists _, _, _, g. split; [exact Hm |]. cbn [Installer.m_installed
      Installer.m_source]. split; [reflexivity |]. split; [reflexivity |].
    split; [| split; [apply lookup_insert_eq |]].
    + intros name Hne. unfold Installer.installed_or_empty. rewrite Hi.
      apply lookup_insert_ne. congruence.
    + cbn. repeat split.
      apply find_skill_elem in Hf as (gs & Hin & Hg).
      apply (discover_skills_keyed (Installer.repo_hits r) g gs Hin _ _ Hg).
Qed.

Lemma install_frame_witness :
  ∃ w1,
    Installer.cmd_install Samples.install_content_creator
      Samples.one_skill_repo "2025-06-01T12:00:00+00:00"
      Samples.nothing_installed
    = (Installer.Returned, w1)
    ∧ w1 Installer.HomeClaudeSkills
      = Samples.nothing_installed Installer.HomeClaudeSkills.
Proof.
  destruct (Installer.cmd_install Samples.install_content_creator
              Samples.one_skill_repo "2025-06-01T12:00:00+00:00"
              Samples.nothing_installed) as [s w1] eqn:E.
  assert (s = Installer.Returned) as -> by (vm_compute in E; congruence).
  exists w1. split; [reflexivity |].
  destruct (install_frame Samples.install_content_creator
              Samples.one_skill_repo "2025-06-01T12:00:00+00:00"
              Samples.nothing_installed w1 Installer.ProjectSkills
              eq_refl E) as [Hother _].
  apply Hother. discriminate.
Defined.

Section InstallerMore2.
Import Installer InstallerReport.
Context {C : Type}.

Lemma group_taken_iff m g name force :
  group_taken m g name force = true ↔
  force = false
  ∧ ∃ other info, installed_or_empty m !! other = Some info
                  ∧ i_group info = Some g ∧ other ≠ name.
Proof.
  unfold group_taken. rewrite andb_true_iff, negb_true_iff. split.
  - intros [Hex Hf]. split; [exact Hf |].
    apply existsb_exists in Hex as ([other info] & Hin & Hc).
    apply list_elem_of_In, elem_of_map_to_list in Hin.
    unfold conflicts in Hc. simpl in Hc. apply andb_true_iff in Hc as [Hg Hn].
    apply bool_decide_eq_true in Hg. apply negb_true_iff, eqb_neq in Hn.
    exists other, info. auto.
  - intros [Hf (other & info & Hl & Hg & Hn)]. split; [| exact Hf].
    apply existsb_exists. exists (other, info). split.
    + apply list_elem_of_In, elem_of_map_to_list, Hl.
    + unfold conflicts. simpl. rewrite Hg.
      rewrite bool_decide_eq_true_2 by reflexivity.
      apply eqb_neq in Hn. rewrite Hn. reflexivity.
Qed.


Lemma dict_get_in_skills skills h g n :
  listed skills g n → listed (discover_step skills h) g n.
Proof.
  intros (gs & info & Hg & Hn). unfold discover_step.
  destruct (_ || _); [solve [exists gs, info; auto] |].
  destruct (hit_parts h) as [| group [| skill_name rest]];
    try solve [exists gs, info; auto].
  unfold listed. rewrite dict_get_set.
  destruct (Py.eqb g group) eqn:E.
  - apply eqb_eq in E. subst group. rewrite Hg. cbn [default from_option id].
    destruct (Py.eqb n skill_name) eqn:En; eexists _, _;
      (split; [reflexivity |]); rewrite dict_get_set, En;
      [reflexivity | exact Hn].
  - exists gs, info. auto.
Qed.

Lemma discover_step_lists skills h g n :
  lists h g n → listed (discover_step skills h) g n.
Proof.
  intros [Hex [rest Hp]]. unfold discover_step. unfold excluded in Hex.
  rewrite Hex, Hp. unfold listed. rewrite dict_get_set.
  rewrite (proj2 (eqb_eq g g) eq_refl).
  eexists _, _. split; [reflexivity |]. rewrite dict_get_set.
  rewrite (proj2 (eqb_eq n n) eq_refl). reflexivity.
Qed.

Lemma discover_step_sound skills h g n :
  listed (discover_step skills h) g n → listed skills g n ∨ lists h g n.
Proof.
  unfold discover_step.
  destruct (bool_decide ("assets" ∈ hit_parts h)
            || bool_decide ("node_modules" ∈ hit_parts h)
            || bool_decide (".git" ∈ hit_parts h)) eqn:Hex; [auto |].
  destruct (hit_parts h) as [| group [| skill_name rest]] eqn:Hp; auto.
  intros (gs & info & Hg & Hn). rewrite dict_get_set in Hg.
  destruct (Py.eqb g group) eqn:E.
  - apply eqb_eq in E. subst group. inversion Hg; subst gs. clear Hg.
    rewrite dict_get_set in Hn.
    destruct (Py.eqb n skill_name) eqn:En.
    + apply eqb_eq in En. subst skill_name. right.
      split; [unfold excluded; rewrite Hp; exact Hex | eauto].
    + left. destruct (Py.dict_get g skills) as [old |] eqn:Eo; simpl in Hn;
        [| discriminate].
      exists old, info. auto.
  - left. exists gs, info. auto.
Qed.

Lemma discover_fold hits : ∀ skills g n,
  listed (foldl discover_step skills hits) g n ↔
  listed skills g n ∨ ∃ h, h ∈ hits ∧ lists h g n.
Proof.
  induction hits as [| h hits IH]; intros skills g n; cbn [foldl].
  - split; [auto |]. intros [H | (h & Hin & _)]; [exact H |]. inversion Hin.
  - rewrite IH. split.
    + intros [H | (h' & Hin & Hl)].
      * apply discover_step_sound in H as [H | H]; [auto |].
        right. exists h. split; [left | exact H].
      * right. exists h'. split; [right; exact Hin | exact Hl].
    + intros [H | (h' & Hin & Hl)].
      * left. apply dict_get_in_skills, H.
      * apply elem_of_cons in Hin as [-> | Hin].
        -- left. apply discover_step_lists, Hl.
        -- right. eauto.
Qed.

End InstallerMore2.

(** X17.  For a skill of the repository, [cmd_install] ends in
    [sys.exit(1)] exactly when [--force] is not given and the manifest of
    the target directory records a skill of the same group under another
    name: with [--force], or when the only recorded skill of the group is
    the skill itself, the one-per-group policy does not stop the
    install. *)
Theorem group_policy_iff {C} (a : Installer.install_args)
    (r : Installer.repo C) (now : string) (w : Installer.world C)
    (g : string) (info : Installer.skill_info) (t : Installer.target_dir) :
  t = Installer.get_target_dir (Installer.agent_or_default (Installer.ia_agent a)) →
  Installer.find_skill (Installer.ia_skill_name a)
    (Installer.discover_skills (Installer.repo_hits r)) = Some (g, info) →
  (∃ code w', Installer.cmd_install a r now w = (Installer.SysExit code, w')) ↔
  Installer.ia_force a = false
  ∧ ∃ other oinfo,
      Installer.installed_or_empty (Installer.load_manifest w t) !! other
      = Some oinfo
      ∧ Installer.i_group oinfo = Some g
      ∧ other ≠ Installer.ia_skill_name a.
Proof.
  intros Ht Hf. rewrite <- group_taken_iff.
  unfold Installer.cmd_install. rewrite <- Ht, Hf.
  destruct (Installer.group_taken _ g _ _).
  - split; [reflexivity | eauto].
  - split; [| discriminate]. intros (code & w' & H). exfalso.
    destruct (Installer.copy_skill r (Installer.si_path info) t w)
      as [[| c | e] w1] eqn:Ec.
    + destruct (Installer.m_installed _); discriminate.
    + eapply copy_skill_no_exit. exact Ec.
    + discriminate.
Qed.

Lemma group_policy_iff_witness :
  ∃ code w',
    Installer.cmd_install Samples.install_content_creator
      Samples.one_skill_repo "2025-06-01T12:00:00+00:00" Samples.seo_installed
    = (Installer.SysExit code, w').
Proof.
  apply (group_policy_iff Samples.install_content_creator
           Samples.one_skill_repo "2025-06-01T12:00:00+00:00"
           Samples.seo_installed "marketing"
           {| Installer.si_path := ["marketing"; "content-creator"];
              Installer.si_description :=
                "This skill should be used when a demo is needed.";
              Installer.si_has_scripts := false;
              Installer.si_has_references := false;
              Installer.si_has_assets := false |}
           Installer.ProjectSkills).
  - reflexivity.
  - vm_compute. reflexivity.
  - split; [reflexivity |].
    eexists "seo-optimizer", _. split; [vm_compute; reflexivity |].
    split; [reflexivity | discriminate].
Defined.

(** X18.  [discover_skills] lists a skill name under a group exactly when
    the walk met a SKILL.md whose path relative to the repository, file
    name included, has the group as first part and the name as second
    part and has no part [assets], [node_modules] or [.git].  The file
    name counts as a part: a SKILL.md that lies directly in a group
    directory is listed, as a skill named [SKILL.md].  When every SKILL.md
    lies at the root of the repository or has one of the three parts,
    nothing is listed. *)
Theorem discover_skills_iff (hits : list Installer.hit) (group name : string) :
  (InstallerReport.listed (Installer.discover_skills hits) group name ↔
   ∃ h, h ∈ hits ∧ InstallerReport.lists h group name)
  ∧ (∀ h, h ∈ hits →
          Installer.hit_parts h = [group; "SKILL.md"] →
          InstallerReport.excluded [group; "SKILL.md"] = false →
          InstallerReport.listed (Installer.discover_skills hits) group
            "SKILL.md")
  ∧ (Forall (λ h, (length (Installer.hit_parts h) < 2)%nat
                  ∨ InstallerReport.excluded (Installer.hit_parts h) = true)
            hits →
     Installer.discover_skills hits = []).
Proof.
  assert (Hiff : ∀ g n,
    InstallerReport.listed (Installer.discover_skills hits) g n ↔
    ∃ h, h ∈ hits ∧ InstallerReport.lists h g n).
  { intros g n. unfold Installer.discover_skills. rewrite discover_fold. split.
    - intros [(gs & info & Hg & _) | H]; [discriminate | exact H].
    - auto. }
  split; [apply Hiff |]. split.
  - intros h Hin Hp Hex. apply Hiff. exists h. split; [exact Hin |].
    unfold InstallerReport.lists. rewrite Hp. split; [exact Hex |].
    exists []. reflexivity.
  - intros Hall. clear Hiff. unfold Installer.discover_skills.
    generalize ([] : Installer.skills_dict).
    induction Hall as [| h hits' Hh _ IH]; intros skills; cbn [foldl];
      [reflexivity |].
    rewrite IH. unfold Installer.discover_step.
    fold (InstallerReport.excluded (Installer.hit_parts h)).
    destruct Hh as [Hlen | ->]; [| reflexivity].
    destruct (InstallerReport.excluded (Installer.hit_parts h)); [reflexivity |].
    destruct (Installer.hit_parts h) as [| a [| b rest]]; simpl in Hlen;
      [reflexivity | reflexivity | lia].
Qed.



(* ===================================================================== *)
(** * Further properties of skills_index_builder.py                       *)
(* ===================================================================== *)

Section IndexMore.
Import IndexBuild.







End IndexMore.

